(** * Writing file data over NFS: the write-back cache of fs/nfs/write.c

    A shallow embedding of the request store, the per-inode write index,
    the coalescer, the RPC completion handlers and the synchronous
    page-write path, with the properties the design document states
    about them.

    Conventions of the embedding.
    - [struct nfs_page] objects live in a heap [mem] indexed by their
      address; a freed object is deleted from the heap.
    - An intrusive [struct list_head] chain is the sequence of the
      addresses of the objects linked on it, kept by the address of its
      head.  [list_empty(&req->wb_list)] holds when [req] is on no such
      chain, [list_empty(&req->wb_hash)] when it is not on the inode's
      [writeback] chain.
    - The development follows one inode: every [struct file] of the model
      is an open file of it.
    - [unsigned int] and [unsigned long] are 32 bits wide (i386), written
      [u32]; [int] is [s32].
    - [printk]/[dprintk] diagnostics and the flush daemon's scheduling
      ([inode_schedule_scan], [inode_remove_flushd]) are not part of the
      modelled state.
    - The attributes of the inode appear in the synchronous page-write
      path only, where [nfs_writepage_sync] reads and writes them; the
      refresh of the attributes by the completion handlers
      ([nfs_write_attributes] in [nfs_writeback_done], [nfs_refresh_inode]
      in [nfs_commit_done]) touches nothing of the request store and is
      left out there. *)

From stdpp Require Import gmap list sorting.
Open Scope Z_scope.

(** ** Machine integers *)

Definition u32 (z : Z) : Z := z mod 2 ^ 32.
Definition s32 (z : Z) : Z := (z + 2 ^ 31) mod 2 ^ 32 - 2 ^ 31.

(** ** Data *)

Abbreviation ptr := positive.
Abbreviation lhead := positive.

(** [struct page], as far as this file looks at it: its address and
    [page->index]. *)
Record page := Page { pg_addr : Z; index : Z }.

(** [struct nfs_writeverf]: the commit cookie. *)
Record nfs_writeverf := Verf { committed : Z; verifier : Z }.

(** [struct nfs_page].  The [wb_hash] and [wb_list] nodes are the chains
    of [state]; [wb_wait] is the [woken] log of [state]. *)
Record nfs_page := NfsPage {
  wb_list_head : option lhead;
  wb_file : Z;
  wb_cred : Z;
  wb_page : page;
  wb_timeout : Z;
  wb_offset : Z;
  wb_bytes : Z;
  wb_count : Z;
  wb_flags : Z;
  wb_verf : nfs_writeverf }.

Definition PG_BUSY : Z := 1.

Record state := State {
  mem : gmap ptr nfs_page;
  lists : gmap lhead (list ptr);
  writeback : list ptr;
  npages : Z;
  ndirty : Z;
  ncommit : Z;
  f_error : gmap Z Z;
  nfs_nr_requests : Z;
  woken : list ptr }.

(** The two list heads of the inode, [&inode->u.nfs_i.dirty] and
    [&inode->u.nfs_i.commit]. *)
Definition I_DIRTY : lhead := 1%positive.
Definition I_COMMIT : lhead := 2%positive.

(** *** Field updates *)

Definition set_wb_list_head (v : option lhead) (r : nfs_page) : nfs_page :=
  NfsPage v (wb_file r) (wb_cred r) (wb_page r) (wb_timeout r) (wb_offset r)
          (wb_bytes r) (wb_count r) (wb_flags r) (wb_verf r).
Definition set_wb_timeout (v : Z) (r : nfs_page) : nfs_page :=
  NfsPage (wb_list_head r) (wb_file r) (wb_cred r) (wb_page r) v (wb_offset r)
          (wb_bytes r) (wb_count r) (wb_flags r) (wb_verf r).
Definition set_wb_offset (v : Z) (r : nfs_page) : nfs_page :=
  NfsPage (wb_list_head r) (wb_file r) (wb_cred r) (wb_page r) (wb_timeout r) v
          (wb_bytes r) (wb_count r) (wb_flags r) (wb_verf r).
Definition set_wb_bytes (v : Z) (r : nfs_page) : nfs_page :=
  NfsPage (wb_list_head r) (wb_file r) (wb_cred r) (wb_page r) (wb_timeout r)
          (wb_offset r) v (wb_count r) (wb_flags r) (wb_verf r).
Definition set_wb_count (v : Z) (r : nfs_page) : nfs_page :=
  NfsPage (wb_list_head r) (wb_file r) (wb_cred r) (wb_page r) (wb_timeout r)
          (wb_offset r) (wb_bytes r) v (wb_flags r) (wb_verf r).
Definition set_wb_flags (v : Z) (r : nfs_page) : nfs_page :=
  NfsPage (wb_list_head r) (wb_file r) (wb_cred r) (wb_page r) (wb_timeout r)
          (wb_offset r) (wb_bytes r) (wb_count r) v (wb_verf r).
Definition set_wb_verf (v : nfs_writeverf) (r : nfs_page) : nfs_page :=
  NfsPage (wb_list_head r) (wb_file r) (wb_cred r) (wb_page r) (wb_timeout r)
          (wb_offset r) (wb_bytes r) (wb_count r) (wb_flags r) v.

Definition set_mem (v : gmap ptr nfs_page) (s : state) : state :=
  State v (lists s) (writeback s) (npages s) (ndirty s) (ncommit s)
        (f_error s) (nfs_nr_requests s) (woken s).
Definition set_lists (v : gmap lhead (list ptr)) (s : state) : state :=
  State (mem s) v (writeback s) (npages s) (ndirty s) (ncommit s)
        (f_error s) (nfs_nr_requests s) (woken s).
Definition set_writeback (v : list ptr) (s : state) : state :=
  State (mem s) (lists s) v (npages s) (ndirty s) (ncommit s)
        (f_error s) (nfs_nr_requests s) (woken s).
Definition set_npages (v : Z) (s : state) : state :=
  State (mem s) (lists s) (writeback s) v (ndirty s) (ncommit s)
        (f_error s) (nfs_nr_requests s) (woken s).
Definition set_ndirty (v : Z) (s : state) : state :=
  State (mem s) (lists s) (writeback s) (npages s) v (ncommit s)
        (f_error s) (nfs_nr_requests s) (woken s).
Definition set_ncommit (v : Z) (s : state) : state :=
  State (mem s) (lists s) (writeback s) (npages s) (ndirty s) v
        (f_error s) (nfs_nr_requests s) (woken s).
Definition set_f_error (v : gmap Z Z) (s : state) : state :=
  State (mem s) (lists s) (writeback s) (npages s) (ndirty s) (ncommit s)
        v (nfs_nr_requests s) (woken s).
Definition set_nfs_nr_requests (v : Z) (s : state) : state :=
  State (mem s) (lists s) (writeback s) (npages s) (ndirty s) (ncommit s)
        (f_error s) v (woken s).
Definition set_woken (v : list ptr) (s : state) : state :=
  State (mem s) (lists s) (writeback s) (npages s) (ndirty s) (ncommit s)
        (f_error s) (nfs_nr_requests s) v.

(** *** Reading and writing through a request pointer *)

Definition null_page : nfs_page :=
  NfsPage None 0 0 (Page 0 0) 0 0 0 0 0 (Verf 0 0).

(** [*req].  A pointer that is not live reads as a zeroed object; the C
    code never follows one. *)
Definition deref (s : state) (req : ptr) : nfs_page :=
  default null_page (mem s !! req).

(** [req->field = ...] *)
Definition upd (req : ptr) (f : nfs_page → nfs_page) (s : state) : state :=
  set_mem (alter f req (mem s)) s.

(** [page_index(req->wb_page)] *)
Definition page_index (s : state) (req : ptr) : Z := index (wb_page (deref s req)).

(** The chain hanging off one head. *)
Definition chain (s : state) (h : lhead) : list ptr := lists s !!! h.

(** [!list_empty(&req->wb_list)] *)
Definition on_list (s : state) (req : ptr) : bool :=
  bool_decide (map_Exists (λ _ l, req ∈ l) (lists s)).

(** [!list_empty(&req->wb_hash)] *)
Definition hashed (s : state) (req : ptr) : bool :=
  bool_decide (req ∈ writeback s).

(** [NFS_WBACK_BUSY(req)] *)
Definition NFS_WBACK_BUSY (r : nfs_page) : Z := Z.land (wb_flags r) PG_BUSY.

(** [list_del(&req->wb_list)]: unlink the node from the chain it is on. *)
Definition list_del (req : ptr) (ls : gmap lhead (list ptr)) : gmap lhead (list ptr) :=
  (λ l, filter (λ q, q ≠ req) l) <$> ls.

(** ** The per-inode write index *)

(** [nfs_inode_add_request] *)
Definition nfs_inode_add_request (req : ptr) (s : state) : state :=
  if hashed s req then s
  else
    let s1 := set_npages (u32 (npages s + 1)) s in
    let s2 := set_writeback (req :: writeback s1) s1 in
    upd req (λ r, set_wb_count (u32 (wb_count r + 1)) r) s2.

(** The backward walk of [nfs_list_add_request]: [rl] is the chain read
    from [head->prev]; the request goes right after the first entry whose
    page index is smaller. *)
Fixpoint list_add_prev (s : state) (req : ptr) (rl : list ptr) : list ptr :=
  match rl with
  | [] => [req]
  | p :: rest =>
      if page_index s p <? page_index s req then req :: rl
      else p :: list_add_prev s req rest
  end.

(** [nfs_list_add_request] *)
Definition nfs_list_add_request (req : ptr) (h : lhead) (s : state) : state :=
  if on_list s req then s
  else if negb (hashed s req) then s
  else
    let l := reverse (list_add_prev s req (reverse (chain s h))) in
    let s1 := set_lists (<[h := l]> (lists s)) s in
    upd req (set_wb_list_head (Some h)) s1.

(** [nfs_list_remove_request] *)
Definition nfs_list_remove_request (req : ptr) (s : state) : state :=
  if negb (on_list s req) then s
  else
    let s1 := set_lists (list_del req (lists s)) s in
    upd req (set_wb_list_head None) s1.

(** [nfs_mark_request_dirty] *)
Definition nfs_mark_request_dirty (req : ptr) (s : state) : state :=
  if negb (on_list s req) then
    let s1 := nfs_list_add_request req I_DIRTY s in
    set_ndirty (u32 (ndirty s1 + 1)) s1
  else s.

(** [nfs_dirty_request] *)
Definition nfs_dirty_request (s : state) (req : ptr) : bool :=
  on_list s req && bool_decide (wb_list_head (deref s req) = Some I_DIRTY).

(** [nfs_mark_request_commit] *)
Definition nfs_mark_request_commit (req : ptr) (s : state) : state :=
  if negb (on_list s req) then
    let s1 := nfs_list_add_request req I_COMMIT s in
    set_ncommit (u32 (ncommit s1 + 1)) s1
  else s.

(** ** The request store *)

(** [nfs_lock_request] *)
Definition nfs_lock_request (req : ptr) (s : state) : bool * state :=
  if negb (NFS_WBACK_BUSY (deref s req) =? 0) then (false, s)
  else
    (true,
     upd req (λ r, set_wb_flags (Z.lor (wb_flags r) PG_BUSY)
                     (set_wb_count (u32 (wb_count r + 1)) r)) s).

(** [nfs_inode_remove_request], with the [nfs_release_request] it ends
    in passed as [release]. *)
Definition nfs_inode_remove_request_with (release : ptr → state → state)
    (req : ptr) (s : state) : state :=
  if negb (hashed s req) then s
  else
    let s1 := set_writeback (filter (λ q, q ≠ req) (writeback s)) s in
    let s2 := set_npages (u32 (npages s1 - 1)) s1 in
    release req s2.

(** [nfs_release_request].  It calls [nfs_inode_remove_request] for a
    request that is still hashed, which calls it back; [fuel] bounds the
    nesting of these calls, and [release_fuel] shows that two levels are
    all the code ever uses.  The references to the credential, the file
    and the page that it drops, [cache->nr_requests] and the wake-up of
    [cache->request_wait] are outside the modelled state. *)
Fixpoint nfs_release_request_aux (fuel : nat) (req : ptr) (s : state) : state :=
  match fuel with
  | O => s
  | S fuel' =>
      let c := u32 (wb_count (deref s req) - 1) in
      let s1 := upd req (set_wb_count c) s in
      if negb (c =? 0) then s1
      else
        let s2 := if on_list s1 req then nfs_list_remove_request req s1 else s1 in
        let s3 :=
          if hashed s2 req
          then nfs_inode_remove_request_with (nfs_release_request_aux fuel') req s2
          else s2 in
        let s4 := set_mem (delete req (mem s3)) s3 in
        set_nfs_nr_requests (u32 (nfs_nr_requests s4 - 1)) s4
  end.

Definition nfs_release_request : ptr → state → state :=
  nfs_release_request_aux 2.

Definition nfs_inode_remove_request : ptr → state → state :=
  nfs_inode_remove_request_with nfs_release_request.

(** [nfs_unlock_request] *)
Definition nfs_unlock_request (req : ptr) (s : state) : state :=
  if NFS_WBACK_BUSY (deref s req) =? 0 then s
  else
    let s1 := upd req (λ r, set_wb_flags (Z.land (wb_flags r) (Z.lnot PG_BUSY)) r) s in
    let s2 := set_woken (req :: woken s1) s1 in
    nfs_release_request req s2.

(** [_nfs_find_request] *)
Definition _nfs_find_request (pg : page) (s : state) : option ptr * state :=
  match list_find (λ q, page_index s q = index pg) (writeback s) with
  | Some (_, req) =>
      (Some req, upd req (λ r, set_wb_count (u32 (wb_count r + 1)) r) s)
  | None => (None, s)
  end.

(** ** Constants of headers that are not part of this source tree

    [PAGE_CACHE_SIZE] and [PAGE_CACHE_SHIFT] (linux/pagemap.h), the
    admission limits [MAX_REQUEST_SOFT] and [MAX_REQUEST_HARD] and the
    commit delay [NFS_COMMIT_DELAY] (linux/nfs_flushd.h), [NFS_UNSTABLE]
    (linux/nfs.h), [EIO], [ENOMEM] and [EBUSY] (asm/errno.h), and whether
    the file is built with [CONFIG_NFS_V3]. *)

Section Write.

Variable PAGE_CACHE_SIZE : Z.
Variable PAGE_CACHE_SHIFT : Z.
Variable MAX_REQUEST_SOFT : Z.
Variable MAX_REQUEST_HARD : Z.
Variable NFS_COMMIT_DELAY : Z.
Variable NFS_UNSTABLE : Z.
Variable EIO ENOMEM EBUSY : Z.
Variable CONFIG_NFS_V3 : bool.

(** [nfs_wb_page] of linux/nfs_fs.h, which is not part of this source
    tree: it writes back the requests of a page and waits for them, and
    returns a negative error or [0]. *)
Variable nfs_wb_page : page → state → Z * state.

(** [page_offset] of linux/pagemap.h, the offset in the file at which a
    page begins, and the stability levels [NFS_DATA_SYNC] and
    [NFS_FILE_SYNC] of linux/nfs.h. *)
Variable page_offset : page → Z.
Variable NFS_DATA_SYNC NFS_FILE_SYNC : Z.

(** ** Scanning a list for requests to send *)

(** The index window of [nfs_scan_list] and [nfs_wait_on_requests]. *)
Definition idx_start_of (start : Z) : Z := Z.shiftr start PAGE_CACHE_SHIFT.
Definition idx_end_of (start count : Z) : Z :=
  if count =? 0 then u32 (Z.lnot 0)
  else u32 (idx_start_of start + Z.shiftr count PAGE_CACHE_SHIFT).

(** One turn of the loop of [nfs_scan_list] on the entry [req].  A file
    pointer of [0] is [NULL]. *)
Definition scan_step (dst : lhead) (file idx_start idx_end : Z)
    (acc : Z * state) (req : ptr) : Z * state :=
  let '(pages, s) := acc in
  let r := deref s req in
  if negb (file =? 0) && negb (wb_file r =? file) then acc
  else if (index (wb_page r) <? idx_start) || (idx_end <? index (wb_page r)) then acc
  else
    let '(ok, s1) := nfs_lock_request req s in
    if negb ok then acc
    else
      (s32 (pages + 1),
       nfs_list_add_request req dst (nfs_list_remove_request req s1)).

(** [nfs_scan_list].  The loop reads [p->next] before it moves the entry
    [p] away, so it visits the entries the chain had on entry, in order. *)
Definition nfs_scan_list (src dst : lhead) (file start count : Z) (s : state)
    : Z * state :=
  foldl (scan_step dst file (idx_start_of start) (idx_end_of start count))
        (0, s) (chain s src).

(** [nfs_scan_dirty] *)
Definition nfs_scan_dirty (dst : lhead) (file start count : Z) (s : state)
    : Z * state :=
  let '(pages, s1) := nfs_scan_list I_DIRTY dst file start count s in
  (pages, set_ndirty (u32 (ndirty s1 - pages)) s1).

(** [nfs_scan_commit] *)
Definition nfs_scan_commit (dst : lhead) (file start count : Z) (s : state)
    : Z * state :=
  let '(pages, s1) := nfs_scan_list I_COMMIT dst file start count s in
  (pages, set_ncommit (u32 (ncommit s1 - pages)) s1).

(** ** The coalescer *)

(** The three tests made on a request that is not the first of its batch. *)
Definition coalesce_break (s : state) (prev : option ptr) (req : ptr) : bool :=
  match prev with
  | None => false
  | Some pv =>
      negb (wb_file (deref s req) =? wb_file (deref s pv))
      || negb (page_index s req =? u32 (page_index s pv + 1))
      || negb (wb_offset (deref s req) =? 0)
  end.

(** The loop of [coalesce_requests]; [None] when [fuel] turns of the loop
    were not enough to leave it. *)
Fixpoint coalesce_loop (fuel : nat) (src dst : lhead) (maxpages : Z)
    (prev : option ptr) (pages : Z) (s : state) : option (Z * state) :=
  match fuel with
  | O => None
  | S fuel' =>
      match chain s src with
      | [] => Some (pages, s)
      | req :: _ =>
          if coalesce_break s prev req then Some (pages, s)
          else
            let s1 := nfs_list_add_request req dst (nfs_list_remove_request req s) in
            let pages1 := u32 (pages + 1) in
            let r := deref s1 req in
            if negb (u32 (wb_offset r + wb_bytes r) =? PAGE_CACHE_SIZE)
            then Some (pages1, s1)
            else if maxpages <=? pages1 then Some (pages1, s1)
            else coalesce_loop fuel' src dst maxpages (Some req) pages1 s1
      end
  end.

(** [coalesce_requests] *)
Definition coalesce_requests (fuel : nat) (src dst : lhead) (maxpages : Z)
    (s : state) : option (Z * state) :=
  coalesce_loop fuel src dst maxpages None 0 s.

(** ** Completion of the WRITE and COMMIT calls *)

(** [struct nfs_write_data], as far as the completion handlers read it. *)
Record nfs_write_data := WData {
  wd_file : Z;
  args_count : Z;
  args_stable : Z;
  res_count : Z;
  wd_verf : nfs_writeverf;
  wd_pages : lhead }.

(** [while (!list_empty(head)) { req = nfs_list_entry(head->next); body }];
    [None] when [fuel] turns were not enough. *)
Fixpoint drain (fuel : nat) (body : ptr → state → state) (h : lhead) (s : state)
    : option state :=
  match fuel with
  | O => None
  | S fuel' =>
      match chain s h with
      | [] => Some s
      | req :: _ => drain fuel' body h (body req s)
      end
  end.

(** [req->wb_file->f_error = status] *)
Definition set_file_error (req : ptr) (status : Z) (s : state) : state :=
  set_f_error (<[wb_file (deref s req) := status]> (f_error s)) s.

(** The status the loop of [nfs_writeback_done] sees: a short write of a
    call that did not fail is turned into [-EIO]. *)
Definition writeback_status (data : nfs_write_data) (tk_status : Z) : Z :=
  if (res_count data <? args_count data) && (0 <=? tk_status) then - EIO
  else tk_status.

(** The body of the loop of [nfs_writeback_done]. *)
Definition writeback_done_req (jiffies : Z) (data : nfs_write_data) (status : Z)
    (req : ptr) (s : state) : state :=
  let s1 := nfs_list_remove_request req s in
  let s2 :=
    if status <? 0 then nfs_inode_remove_request req (set_file_error req status s1)
    else if CONFIG_NFS_V3 then
      if negb (committed (wd_verf data) =? NFS_UNSTABLE)
      then nfs_inode_remove_request req s1
      else
        nfs_mark_request_commit req
          (upd req (λ r, set_wb_timeout (u32 (jiffies + NFS_COMMIT_DELAY))
                           (set_wb_verf (wd_verf data) r)) s1)
    else nfs_inode_remove_request req s1 in
  nfs_unlock_request req s2.

(** [nfs_writeback_done] *)
Definition nfs_writeback_done (fuel : nat) (jiffies : Z) (data : nfs_write_data)
    (tk_status : Z) (s : state) : option state :=
  drain fuel (writeback_done_req jiffies data (writeback_status data tk_status))
        (wd_pages data) s.

(** The body of the loop of [nfs_commit_done]. *)
Definition commit_done_req (data : nfs_write_data) (status : Z)
    (req : ptr) (s : state) : state :=
  let s1 := nfs_list_remove_request req s in
  let s2 :=
    if status <? 0 then nfs_inode_remove_request req (set_file_error req status s1)
    else if verifier (wb_verf (deref s1 req)) =? verifier (wd_verf data)
    then nfs_inode_remove_request req s1
    else nfs_mark_request_dirty req s1 in
  nfs_unlock_request req s2.

(** [nfs_commit_done] *)
Definition nfs_commit_done (fuel : nat) (data : nfs_write_data) (tk_status : Z)
    (s : state) : option state :=
  drain fuel (commit_done_req data tk_status) (wd_pages data) s.

(** ** Creating a request: the admission limits *)

(** What the rest of the system does during one turn of the wait loop of
    [nfs_create_request]: the effect of [nfs_wb_file(inode, file)], what
    [nfs_page_alloc] returns when it is called, what has happened to the
    state when the caller wakes from its sleep of [1 * HZ] on
    [cache->request_wait], and whether [signalled()] holds then. *)
Record turn := Turn {
  wb_file_effect : state → state;
  page_alloc : option ptr;
  sleep_effect : state → state;
  signalled : bool }.

(** Where a caller of [nfs_create_request] is after some turns of the
    loop: out of it with a request, out of it on a signal, or still in
    it. *)
Inductive admission := Got (req : ptr) | Interrupted | Asleep.

(** The [do ... while (!req)] loop of [nfs_create_request]; [intr] is
    [NFS_SERVER(inode)->flags & NFS_MOUNT_INTR], [env i] is turn [i]. *)
Fixpoint create_loop (fuel : nat) (intr : bool) (env : nat → turn) (i : nat)
    (s : state) : admission * state :=
  match fuel with
  | O => (Asleep, s)
  | S fuel' =>
      let t := env i in
      let s1 :=
        if MAX_REQUEST_SOFT <=? nfs_nr_requests s then wb_file_effect t s else s in
      let req :=
        if nfs_nr_requests s1 <? MAX_REQUEST_HARD then page_alloc t else None in
      match req with
      | Some r => (Got r, s1)
      | None =>
          let s2 := sleep_effect t s1 in
          if intr && signalled t then (Interrupted, s2)
          else create_loop fuel' intr env (S i) s2
      end
  end.

(** The surroundings of one call of [nfs_create_request]. *)
Record create_env := CreateEnv {
  mount_intr : bool;
  turns : nat → turn;
  wb_timeout_init : Z;
  cred : Z }.

(** [nfs_create_request]: [Some (Some req, _)] for a request,
    [Some (None, _)] for [NULL], [None] while the caller is in the loop.
    [wb_timeout_init] is the deadline [jiffies + NFS_WRITEBACK_DELAY] or
    [jiffies + NFS_WRITEBACK_LOCKDELAY] that [region_locked] chooses,
    [cred] what [rpcauth_lookupcred] returns.  The references taken on the
    page and the file and [cache->nr_requests] are outside the modelled
    state. *)
Definition nfs_create_request (fuel : nat) (e : create_env)
    (file : Z) (pg : page) (offset count : Z) (s : state)
    : option (option ptr * state) :=
  match create_loop fuel (mount_intr e) (turns e) 0 s with
  | (Asleep, _) => None
  | (Interrupted, s1) => Some (None, s1)
  | (Got req, s1) =>
      let r := NfsPage None file (cred e) pg (wb_timeout_init e)
                 (u32 offset) (u32 count) 1 0 (Verf 0 0) in
      let s2 := set_mem (<[req := r]> (mem s1)) s1 in
      Some (Some req, set_nfs_nr_requests (u32 (nfs_nr_requests s2 + 1)) s2)
  end.

(** ** Updating the request of a page *)

(** One pass of the [for (;;)] loop of [nfs_update_request], up to the
    creation of a request: the loop is left with a locked request, the
    caller has to wait for a busy one, or there is none for the page. *)
Inductive pass := Break (req : ptr) | Wait (req : ptr) | Missing.

Definition update_pass (pg : page) (new : option ptr) (s : state) : pass * state :=
  match _nfs_find_request pg s with
  | (Some req, s1) =>
      let '(ok, s2) := nfs_lock_request req s1 in
      if ok then
        (Break req, match new with Some n => nfs_release_request n s2 | None => s2 end)
      else (Wait req, s2)
  | (None, s1) =>
      match new with
      | Some n =>
          let s2 := snd (nfs_lock_request n s1) in
          let s3 := nfs_inode_add_request n s2 in
          (Break n, nfs_mark_request_dirty n s3)
      | None => (Missing, s1)
      end
  end.

(** How a call of [nfs_update_request] ends: with the request, with
    [ERR_PTR(err)], or with the caller asleep (in [nfs_wait_on_request]
    on a busy request, or in the wait loop of [nfs_create_request]). *)
Inductive update_outcome := UpdReq (req : ptr) | UpdErr (err : Z) | UpdAsleep.

Fixpoint update_loop (fuel : nat) (e : create_env) (file : Z) (pg : page)
    (offset bytes : Z) (new : option ptr) (s : state) : update_outcome * state :=
  match fuel with
  | O => (UpdAsleep, s)
  | S fuel' =>
      match update_pass pg new s with
      | (Break req, s1) => (UpdReq req, s1)
      | (Wait _, s1) => (UpdAsleep, s1)
      | (Missing, s1) =>
          match nfs_create_request fuel e file pg offset bytes s1 with
          | None => (UpdAsleep, s1)
          | Some (None, s2) => (UpdErr (- ENOMEM), s2)
          | Some (Some n, s2) => update_loop fuel' e file pg offset bytes (Some n) s2
          end
      end
  end.

(** [nfs_update_request] *)
Definition nfs_update_request (fuel : nat) (e : create_env) (file : Z) (pg : page)
    (offset bytes : Z) (s : state) : update_outcome * state :=
  let end_ := u32 (offset + bytes) in
  match update_loop fuel e file pg offset bytes None s with
  | (UpdReq req, s1) =>
      let r := deref s1 req in
      let rqend := u32 (wb_offset r + wb_bytes r) in
      if negb (wb_file r =? file)
         || negb (pg_addr (wb_page r) =? pg_addr pg)
         || negb (nfs_dirty_request s1 req)
         || (rqend <? offset) || (end_ <? wb_offset r)
      then (UpdErr (- EBUSY), nfs_release_request req (nfs_unlock_request req s1))
      else
        let s2 :=
          if offset <? wb_offset r
          then upd req (λ r, set_wb_bytes (u32 (rqend - u32 offset))
                               (set_wb_offset (u32 offset) r)) s1
          else s1 in
        let s3 :=
          if rqend <? end_
          then upd req (λ r, set_wb_bytes (u32 (end_ - wb_offset r)) r) s2
          else s2 in
        (UpdReq req, nfs_unlock_request req s3)
  | other => other
  end.

(** ** Writing a page synchronously *)

(** The attributes of a file that a reply carries ([struct nfs_fattr]
    of linux/nfs.h) and the inode, as far as [nfs_writepage_sync] names
    their fields; [fa_other] and [i_other] stand for the rest of them. *)
Record nfs_fattr := Fattr {
  fa_size : Z;
  fa_mtime : Z;
  fa_fileid : Z;
  fa_other : Z }.

Record nfs_inode := Inode {
  i_size : Z;
  i_mtime : Z;
  i_ino : Z;
  i_other : Z }.

Definition set_fa_size (v : Z) (f : nfs_fattr) : nfs_fattr :=
  Fattr v (fa_mtime f) (fa_fileid f) (fa_other f).
Definition set_i_size (v : Z) (i : nfs_inode) : nfs_inode :=
  Inode v (i_mtime i) (i_ino i) (i_other i).
Definition set_i_mtime (v : Z) (i : nfs_inode) : nfs_inode :=
  Inode (i_size i) v (i_ino i) (i_other i).

(** [nfs_refresh_inode] of linux/nfs_fs.h, which is not part of this
    source tree: it stores the attributes of a reply in the inode. *)
Variable nfs_refresh_inode : nfs_inode → nfs_fattr → nfs_inode.

(** One call of [nfs_proc_write]: the offset in the file, the number of
    bytes, and where in the page the bytes are taken from
    ([buffer - kmap(page)]). *)
Record write_call := WriteCall {
  wr_offset : Z;
  wr_count : Z;
  wr_buffer : Z }.

(** What [nfs_writepage_sync] leaves behind: its return value, the
    inode, whether the page is still up to date, and the calls of
    [nfs_proc_write] it has made, in their order. *)
Record sync_result := SyncResult {
  sync_ret : Z;
  sync_inode : nfs_inode;
  sync_uptodate : bool;
  sync_calls : list write_call }.

(** The [do ... while (count)] loop of [nfs_writepage_sync];
    [reply n] is what the [n]-th [nfs_proc_write] returns.
    [IS_SWAPFILE(inode)] is [0].  The result is [result], [written],
    [inode->i_size], whether the loop was left by [goto io_error],
    [refresh], the number of the last call, whose attributes [fattr]
    holds, and the calls made. *)
Fixpoint sync_loop (fuel : nat) (reply : nat → Z) (n : nat)
    (wsize count offset buffer written isize : Z) (refresh : bool)
    (calls : list write_call)
    : option (Z * Z * Z * bool * bool * nat * list write_call) :=
  match fuel with
  | O => None
  | S fuel' =>
      let wsize1 := if count <? wsize then count else wsize in
      let result := reply n in
      let calls1 := calls ++ [WriteCall offset wsize1 buffer] in
      if result <? 0 then Some (result, written, isize, true, refresh, n, calls1)
      else
        let buffer1 := buffer + wsize1 in
        let offset1 := u32 (offset + wsize1) in
        let written1 := s32 (written + wsize1) in
        let count1 := u32 (count - wsize1) in
        let isize1 := if isize <? offset1 then offset1 else isize in
        if count1 =? 0 then Some (result, written1, isize1, false, true, n, calls1)
        else sync_loop fuel' reply (S n) wsize1 count1 offset1 buffer1 written1 isize1
               true calls1
  end.

(** What [nfs_writepage_sync] does with the attributes of the last reply
    when it refreshes the inode: a size below [inode->i_size] is raised
    to it, and if the reply is for this inode its [mtime] is taken over
    and [nfs_refresh_inode] is called. *)
Definition refresh_after_write (inode : nfs_inode) (fattr : nfs_fattr) : nfs_inode :=
  let fattr1 :=
    if fa_size fattr <? i_size inode then set_fa_size (i_size inode) fattr else fattr in
  if i_ino inode =? fa_fileid fattr1
  then nfs_refresh_inode (set_i_mtime (fa_mtime fattr1) inode) fattr1
  else inode.

(** [nfs_writepage_sync]; [wsize] is [NFS_SERVER(inode)->wsize],
    [pg_offset] is [page->index << PAGE_CACHE_SHIFT], and [attrs n] are
    the attributes that the [n]-th [nfs_proc_write] stores in [fattr]. *)
Definition nfs_writepage_sync (fuel : nat) (reply : nat → Z) (attrs : nat → nfs_fattr)
    (wsize pg_offset offset count : Z) (inode : nfs_inode) (uptodate : bool)
    : option sync_result :=
  match sync_loop fuel reply 0 wsize count (u32 (offset + pg_offset)) offset 0
          (i_size inode) false [] with
  | None => None
  | Some (result, written, isize1, io_error, refresh, n, calls) =>
      let inode1 := set_i_size isize1 inode in
      Some (SyncResult (if written =? 0 then result else written)
                       (if refresh && (0 <=? result)
                        then refresh_after_write inode1 (attrs n) else inode1)
                       (if io_error then false else uptodate)
                       calls)
  end.

(** ** Looking up the request of a page *)

(** [nfs_find_request]: [_nfs_find_request] under [nfs_wreq_lock]. *)
Definition nfs_find_request (pg : page) (s : state) : option ptr * state :=
  _nfs_find_request pg s.

(** ** Writing a page of a mapping *)

(** [nfs_writepage].  [inode->i_size] is a [loff_t]; [end_index] and
    [offset] are 32 bits wide, and [err == offset] compares them as
    unsigned values. *)
Definition nfs_writepage (fuel : nat) (reply : nat → Z) (attrs : nat → nfs_fattr)
    (wsize : Z) (pg : page) (inode : nfs_inode) (uptodate : bool)
    : option sync_result :=
  let end_index := u32 (Z.shiftr (i_size inode) PAGE_CACHE_SHIFT) in
  let do_it (offset : Z) :=
    match nfs_writepage_sync fuel reply attrs wsize
            (Z.shiftl (index pg) PAGE_CACHE_SHIFT) 0 offset inode uptodate with
    | None => None
    | Some r =>
        Some (SyncResult (if u32 (sync_ret r) =? offset then 0 else sync_ret r)
                         (sync_inode r) (sync_uptodate r) (sync_calls r))
    end in
  if index pg <? end_index then do_it (u32 PAGE_CACHE_SIZE)
  else
    let offset := u32 (Z.land (i_size inode) (PAGE_CACHE_SIZE - 1)) in
    if (u32 (end_index + 1) <=? index pg) || (offset =? 0)
    then Some (SyncResult (- EIO) inode uptodate [])
    else do_it offset.

(** ** Flushing a request that a write cannot join *)

(** [nfs_flush_incompatible] *)
Definition nfs_flush_incompatible (file : Z) (pg : page) (s : state) : Z * state :=
  match nfs_find_request pg s with
  | (Some req, s1) =>
      let r := deref s1 req in
      let '(status, s2) :=
        if negb (wb_file r =? file) || negb (pg_addr (wb_page r) =? pg_addr pg)
        then nfs_wb_page pg s1
        else (0, s1) in
      (if status <? 0 then status else 0, nfs_release_request req s2)
  | (None, s1) => (0, s1)
  end.

(** ** Setting up and sending a WRITE call *)

(** What the set-up of a call fills in of [struct nfs_write_data] beside
    the fields the completion handlers read: the credential,
    [args.offset], [args.nriov] and the entries of [args.iov] in use,
    each one a page, an offset in the page and a length. *)
Record rpc_call := RpcCall {
  rc_data : nfs_write_data;
  rc_cred : Z;
  args_offset : Z;
  args_nriov : Z;
  args_iov : list (page * Z * Z) }.

(** The loop of [nfs_write_rpcsetup]; [None] when [fuel] turns were not
    enough. *)
Fixpoint write_rpcsetup_loop (fuel : nat) (head pages : lhead)
    (iov : list (page * Z * Z)) (count nriov : Z) (s : state)
    : option (list (page * Z * Z) * Z * Z * state) :=
  match fuel with
  | O => None
  | S fuel' =>
      match chain s head with
      | [] => Some (iov, count, nriov, s)
      | req :: _ =>
          let s1 := nfs_list_add_request req pages (nfs_list_remove_request req s) in
          let r := deref s1 req in
          write_rpcsetup_loop fuel' head pages
            (iov ++ [(wb_page r, wb_offset r, wb_bytes r)])
            (u32 (count + wb_bytes r)) (u32 (nriov + 1)) s1
      end
  end.

(** [nfs_write_rpcsetup] on the data that [nfs_writedata_alloc] has
    zeroed; [pages] is the address of [data->pages].  With nothing on
    [data->pages] after the loop the C code reads the list head as if it
    were a request; the model gives [None] then as well.  [args.offset]
    is wide enough for the sum it is set to. *)
Definition nfs_write_rpcsetup (fuel : nat) (head pages : lhead) (s : state)
    : option (rpc_call * state) :=
  match write_rpcsetup_loop fuel head pages [] 0 0 s with
  | None => None
  | Some (iov, count, nriov, s1) =>
      match chain s1 pages with
      | [] => None
      | req :: _ =>
          let r := deref s1 req in
          Some (RpcCall (WData (wb_file r) count 0 count (Verf 0 0) pages)
                        (wb_cred r) (page_offset (wb_page r) + wb_offset r) nriov iov,
                s1)
      end
  end.

(** The turn of the loops that give up a list of locked requests: the
    request goes back to the dirty list, or to the commit list, and is
    unlocked. *)
Definition redirty_req (req : ptr) (s : state) : state :=
  nfs_unlock_request req (nfs_mark_request_dirty req (nfs_list_remove_request req s)).
Definition recommit_req (req : ptr) (s : state) : state :=
  nfs_unlock_request req (nfs_mark_request_commit req (nfs_list_remove_request req s)).

(** [args.stable = ...] *)
Definition set_args_stable (v : Z) (c : rpc_call) : rpc_call :=
  let d := rc_data c in
  RpcCall (WData (wd_file d) (args_count d) v (res_count d) (wd_verf d) (wd_pages d))
          (rc_cred c) (args_offset c) (args_nriov c) (args_iov c).

(** [nfs_flush_one].  [alloc] is what [nfs_writedata_alloc] returns, the
    address of the [pages] head of the new data or [None] for [NULL];
    [stable] is [how & FLUSH_STABLE]; [rpc_execute] is what the RPC layer
    does with the call before it returns, which for a synchronous call
    is all of it.  The result is the return value and the state, [None]
    when [fuel] turns were not enough for a loop. *)
Definition nfs_flush_one (fuel : nat) (alloc : option lhead)
    (rpc_execute : rpc_call → state → state) (head : lhead) (stable : bool)
    (s : state) : option (Z * state) :=
  match alloc with
  | None =>
      match drain fuel redirty_req head s with
      | Some s1 => Some (- ENOMEM, s1)
      | None => None
      end
  | Some pages =>
      match nfs_write_rpcsetup fuel head pages s with
      | None => None
      | Some (c, s1) =>
          let how :=
            if stable
            then if ncommit s1 =? 0 then NFS_FILE_SYNC else NFS_DATA_SYNC
            else NFS_UNSTABLE in
          Some (0, rpc_execute (set_args_stable how c) s1)
      end
  end.

(** ** Setting up and sending a COMMIT call *)

(** The loop of [nfs_commit_rpcsetup]; [rqstart], [rqend], [start] and
    [end] are 32 bits wide. *)
Fixpoint commit_rpcsetup_loop (fuel : nat) (head pages : lhead) (start end_ : Z)
    (s : state) : option (Z * Z * state) :=
  match fuel with
  | O => None
  | S fuel' =>
      match chain s head with
      | [] => Some (start, end_, s)
      | req :: _ =>
          let s1 := nfs_list_add_request req pages (nfs_list_remove_request req s) in
          let r := deref s1 req in
          let rqstart := u32 (page_offset (wb_page r) + wb_offset r) in
          let rqend := u32 (rqstart + wb_bytes r) in
          commit_rpcsetup_loop fuel' head pages
            (if rqstart <? start then rqstart else start)
            (if end_ <? rqend then rqend else end_) s1
      end
  end.

(** [nfs_commit_rpcsetup]; [i_size] is [inode->i_size], a [loff_t].  With
    nothing on [head] the C code reads the list head as if it were a
    request; the model gives [None] then as well. *)
Definition nfs_commit_rpcsetup (fuel : nat) (head pages : lhead) (i_size : Z)
    (s : state) : option (rpc_call * state) :=
  match chain s head with
  | [] => None
  | req :: _ =>
      let r := deref s req in
      match commit_rpcsetup_loop fuel head pages (u32 (Z.lnot 0)) 0 s with
      | None => None
      | Some (start, end_, s1) =>
          let len := u32 (end_ - start) in
          let len1 :=
            if (i_size <=? end_) || (Z.shiftr (u32 (Z.lnot 0)) 1 <? len) then 0 else len in
          Some (RpcCall (WData (wb_file r) (u32 len1) 0 (u32 len1) (Verf 0 0) pages)
                        (wb_cred r) start 0 [],
                s1)
      end
  end.

(** [nfs_commit_list], as [nfs_flush_one]. *)
Definition nfs_commit_list (fuel : nat) (alloc : option lhead)
    (rpc_execute : rpc_call → state → state) (head : lhead) (i_size : Z)
    (s : state) : option (Z * state) :=
  match alloc with
  | None =>
      match drain fuel recommit_req head s with
      | Some s1 => Some (- ENOMEM, s1)
      | None => None
      end
  | Some pages =>
      match nfs_commit_rpcsetup fuel head pages i_size s with
      | None => None
      | Some (c, s1) => Some (0, rpc_execute c s1)
      end
  end.

(** ** Flushing and committing the requests of a file *)

(** The first loop of [nfs_flush_list]: [allocs n] is what the [n]-th
    call of [nfs_writedata_alloc] returns, [one_request] the address of
    the list head of that name, [wpages] the number of pages of one call.
    The result is [error], [pages] and the state. *)
Fixpoint flush_list_loop (fuel : nat) (allocs : nat → option lhead) (n : nat)
    (rpc_execute : rpc_call → state → state) (head one_request : lhead)
    (wpages : Z) (stable : bool) (pages : Z) (s : state) : option (Z * Z * state) :=
  match fuel with
  | O => None
  | S fuel' =>
      match chain s head with
      | [] => Some (0, pages, s)
      | _ :: _ =>
          match coalesce_requests fuel head one_request wpages s with
          | None => None
          | Some (k, s1) =>
              match nfs_flush_one fuel (allocs n) rpc_execute one_request stable s1 with
              | None => None
              | Some (error, s2) =>
                  if error <? 0 then Some (error, u32 (pages + k), s2)
                  else flush_list_loop fuel' allocs (S n) rpc_execute head one_request
                         wpages stable (u32 (pages + k)) s2
              end
          end
      end
  end.

(** [nfs_flush_list]; [wsize] is [NFS_SERVER(inode)->wsize]. *)
Definition nfs_flush_list (fuel : nat) (allocs : nat → option lhead)
    (rpc_execute : rpc_call → state → state) (head one_request : lhead)
    (wsize : Z) (stable : bool) (s : state) : option (Z * state) :=
  match flush_list_loop fuel allocs 0 rpc_execute head one_request
          (u32 (Z.shiftr wsize PAGE_CACHE_SHIFT)) stable 0 s with
  | None => None
  | Some (error, pages, s1) =>
      if 0 <=? error then Some (s32 pages, s1)
      else
        match drain fuel redirty_req head s1 with
        | Some s2 => Some (error, s2)
        | None => None
        end
  end.

(** [nfs_flush_file]; [head] is the address of its list head. *)
Definition nfs_flush_file (fuel : nat) (allocs : nat → option lhead)
    (rpc_execute : rpc_call → state → state) (head one_request : lhead)
    (wsize : Z) (stable : bool) (file start count : Z) (s : state)
    : option (Z * state) :=
  let '(pages, s1) := nfs_scan_dirty head file start count s in
  if pages =? 0 then Some (pages, s1)
  else
    match nfs_flush_list fuel allocs rpc_execute head one_request wsize stable s1 with
    | None => None
    | Some (error, s2) => Some (if error <? 0 then error else pages, s2)
    end.

(** [nfs_commit_file]; [i_size] is the size of the file at the time of
    the call. *)
Definition nfs_commit_file (fuel : nat) (alloc : option lhead)
    (rpc_execute : rpc_call → state → state) (head : lhead) (i_size : Z)
    (file start count : Z) (s : state) : option (Z * state) :=
  let '(pages, s1) := nfs_scan_commit head file start count s in
  if pages =? 0 then Some (pages, s1)
  else
    match nfs_commit_list fuel alloc rpc_execute head i_size s1 with
    | None => None
    | Some (error, s2) => Some (if error <? 0 then error else pages, s2)
    end.

(** ** Predicates of the properties *)

(** A request is on at most one chain. *)
Definition single_membership (s : state) : Prop :=
  ∀ req h1 h2, req ∈ chain s h1 → req ∈ chain s h2 → h1 = h2.

(** An operation that keeps requests on at most one chain. *)
Definition keeps (f : state → state) : Prop :=
  ∀ s, single_membership s → single_membership (f s).

(** A live request: its [struct nfs_page] has not been freed. *)
Definition live (s : state) (req : ptr) : Prop := is_Some (mem s !! req).

(** Two states hold the same requests, up to the [wb_list_head] tags. *)
Definition same_requests (s s' : state) : Prop :=
  writeback s' = writeback s
  ∧ ∀ q, set_wb_list_head None (deref s' q) = set_wb_list_head None (deref s q).

(** ** The operations on the index, as one type

    The operations that touch the chains: the list and index primitives,
    the marking of a request, locking, the scans that feed a flush or a
    commit, the coalescer and the two completion handlers.  The loops run
    with as many turns as the chain they empty has entries, plus one. *)
Inductive op :=
  | OpInodeAdd (req : ptr)
  | OpInodeRemove (req : ptr)
  | OpListAdd (req : ptr) (h : lhead)
  | OpListRemove (req : ptr)
  | OpMarkDirty (req : ptr)
  | OpMarkCommit (req : ptr)
  | OpLock (req : ptr)
  | OpUnlock (req : ptr)
  | OpRelease (req : ptr)
  | OpScanDirty (dst : lhead) (file start count : Z)
  | OpScanCommit (dst : lhead) (file start count : Z)
  | OpCoalesce (src dst : lhead) (maxpages : Z)
  | OpWritebackDone (jiffies : Z) (data : nfs_write_data) (tk_status : Z)
  | OpCommitDone (data : nfs_write_data) (tk_status : Z).

Definition run_op (o : op) (s : state) : option state :=
  match o with
  | OpInodeAdd req => Some (nfs_inode_add_request req s)
  | OpInodeRemove req => Some (nfs_inode_remove_request req s)
  | OpListAdd req h => Some (nfs_list_add_request req h s)
  | OpListRemove req => Some (nfs_list_remove_request req s)
  | OpMarkDirty req => Some (nfs_mark_request_dirty req s)
  | OpMarkCommit req => Some (nfs_mark_request_commit req s)
  | OpLock req => Some (snd (nfs_lock_request req s))
  | OpUnlock req => Some (nfs_unlock_request req s)
  | OpRelease req => Some (nfs_release_request req s)
  | OpScanDirty dst file start count =>
      Some (snd (nfs_scan_dirty dst file start count s))
  | OpScanCommit dst file start count =>
      Some (snd (nfs_scan_commit dst file start count s))
  | OpCoalesce src dst maxpages =>
      snd <$> coalesce_requests (S (length (chain s src))) src dst maxpages s
  | OpWritebackDone jiffies data tk_status =>
      nfs_writeback_done (S (length (chain s (wd_pages data)))) jiffies data tk_status s
  | OpCommitDone data tk_status =>
      nfs_commit_done (S (length (chain s (wd_pages data)))) data tk_status s
  end.

Fixpoint run_ops (os : list op) (s : state) : option state :=
  match os with
  | [] => Some s
  | o :: os' =>
      match run_op o s with
      | Some s1 => run_ops os' s1
      | None => None
      end
  end.

(** The calls the code makes: the coalescer moves requests from one list
    to another one, and the [pages] list of a call in flight is not one of
    the two lists of the inode. *)
Definition op_ok (o : op) : Prop :=
  match o with
  | OpCoalesce src dst _ => src ≠ dst
  | OpWritebackDone _ data _ => wd_pages data ≠ I_DIRTY ∧ wd_pages data ≠ I_COMMIT
  | OpCommitDone data _ => wd_pages data ≠ I_DIRTY ∧ wd_pages data ≠ I_COMMIT
  | _ => True
  end.

(** *** The batches of the coalescer *)

(** A list of requests in strictly ascending page order: the order
    [nfs_list_add_request] keeps the lists of an inode in. *)
Definition ascending (s : state) (l : list ptr) : Prop :=
  StronglySorted (λ a b, page_index s a < page_index s b) l.

(** The range of the request ends where its page ends. *)
Definition to_page_end (s : state) (a : ptr) : Prop :=
  u32 (wb_offset (deref s a) + wb_bytes (deref s a)) = PAGE_CACHE_SIZE.

(** [b] was taken into a batch right after [a]. *)
Definition joined (s : state) (a b : ptr) : Prop :=
  to_page_end s a ∧ coalesce_break s (Some a) b = false.

(** A property of every two neighbours of a list. *)
Fixpoint adjacent (P : ptr → ptr → Prop) (l : list ptr) : Prop :=
  match l with
  | a :: l' =>
      match l' with
      | b :: _ => P a b ∧ adjacent P l'
      | [] => True
      end
  | [] => True
  end.

(** Why a batch of [n] requests that ends with [z] was closed before the
    request at the head of [rest]. *)
Definition stopped (s : state) (maxpages : Z) (n : nat) (z : ptr)
    (rest : list ptr) : Prop :=
  match rest with
  | [] => True
  | b :: _ =>
      coalesce_break s (Some z) b = true ∨ ¬ to_page_end s z
      ∨ maxpages ≤ Z.of_nat n
  end.

(** *** Completion handlers *)

(** A step that changes nothing about the requests other than [req]: not
    what they hold, not whether they are hashed, not the lists they are on. *)
Definition touches_only (req : ptr) (s s' : state) : Prop :=
  (∀ x, x ≠ req → deref s' x = deref s x)
  ∧ (∀ x, x ≠ req → x ∈ writeback s' ↔ x ∈ writeback s)
  ∧ (∀ x h, x ≠ req → x ∈ chain s' h ↔ x ∈ chain s h).

(** What both completion handlers do with a request of a call that
    failed: the [if (task->tk_status < 0)] branch and the [next:] label. *)
Definition fail_req (status : Z) (req : ptr) (s : state) : state :=
  nfs_unlock_request req
    (nfs_inode_remove_request req
       (set_file_error req status (nfs_list_remove_request req s))).

(** What [fail_req] has done to a request of the batch of [s0] once it
    has been through the loop. *)
Definition failed (status : Z) (s0 s : state) (req : ptr) : Prop :=
  (∀ h, req ∉ chain s h) ∧ (req ∉ writeback s)
  ∧ NFS_WBACK_BUSY (deref s req) = 0
  ∧ f_error s !! (wb_file (deref s0 req)) = Some status.

(** What [nfs_commit_done] has done to a request of the batch of [s0]
    when the call did not fail. *)
Definition committed_or_dirty (data : nfs_write_data) (s0 s : state) (req : ptr)
    : Prop :=
  NFS_WBACK_BUSY (deref s req) = 0
  ∧ (verifier (wb_verf (deref s0 req)) = verifier (wd_verf data) →
       (req ∉ writeback s) ∧ (∀ h, req ∉ chain s h)
       ∧ wb_count (deref s req) < wb_count (deref s0 req))
  ∧ (verifier (wb_verf (deref s0 req)) ≠ verifier (wd_verf data) →
       req ∈ chain s I_DIRTY ∧ req ∈ writeback s
       ∧ wb_list_head (deref s req) = Some I_DIRTY).

(** *** Admission *)




(** *** Widening a request *)

(** The request a write of [bytes] bytes at [offset] finds for its page:
    hashed, alone for its page, of the same file and page, dirty, not
    locked, with a byte range that is in range. *)
Record updatable (s : state) (file : Z) (pg : page) (req : ptr) : Prop := {
  upd_live : live s req;
  upd_hashed : req ∈ writeback s;
  upd_alone : Forall (λ q, page_index s q = index pg → q = req) (writeback s);
  upd_file : wb_file (deref s req) = file;
  upd_page : wb_page (deref s req) = pg;
  upd_dirty : nfs_dirty_request s req = true;
  upd_unlocked : NFS_WBACK_BUSY (deref s req) = 0;
  upd_range : 0 ≤ wb_offset (deref s req) ∧ 0 ≤ wb_bytes (deref s req)
              ∧ wb_offset (deref s req) + wb_bytes (deref s req) < 2 ^ 32 }.

(** The request after [nfs_update_request] has widened it by the range
    [offset, offset + bytes): the caller holds one more reference. *)
Definition widened (offset bytes : Z) (r : nfs_page) : nfs_page :=
  let o := Z.min offset (wb_offset r) in
  let e := Z.max (offset + bytes) (wb_offset r + wb_bytes r) in
  NfsPage (wb_list_head r) (wb_file r) (wb_cred r) (wb_page r) (wb_timeout r)
          o (e - o) (wb_count r + 1)
          (Z.land (Z.lor (wb_flags r) PG_BUSY) (Z.lnot PG_BUSY)) (wb_verf r).

(** *** Example states

    File 7 of the inode; requests at addresses 10 and 11 for the pages of
    index 1 and 2; a list head at address 5 (a list scanned off the dirty
    list, or the [pages] of a call in flight) and one at address 6. *)

Definition ex_request (h : option lhead) (idx offset bytes count flags v : Z)
    : nfs_page :=
  NfsPage h 7 0 (Page (1000 + idx) idx) 0 offset bytes count flags (Verf 0 v).

(** The state with the requests [r10] and [r11] hashed, the lists [ls],
    [nd] requests counted as dirty, and an earlier error [-5] on the file. *)
Definition ex_state (r10 r11 : nfs_page) (ls : gmap lhead (list ptr)) (nd : Z)
    : state :=
  State (<[10%positive := r10]> (<[11%positive := r11]> ∅)) ls
        [11; 10]%positive 2 nd 0 (<[7 := -5]> ∅) 2 [].

(** Both requests locked, each for the whole of its page, on the list at
    address 5; their verifiers are 1 and 2. *)
Definition ex_two_pages : state :=
  ex_state (ex_request (Some 5%positive) 1 0 4096 2 1 1)
           (ex_request (Some 5%positive) 2 0 4096 2 1 2)
           (<[5%positive := [10; 11]%positive]> ∅) 0.

(** The same, the first request for the first 100 bytes of its page. *)
Definition ex_short_first : state :=
  ex_state (ex_request (Some 5%positive) 1 0 100 2 1 1)
           (ex_request (Some 5%positive) 2 0 4096 2 1 2)
           (<[5%positive := [10; 11]%positive]> ∅) 0.

(** The same, the first request for its page from byte 100 on. *)
Definition ex_offset_first : state :=
  ex_state (ex_request (Some 5%positive) 1 100 3996 2 1 1)
           (ex_request (Some 5%positive) 2 0 4096 2 1 2)
           (<[5%positive := [10; 11]%positive]> ∅) 0.

(** The same as [ex_two_pages], the second request for its page from
    byte 100 on. *)
Definition ex_offset_second : state :=
  ex_state (ex_request (Some 5%positive) 1 0 4096 2 1 1)
           (ex_request (Some 5%positive) 2 100 3996 2 1 2)
           (<[5%positive := [10; 11]%positive]> ∅) 0.

(** Both requests hashed, unlocked and on no list. *)
Definition ex_idle : state :=
  ex_state (ex_request None 1 0 4096 1 0 0) (ex_request None 2 0 4096 1 0 0) ∅ 0.

(** The first request dirty, for the first 100 bytes of its page. *)
Definition ex_dirty : state :=
  ex_state (ex_request (Some I_DIRTY) 1 0 100 1 0 0) (ex_request None 2 0 4096 1 0 0)
           (<[I_DIRTY := [10%positive]]> ∅) 1.


(** Around a caller of [nfs_create_request] nothing happens: no request
    retires, every wait times out, no signal comes; the mount has no
    [intr] flag. *)
Definition ex_env : create_env :=
  CreateEnv false (λ _, Turn (λ s, s) (Some 12%positive) (λ s, s) false) 0 0.


(** A call for the two pages on the list at address 5; the server
    answered with the verifier 1. *)
Definition ex_data : nfs_write_data := WData 7 8192 0 8192 (Verf 0 1) 5%positive.

(** The first [nfs_proc_write] writes its 1024 bytes, the next one fails
    with [-5]. *)
Definition ex_reply (n : nat) : Z :=
  match n with
  | O => 1024
  | S _ => -5
  end.

(** Inode 9, with a file of [size] bytes last changed at time 50; every
    reply says that file 9 has 4096 bytes and was changed at time 77; and
    an [nfs_refresh_inode] that takes the size and the time of the reply
    over. *)
Definition ex_inode (size : Z) : nfs_inode := Inode size 50 9 0.
Definition ex_attrs (n : nat) : nfs_fattr := Fattr 4096 77 9 0.
Definition ex_refresh (inode : nfs_inode) (fattr : nfs_fattr) : nfs_inode :=
  Inode (fa_size fattr) (fa_mtime fattr) (i_ino inode) (i_other inode).

(** Some operations on the index, in the order of a write, a flush and a
    commit. *)
Definition ex_ops : list op :=
  [OpLock 10%positive; OpMarkDirty 10%positive; OpUnlock 10%positive;
   OpLock 11%positive; OpMarkDirty 11%positive; OpUnlock 11%positive;
   OpMarkCommit 10%positive;
   OpScanDirty 5%positive 0 0 0; OpCoalesce 5%positive 6%positive 8;
   OpWritebackDone 0 (WData 7 8192 0 8192 (Verf 0 1) 6%positive) 0;
   OpScanCommit 5%positive 0 0 0; OpCommitDone ex_data 0].

(** The batch a call of [coalesce_requests] has left on [dst]. *)
Definition batch_of (dst : lhead) (r : option (Z * state)) : option (list ptr) :=
  (λ ps, chain (snd ps) dst) <$> r.

(** *** Sorted lists *)

(** A list of requests in ascending page order, requests of one page
    next to each other. *)
Definition ordered (s : state) (l : list ptr) : Prop :=
  StronglySorted (λ a b, page_index s a ≤ page_index s b) l.

(** What [nfs_lock_request] makes of an unlocked request. *)
Definition locked (r : nfs_page) : nfs_page :=
  set_wb_flags (Z.lor (wb_flags r) PG_BUSY) (set_wb_count (u32 (wb_count r + 1)) r).

(** *** Writing a page *)



(** *** Scanning *)

(** The tests [nfs_scan_list] makes on an entry: the file fits, the page
    lies in the index window, and the request is not locked. *)
Definition scan_selects (file idx_start idx_end : Z) (s : state) (req : ptr) : bool :=
  let r := deref s req in
  ((file =? 0) || (wb_file r =? file))
  && (idx_start <=? index (wb_page r)) && (index (wb_page r) <=? idx_end)
  && (NFS_WBACK_BUSY r =? 0).

(** The entries of [l] a scan takes, and those it leaves behind. *)
Definition taken (file idx_start idx_end : Z) (s : state) (l : list ptr) : list ptr :=
  filter (λ q, scan_selects file idx_start idx_end s q = true) l.
Definition left_behind (file idx_start idx_end : Z) (s : state) (l : list ptr)
    : list ptr :=
  filter (λ q, scan_selects file idx_start idx_end s q = false) l.

(** What a scan makes of a request it takes: locked, and on [dst]. *)
Definition moved (dst : lhead) (r : nfs_page) : nfs_page :=
  set_wb_list_head (Some dst) (locked r).

(** [ndirty] is the length of the dirty list. *)
Definition dirty_counted (s : state) : Prop :=
  ndirty s = Z.of_nat (length (chain s I_DIRTY)).

(** *** Giving up and completing a list of requests *)

(** What [nfs_unlock_request] makes of a locked request that is held by
    someone else as well. *)
Definition unlocked (r : nfs_page) : nfs_page :=
  set_wb_count (wb_count r - 1) (set_wb_flags (Z.land (wb_flags r) (Z.lnot PG_BUSY)) r).

(** A request of a list that a call has set up or that a scan has
    filled: hashed, locked, and held by the index and by the lock. *)
Definition in_flight (s : state) (req : ptr) : Prop :=
  req ∈ writeback s ∧ NFS_WBACK_BUSY (deref s req) ≠ 0
  ∧ 2 ≤ wb_count (deref s req) < 2 ^ 32.

(** What is left of a request in flight that the index and the lock have
    let go of, when someone else holds it still. *)
Definition retired (r : nfs_page) : nfs_page :=
  set_wb_list_head None
    (set_wb_count (wb_count r - 2)
       (set_wb_flags (Z.land (wb_flags r) (Z.lnot PG_BUSY)) r)).

(** The counters of the inode, the errors of its files and the number of
    requests. *)
Definition counts (s : state) : Z * Z * Z * gmap Z Z * Z :=
  (npages s, ndirty s, ncommit s, f_error s, nfs_nr_requests s).

(** One more request is counted as dirty, or as waiting for a COMMIT. *)
Definition one_more_dirty (c : Z * Z * Z * gmap Z Z * Z) : Z * Z * Z * gmap Z Z * Z :=
  let '(np, nd, nc, fe, nr) := c in (np, u32 (nd + 1), nc, fe, nr).
Definition one_more_commit (c : Z * Z * Z * gmap Z Z * Z) : Z * Z * Z * gmap Z Z * Z :=
  let '(np, nd, nc, fe, nr) := c in (np, nd, u32 (nc + 1), fe, nr).

(** Two states hold the same about a request. *)
Definition agree_on (req : ptr) (s s' : state) : Prop :=
  mem s' !! req = mem s !! req
  ∧ (req ∈ writeback s' ↔ req ∈ writeback s)
  ∧ (∀ h, req ∈ chain s' h ↔ req ∈ chain s h).

(** *** The byte range of a call *)

(** The [iov] entry of a request, the number of bytes of a list of
    requests, and the offset in the file at which a request begins. *)
Definition iov_of (s : state) (req : ptr) : page * Z * Z :=
  (wb_page (deref s req), wb_offset (deref s req), wb_bytes (deref s req)).
Definition total_bytes (s : state) (l : list ptr) : Z :=
  foldr (λ req acc, wb_bytes (deref s req) + acc) 0 l.
Definition rq_start (s : state) (req : ptr) : Z :=
  page_offset (wb_page (deref s req)) + wb_offset (deref s req).

(** The offsets and lengths of a request do not wrap. *)
Definition in_range (s : state) (req : ptr) : Prop :=
  0 ≤ page_index s req ∧ page_index s req + 1 < 2 ^ 32
  ∧ 0 ≤ wb_offset (deref s req) ∧ 0 ≤ wb_bytes (deref s req)
  ∧ wb_offset (deref s req) + wb_bytes (deref s req) < 2 ^ 32.

(** The offset in the file at which a request ends, and a request whose
    offsets in the file do not wrap. *)
Definition rq_end (s : state) (req : ptr) : Z :=
  rq_start s req + wb_bytes (deref s req).
Definition in_file (s : state) (req : ptr) : Prop :=
  0 ≤ rq_start s req ∧ 0 ≤ wb_bytes (deref s req) ∧ rq_end s req < 2 ^ 32.

(** The pages of a file lie one behind the other. *)
Definition pages_in_line : Prop :=
  ∀ pg, page_offset pg = index pg * PAGE_CACHE_SIZE.

(** *** Further example states *)

(** [ex_idle] with a request at address 12 for page 3 that has just been
    created and locked and is not hashed yet. *)
Definition ex_new : state :=
  set_mem (<[12%positive := ex_request None 3 0 4096 1 1 0]> (mem ex_idle)) ex_idle.

(** Both requests on the dirty list, unlocked, each for the whole of its
    page. *)
Definition ex_both_dirty : state :=
  ex_state (ex_request (Some I_DIRTY) 1 0 4096 1 0 0)
           (ex_request (Some I_DIRTY) 2 0 4096 1 0 0)
           (<[I_DIRTY := [10; 11]%positive]> ∅) 2.

(** The pages of a file of pages of 4096 bytes, and an RPC layer that
    queues the call and returns. *)
Definition ex_line (pg : page) : Z := index pg * 4096.
Definition ex_queue (c : rpc_call) (s : state) : state := s.

(** The server answered the call for the two pages with stable storage;
    and it answered with 4096 bytes of the 8192. *)
Definition ex_data_stable : nfs_write_data := WData 7 8192 2 8192 (Verf 2 1) 5%positive.
Definition ex_data_short : nfs_write_data := WData 7 8192 0 4096 (Verf 0 1) 5%positive.

(** Every [nfs_proc_write] writes what it was asked to write. *)
Definition ex_reply_ok (n : nat) : Z := 1024.


(** *** Flushing and committing a file *)

(** A request that waits on the list [H] of its inode: hashed, tagged
    with the list, held by the index, and with room for one more
    reference. *)
Definition waiting_on (H : lhead) (s : state) (req : ptr) : Prop :=
  req ∈ writeback s ∧ wb_list_head (deref s req) = Some H
  ∧ 1 ≤ wb_count (deref s req) < 2 ^ 32 - 1.

(** Two states hold the same requests on the same lists, and count the
    same. *)
Definition restored (s s' : state) : Prop :=
  mem s' = mem s ∧ (∀ h, chain s' h = chain s h)
  ∧ writeback s' = writeback s ∧ counts s' = counts s.

(** Both requests on the commit list, unlocked; and an allocator of
    [struct nfs_write_data] that has no memory. *)
Definition ex_both_commit : state :=
  set_ncommit 2
    (ex_state (ex_request (Some I_COMMIT) 1 0 4096 1 0 1)
              (ex_request (Some I_COMMIT) 2 0 4096 1 0 1)
              (<[I_COMMIT := [10; 11]%positive]> ∅) 0).
Definition ex_no_memory (n : nat) : option lhead := None.

(** An RPC layer that queues the call and returns, as it does for an
    asynchronous task: until the call completes, the requests, the lists
    and the index are what they were. *)
Definition queues_call (rpc_execute : rpc_call → state → state) : Prop :=
  ∀ c u, mem (rpc_execute c u) = mem u ∧ lists (rpc_execute c u) = lists u
         ∧ writeback (rpc_execute c u) = writeback u.

(** [nfs_writedata_alloc] has memory for every call: the [n]-th call
    returns new data, whose [pages] list, at [pages_of n], is empty. *)
Definition fresh_data (allocs : nat → option lhead) (pages_of : nat → lhead)
    (head one_request : lhead) (s : state) : Prop :=
  ∀ n, allocs n = Some (pages_of n)
       ∧ pages_of n ≠ head ∧ pages_of n ≠ one_request
       ∧ chain s (pages_of n) = []
       ∧ ∀ m, pages_of m = pages_of n → m = n.

(** The requests on the [pages] lists of the first [k] calls, in the
    order of the calls. *)
Definition sent (pages_of : nat → lhead) (n k : nat) (s : state) : list ptr :=
  concat ((λ m, chain s (pages_of m)) <$> seq n k).

(** An allocator that has memory: the [pages] list of the data of the
    [n]-th call is at address [20 + n]. *)
Definition ex_pages_of (n : nat) : lhead := Pos.of_succ_nat (19 + n).
Definition ex_memory (n : nat) : option lhead := Some (ex_pages_of n).

(** ** Chains *)

Lemma on_list_spec s req : on_list s req = true ↔ ∃ h, req ∈ chain s h.
Proof.
  unfold on_list, chain. rewrite bool_decide_eq_true, map_Exists_lookup. split.
  - intros (h & l & Hl & Hin). exists h. by rewrite lookup_total_alt, Hl.
  - intros (h & Hin). rewrite lookup_total_alt in Hin.
    destruct (lists s !! h) as [l|] eqn:E; simpl in Hin.
    + by exists h, l.
    + by apply elem_of_nil in Hin.
Qed.

Lemma on_list_false s req : on_list s req = false ↔ ∀ h, req ∉ chain s h.
Proof.
  rewrite <- not_true_iff_false, on_list_spec. split.
  - intros H h Hin. apply H. by exists h.
  - intros H (h & Hin). by apply (H h).
Qed.

Lemma chain_list_del s req h :
  chain (set_lists (list_del req (lists s)) s) h = filter (λ q, q ≠ req) (chain s h).
Proof.
  unfold chain, list_del. simpl. rewrite !lookup_total_alt, lookup_fmap.
  by destruct (lists s !! h).
Qed.

Lemma chain_insert s h l h' :
  chain (set_lists (<[h := l]> (lists s)) s) h' = if decide (h = h') then l else chain s h'.
Proof.
  unfold chain. simpl. destruct (decide (h = h')) as [->|Hne].
  - by rewrite lookup_total_insert_eq.
  - by rewrite lookup_total_insert_ne.
Qed.

Lemma filter_ne_id (req : ptr) (l : list ptr) :
  req ∉ l → filter (λ q, q ≠ req) l = l.
Proof.
  induction l as [|a l IH]; intros Hin; [done|].
  rewrite filter_cons. apply not_elem_of_cons in Hin as [Hne Hin].
  rewrite decide_True by done. by rewrite IH.
Qed.

Lemma filter_ne_length (req : ptr) (l : list ptr) :
  req ∈ l → (length (filter (λ q, q ≠ req) l) < length l)%nat.
Proof.
  induction l as [|a l IH]; intros Hin; [by apply elem_of_nil in Hin|].
  rewrite filter_cons. destruct (decide (a ≠ req)) as [Hne|Heq]; simpl.
  - apply elem_of_cons in Hin as [->|Hin]; [done|]. specialize (IH Hin). lia.
  - pose proof (length_filter (λ q, q ≠ req) l). lia.
Qed.

Lemma elem_of_list_add_prev s req rl x :
  x ∈ list_add_prev s req rl ↔ x = req ∨ x ∈ rl.
Proof.
  induction rl as [|p rest IH]; simpl.
  - rewrite list_elem_of_singleton. rewrite elem_of_nil. tauto.
  - destruct (page_index s p <? page_index s req).
    + by rewrite elem_of_cons.
    + rewrite !elem_of_cons, IH. tauto.
Qed.

(** *** What the two list primitives do to the chains *)

Lemma chain_remove req s h :
  chain (nfs_list_remove_request req s) h = filter (λ q, q ≠ req) (chain s h).
Proof.
  unfold nfs_list_remove_request. destruct (on_list s req) eqn:E; simpl.
  - apply chain_list_del.
  - symmetry. apply filter_ne_id. by apply on_list_false.
Qed.

Lemma on_list_remove req s : on_list (nfs_list_remove_request req s) req = false.
Proof.
  apply on_list_false. intros h. rewrite chain_remove, list_elem_of_filter. tauto.
Qed.

Lemma chain_add req h s h' :
  chain (nfs_list_add_request req h s) h' =
    if on_list s req || negb (hashed s req) then chain s h'
    else if decide (h = h') then reverse (list_add_prev s req (reverse (chain s h)))
    else chain s h'.
Proof.
  unfold nfs_list_add_request.
  destruct (on_list s req); [done|]. destruct (hashed s req); simpl; [|done].
  apply (chain_insert s).
Qed.

Lemma elem_of_chain_add req h s h' x :
  x ∈ chain (nfs_list_add_request req h s) h' →
  x ∈ chain s h' ∨ (x = req ∧ h' = h ∧ on_list s req = false).
Proof.
  rewrite chain_add. destruct (on_list s req); simpl; [tauto|].
  destruct (hashed s req); simpl; [|tauto].
  destruct (decide (h = h')) as [->|]; [|tauto].
  rewrite elem_of_reverse, elem_of_list_add_prev, elem_of_reverse.
  intros [->|Hx]; [by right|by left].
Qed.

(** *** Single membership, primitive by primitive *)

Lemma single_membership_lists s s' :
  lists s' = lists s → single_membership s → single_membership s'.
Proof. unfold single_membership, chain. intros ->. auto. Qed.

Lemma keeps_lists f : (∀ s, lists (f s) = lists s) → keeps f.
Proof. intros H s. by apply single_membership_lists. Qed.

Lemma keeps_list_remove req : keeps (nfs_list_remove_request req).
Proof.
  intros s H x h1 h2. rewrite !chain_remove, !list_elem_of_filter.
  intros [_ H1] [_ H2]. by apply (H x).
Qed.

Lemma keeps_list_add req h : keeps (nfs_list_add_request req h).
Proof.
  intros s H x h1 h2 H1 H2.
  apply elem_of_chain_add in H1 as [H1|(-> & -> & N1)];
    apply elem_of_chain_add in H2 as [H2|(E2 & -> & N2)]; try done.
  - by apply (H x).
  - subst x. rewrite on_list_false in N2. by destruct (N2 h1).
  - rewrite on_list_false in N1. by destruct (N1 h2).
Qed.

Lemma keeps_mark_dirty req : keeps (nfs_mark_request_dirty req).
Proof.
  intros s H. unfold nfs_mark_request_dirty. destruct (on_list s req); [done|].
  simpl. eapply single_membership_lists; [|by apply (keeps_list_add req I_DIRTY)].
  done.
Qed.

Lemma keeps_mark_commit req : keeps (nfs_mark_request_commit req).
Proof.
  intros s H. unfold nfs_mark_request_commit. destruct (on_list s req); [done|].
  simpl. eapply single_membership_lists; [|by apply (keeps_list_add req I_COMMIT)].
  done.
Qed.

Lemma keeps_inode_add req : keeps (nfs_inode_add_request req).
Proof.
  apply keeps_lists. intros s. unfold nfs_inode_add_request.
  by destruct (hashed s req).
Qed.

Lemma lists_lock req s : lists (snd (nfs_lock_request req s)) = lists s.
Proof.
  unfold nfs_lock_request. by destruct (NFS_WBACK_BUSY (deref s req) =? 0).
Qed.

Lemma keeps_inode_remove_with release req :
  keeps (release req) → keeps (nfs_inode_remove_request_with release req).
Proof.
  intros Hr s H. unfold nfs_inode_remove_request_with.
  destruct (hashed s req); [|done]. simpl. apply Hr.
  by eapply single_membership_lists; [|exact H].
Qed.

Lemma keeps_release_aux fuel req : keeps (nfs_release_request_aux fuel req).
Proof.
  induction fuel as [|fuel IH]; intros s H; [done|]. simpl.
  set (s1 := upd req _ s).
  assert (H1 : single_membership s1) by (by eapply single_membership_lists; [|exact H]).
  destruct (negb _); [done|].
  set (s2 := if on_list s1 req then _ else _).
  assert (H2 : single_membership s2).
  { subst s2. destruct (on_list s1 req); [by apply keeps_list_remove|done]. }
  set (s3 := if hashed s2 req then _ else _).
  assert (H3 : single_membership s3).
  { subst s3. destruct (hashed s2 req); [|done]. by apply keeps_inode_remove_with. }
  by eapply single_membership_lists; [|exact H3].
Qed.

Lemma keeps_release req : keeps (nfs_release_request req).
Proof. apply keeps_release_aux. Qed.

Lemma keeps_inode_remove req : keeps (nfs_inode_remove_request req).
Proof. apply keeps_inode_remove_with, keeps_release. Qed.

Lemma keeps_unlock req : keeps (nfs_unlock_request req).
Proof.
  intros s H. unfold nfs_unlock_request.
  destruct (NFS_WBACK_BUSY (deref s req) =? 0); [done|].
  apply keeps_release. by eapply single_membership_lists; [|exact H].
Qed.

Lemma keeps_move req dst s :
  single_membership s →
  single_membership (nfs_list_add_request req dst (nfs_list_remove_request req s)).
Proof. intros H. by apply keeps_list_add, keeps_list_remove. Qed.

(** *** The chains under release and unlock *)

Lemma chain_release_aux fuel req s h :
  chain (nfs_release_request_aux fuel req s) h = chain s h
  ∨ chain (nfs_release_request_aux fuel req s) h = filter (λ q, q ≠ req) (chain s h).
Proof.
  revert s. induction fuel as [|fuel IH]; intros s; [by left|]. simpl.
  set (s1 := upd req _ s). destruct (negb _); [by left|].
  set (s2 := if on_list s1 req then _ else _).
  assert (H2 : chain s2 h = chain s h ∨ chain s2 h = filter (λ q, q ≠ req) (chain s h)).
  { subst s2. destruct (on_list s1 req); [right|by left]. by rewrite chain_remove. }
  set (s3 := if hashed s2 req then _ else _).
  assert (H3 : chain s3 h = chain s2 h ∨ chain s3 h = filter (λ q, q ≠ req) (chain s2 h)).
  { subst s3. destruct (hashed s2 req) eqn:E; [|by left].
    unfold nfs_inode_remove_request_with. rewrite E. simpl. exact (IH _). }
  change (chain s3 h = chain s h ∨ chain s3 h = filter (λ q, q ≠ req) (chain s h)).
  destruct H2 as [E2|E2], H3 as [E3|E3]; rewrite E3, E2; auto.
  right. apply filter_ne_id. rewrite list_elem_of_filter. tauto.
Qed.

Lemma chain_release req s h :
  chain (nfs_release_request req s) h = chain s h
  ∨ chain (nfs_release_request req s) h = filter (λ q, q ≠ req) (chain s h).
Proof. apply chain_release_aux. Qed.

Lemma chain_inode_remove req s h :
  chain (nfs_inode_remove_request req s) h = chain s h
  ∨ chain (nfs_inode_remove_request req s) h = filter (λ q, q ≠ req) (chain s h).
Proof.
  unfold nfs_inode_remove_request, nfs_inode_remove_request_with.
  destruct (hashed s req); [|by left]. simpl. exact (chain_release _ _ _).
Qed.

Lemma chain_unlock req s h :
  chain (nfs_unlock_request req s) h = chain s h
  ∨ chain (nfs_unlock_request req s) h = filter (λ q, q ≠ req) (chain s h).
Proof.
  unfold nfs_unlock_request. destruct (_ =? 0); [by left|].
  exact (chain_release _ _ _).
Qed.

Lemma chain_mark_dirty req s h :
  h ≠ I_DIRTY → chain (nfs_mark_request_dirty req s) h = chain s h.
Proof.
  intros Hh. unfold nfs_mark_request_dirty. destruct (on_list s req) eqn:E; [done|].
  simpl. change (chain (nfs_list_add_request req I_DIRTY s) h = chain s h).
  rewrite chain_add. destruct (_ || _); [done|]. by rewrite decide_False.
Qed.

Lemma chain_mark_commit req s h :
  h ≠ I_COMMIT → chain (nfs_mark_request_commit req s) h = chain s h.
Proof.
  intros Hh. unfold nfs_mark_request_commit. destruct (on_list s req) eqn:E; [done|].
  simpl. change (chain (nfs_list_add_request req I_COMMIT s) h = chain s h).
  rewrite chain_add. destruct (_ || _); [done|]. by rewrite decide_False.
Qed.

(** A chain that [req] is not on is left alone. *)
Lemma chain_cases_notin req (l l' : list ptr) :
  l' = l ∨ l' = filter (λ q, q ≠ req) l → req ∉ l → l' = l.
Proof. intros [->| ->] H; [done|]. by apply filter_ne_id. Qed.

(** *** The loops *)

Lemma drain_inv (P : state → Prop) body h :
  (∀ s req rest, P s → chain s h = req :: rest →
     P (body req s) ∧ (length (chain (body req s) h) < length (chain s h))%nat) →
  ∀ fuel s, P s → (length (chain s h) < fuel)%nat →
    ∃ s', drain fuel body h s = Some s' ∧ P s' ∧ chain s' h = [].
Proof.
  intros Hbody. induction fuel as [|fuel IH]; intros s HP Hlen; [lia|].
  simpl. destruct (chain s h) as [|req rest] eqn:E.
  - by exists s.
  - destruct (Hbody s req rest HP E) as [HP' Hlt]. apply IH; [done|].
    rewrite E in Hlt. rewrite length_cons in Hlt, Hlen. lia.
Qed.

Lemma chain_writeback_done_req jiffies data status req s h :
  h ≠ I_DIRTY → h ≠ I_COMMIT →
  chain (writeback_done_req jiffies data status req s) h
  = filter (λ q, q ≠ req) (chain s h).
Proof.
  intros Hd Hc. unfold writeback_done_req.
  set (s1 := nfs_list_remove_request req s).
  assert (E1 : chain s1 h = filter (λ q, q ≠ req) (chain s h)) by apply chain_remove.
  assert (N1 : req ∉ chain s1 h) by (rewrite E1, list_elem_of_filter; tauto).
  set (s2 := if status <? 0 then _ else _).
  assert (E2 : chain s2 h = chain s1 h).
  { subst s2. destruct (status <? 0).
    - eapply chain_cases_notin; [exact (chain_inode_remove _ _ _)|done].
    - destruct CONFIG_NFS_V3.
      + destruct (negb _).
        * eapply chain_cases_notin; [exact (chain_inode_remove _ _ _)|done].
        * by rewrite chain_mark_commit.
      + eapply chain_cases_notin; [exact (chain_inode_remove _ _ _)|done]. }
  rewrite <- E1, <- E2. eapply chain_cases_notin; [exact (chain_unlock _ _ _)|].
  by rewrite E2.
Qed.

Lemma chain_commit_done_req data status req s h :
  h ≠ I_DIRTY →
  chain (commit_done_req data status req s) h = filter (λ q, q ≠ req) (chain s h).
Proof.
  intros Hd. unfold commit_done_req.
  set (s1 := nfs_list_remove_request req s).
  assert (E1 : chain s1 h = filter (λ q, q ≠ req) (chain s h)) by apply chain_remove.
  assert (N1 : req ∉ chain s1 h) by (rewrite E1, list_elem_of_filter; tauto).
  set (s2 := if status <? 0 then _ else _).
  assert (E2 : chain s2 h = chain s1 h).
  { subst s2. destruct (status <? 0).
    - eapply chain_cases_notin; [exact (chain_inode_remove _ _ _)|done].
    - destruct (_ =? _).
      + eapply chain_cases_notin; [exact (chain_inode_remove _ _ _)|done].
      + by rewrite chain_mark_dirty. }
  rewrite <- E1, <- E2. eapply chain_cases_notin; [exact (chain_unlock _ _ _)|].
  by rewrite E2.
Qed.

Lemma keeps_writeback_done_req jiffies data status req :
  keeps (writeback_done_req jiffies data status req).
Proof.
  intros s H. unfold writeback_done_req. apply keeps_unlock.
  pose proof (keeps_list_remove req s H) as H1.
  destruct (status <? 0).
  - apply keeps_inode_remove. by eapply single_membership_lists; [|exact H1].
  - destruct CONFIG_NFS_V3.
    + destruct (negb _); [by apply keeps_inode_remove|].
      apply keeps_mark_commit. by eapply single_membership_lists; [|exact H1].
    + by apply keeps_inode_remove.
Qed.

Lemma keeps_commit_done_req data status req :
  keeps (commit_done_req data status req).
Proof.
  intros s H. unfold commit_done_req. apply keeps_unlock.
  pose proof (keeps_list_remove req s H) as H1.
  destruct (status <? 0).
  - apply keeps_inode_remove. by eapply single_membership_lists; [|exact H1].
  - destruct (_ =? _); [by apply keeps_inode_remove|by apply keeps_mark_dirty].
Qed.

Lemma filter_head_length (req : ptr) (rest l : list ptr) :
  l = req :: rest → (length (filter (λ q, q ≠ req) l) < length l)%nat.
Proof. intros ->. apply filter_ne_length, list_elem_of_here. Qed.

Lemma keeps_scan_step dst file i0 i1 acc req :
  single_membership (snd acc) →
  single_membership (snd (scan_step dst file i0 i1 acc req)).
Proof.
  destruct acc as [pages s]. simpl. intros H.
  destruct (_ && _); [done|]. destruct (_ || _); [done|].
  destruct (nfs_lock_request req s) as [ok s1] eqn:E.
  destruct ok; simpl; [|done]. apply keeps_move.
  eapply single_membership_lists; [|exact H].
  change s1 with (snd (true, s1)). rewrite <- E. apply lists_lock.
Qed.

Lemma keeps_scan_list src dst file start count s :
  single_membership s →
  single_membership (snd (nfs_scan_list src dst file start count s)).
Proof.
  unfold nfs_scan_list. generalize (chain s src) as l.
  change s with (snd (0, s)) at 1. generalize (0, s) as acc.
  intros acc l. revert acc. induction l as [|req l IH]; intros acc H; [done|].
  simpl. apply IH. by apply keeps_scan_step.
Qed.

Lemma chain_move_src req src dst s :
  src ≠ dst →
  chain (nfs_list_add_request req dst (nfs_list_remove_request req s)) src
  = filter (λ q, q ≠ req) (chain s src).
Proof.
  intros Hne. rewrite chain_add. rewrite on_list_remove. simpl.
  destruct (negb _); [apply chain_remove|]. rewrite decide_False by done.
  apply chain_remove.
Qed.

Lemma coalesce_loop_total fuel src dst maxpages prev pages s :
  src ≠ dst → (length (chain s src) < fuel)%nat →
  is_Some (coalesce_loop fuel src dst maxpages prev pages s).
Proof.
  intros Hne. revert prev pages s.
  induction fuel as [|fuel IH]; intros prev pages s Hlen; [lia|].
  simpl. destruct (chain s src) as [|req rest] eqn:E; [done|].
  destruct (coalesce_break s prev req); [done|].
  destruct (negb _); [done|]. destruct (maxpages <=? _); [done|].
  apply IH. rewrite chain_move_src by done.
  pose proof (filter_head_length req rest _ E) as Hlt.
  rewrite E in Hlt |- *. rewrite length_cons in Hlt, Hlen. lia.
Qed.

Lemma keeps_coalesce_loop fuel src dst maxpages prev pages s r :
  coalesce_loop fuel src dst maxpages prev pages s = Some r →
  single_membership s → single_membership (snd r).
Proof.
  revert prev pages s.
  induction fuel as [|fuel IH]; intros prev pages s Hr H; [done|].
  simpl in Hr. destruct (chain s src) as [|req rest] eqn:E; [by simplify_eq|].
  destruct (coalesce_break s prev req); [by simplify_eq|].
  pose proof (keeps_move req dst s H) as H1.
  destruct (negb _); [by simplify_eq|]. destruct (maxpages <=? _); [by simplify_eq|].
  by eapply IH.
Qed.

(** *** Requests that only change lists *)

Lemma same_requests_refl s : same_requests s s.
Proof. by split. Qed.

Lemma same_requests_trans s1 s2 s3 :
  same_requests s1 s2 → same_requests s2 s3 → same_requests s1 s3.
Proof.
  intros [W1 D1] [W2 D2]. split; [congruence|]. intros q.
  by rewrite D2, D1.
Qed.

Lemma deref_upd req f s q :
  deref (upd req f s) q
  = if decide (req = q) then default null_page (f <$> mem s !! req) else deref s q.
Proof.
  unfold deref, upd. simpl. rewrite lookup_alter. by destruct (decide (req = q)).
Qed.

Lemma deref_upd_ne req f s q : req ≠ q → deref (upd req f s) q = deref s q.
Proof. intros H. rewrite deref_upd. by rewrite decide_False. Qed.

Lemma deref_upd_live req f s :
  live s req → deref (upd req f s) req = f (deref s req).
Proof.
  intros [r Hr]. rewrite deref_upd, decide_True by done.
  unfold deref. by rewrite Hr.
Qed.

Lemma upd_known req f s r :
  mem s !! req = Some r → upd req f s = set_mem (<[req := f r]> (mem s)) s.
Proof.
  intros Hr. unfold upd. f_equal. apply map_eq. intros q.
  rewrite lookup_alter, lookup_insert. case_decide; [|done]. by rewrite Hr.
Qed.

Lemma deref_known s req r : mem s !! req = Some r → deref s req = r.
Proof. intros Hr. unfold deref. by rewrite Hr. Qed.

Lemma same_requests_upd_head req v s :
  same_requests s (upd req (set_wb_list_head v) s).
Proof.
  split; [done|]. intros q. rewrite deref_upd.
  destruct (decide (req = q)) as [->|]; [|done].
  unfold deref. by destruct (mem s !! q).
Qed.

Lemma same_requests_remove req s : same_requests s (nfs_list_remove_request req s).
Proof.
  unfold nfs_list_remove_request. destruct (on_list s req); simpl.
  - exact (same_requests_upd_head req None (set_lists _ s)).
  - apply same_requests_refl.
Qed.

Lemma same_requests_add req h s : same_requests s (nfs_list_add_request req h s).
Proof.
  unfold nfs_list_add_request. destruct (on_list s req); [apply same_requests_refl|].
  destruct (hashed s req); simpl; [|apply same_requests_refl].
  exact (same_requests_upd_head req (Some h) (set_lists _ s)).
Qed.

Lemma same_requests_move req dst s :
  same_requests s (nfs_list_add_request req dst (nfs_list_remove_request req s)).
Proof.
  eapply same_requests_trans; [apply same_requests_remove|apply same_requests_add].
Qed.

Section same_requests.
Context (s s' : state) (H : same_requests s s').

Lemma same_wb_file q : wb_file (deref s' q) = wb_file (deref s q).
Proof. destruct H as [_ D]. exact (f_equal wb_file (D q)). Qed.
Lemma same_wb_page q : wb_page (deref s' q) = wb_page (deref s q).
Proof. destruct H as [_ D]. exact (f_equal wb_page (D q)). Qed.
Lemma same_wb_offset q : wb_offset (deref s' q) = wb_offset (deref s q).
Proof. destruct H as [_ D]. exact (f_equal wb_offset (D q)). Qed.
Lemma same_wb_bytes q : wb_bytes (deref s' q) = wb_bytes (deref s q).
Proof. destruct H as [_ D]. exact (f_equal wb_bytes (D q)). Qed.
Lemma same_wb_count q : wb_count (deref s' q) = wb_count (deref s q).
Proof. destruct H as [_ D]. exact (f_equal wb_count (D q)). Qed.
Lemma same_page_index q : page_index s' q = page_index s q.
Proof. unfold page_index. by rewrite same_wb_page. Qed.
Lemma same_hashed q : hashed s' q = hashed s q.
Proof. unfold hashed. destruct H as [W _]. by rewrite W. Qed.
Lemma same_coalesce_break prev q :
  coalesce_break s' prev q = coalesce_break s prev q.
Proof.
  destruct prev as [pv|]; [|done]. unfold coalesce_break.
  by rewrite !same_wb_file, !same_page_index, same_wb_offset.
Qed.
Lemma same_list_add_prev req rl :
  list_add_prev s' req rl = list_add_prev s req rl.
Proof.
  induction rl as [|p rl IH]; [done|]. simpl.
  by rewrite !same_page_index, IH.
Qed.
End same_requests.

(** *** The nesting of [nfs_release_request] *)

Lemma release_aux_count0 fuel req s :
  wb_count (deref s req) = 0 →
  nfs_release_request_aux (S fuel) req s = upd req (set_wb_count (u32 (-1))) s.
Proof. intros H. simpl. by rewrite H. Qed.

(** The call that [nfs_inode_remove_request] makes from inside
    [nfs_release_request] finds the count at 0, takes it to [2^32 - 1]
    and returns: no third level is entered. *)
Lemma release_fuel fuel req s :
  nfs_release_request_aux (S (S fuel)) req s = nfs_release_request_aux 2 req s.
Proof.
  assert (Hstep : ∀ n r t,
            nfs_release_request_aux (S n) r t
            = if negb (u32 (wb_count (deref t r) - 1) =? 0)
              then upd r (set_wb_count (u32 (wb_count (deref t r) - 1))) t
              else
                let s1 := upd r (set_wb_count (u32 (wb_count (deref t r) - 1))) t in
                let s2 := if on_list s1 r then nfs_list_remove_request r s1 else s1 in
                let s3 :=
                  if hashed s2 r
                  then nfs_inode_remove_request_with (nfs_release_request_aux n) r s2
                  else s2 in
                let s4 := set_mem (delete r (mem s3)) s3 in
                set_nfs_nr_requests (u32 (nfs_nr_requests s4 - 1)) s4)
    by reflexivity.
  rewrite (Hstep (S fuel)), (Hstep 1%nat).
  destruct (u32 (wb_count (deref s req) - 1) =? 0) eqn:E; cbn [negb]; [|reflexivity].
  apply Z.eqb_eq in E. rewrite E. cbv zeta.
  set (s1 := upd req (set_wb_count 0) s).
  set (s2 := if on_list s1 req then _ else _).
  assert (H2 : wb_count (deref s2 req) = 0).
  { assert (H1 : wb_count (deref s1 req) = 0).
    { subst s1. rewrite deref_upd, decide_True by reflexivity.
      destruct (mem s !! req); reflexivity. }
    subst s2. destruct (on_list s1 req); [|exact H1].
    rewrite (same_wb_count _ _ (same_requests_remove req s1)). exact H1. }
  destruct (hashed s2 req) eqn:Hh; [|reflexivity].
  unfold nfs_inode_remove_request_with. rewrite Hh. cbn [negb].
  rewrite !release_aux_count0 by exact H2. reflexivity.
Qed.

(** *** Moving a request to the tail of a sorted list *)

Lemma list_add_prev_tail s req (l : list ptr) :
  (∀ x, x ∈ l → page_index s x < page_index s req) →
  reverse (list_add_prev s req (reverse l)) = l ++ [req].
Proof.
  intros Hlt. destruct l as [|a l] using rev_ind; [done|].
  rewrite reverse_snoc. simpl.
  assert ((page_index s a <? page_index s req) = true) as ->.
  { apply Z.ltb_lt, Hlt. rewrite elem_of_app, list_elem_of_singleton. by right. }
  by rewrite reverse_cons, reverse_cons, reverse_involutive.
Qed.

Lemma chain_move_dst req dst s :
  hashed s req = true →
  (∀ x, x ∈ chain s dst → page_index s x < page_index s req) →
  chain (nfs_list_add_request req dst (nfs_list_remove_request req s)) dst
  = chain s dst ++ [req].
Proof.
  intros Hh Hlt. pose proof (same_requests_remove req s) as Hs.
  assert (Hnot : req ∉ chain s dst).
  { intros Hin. specialize (Hlt _ Hin). lia. }
  rewrite chain_add, on_list_remove, (same_hashed _ _ Hs), Hh. simpl.
  rewrite decide_True by done. rewrite chain_remove, filter_ne_id by done.
  rewrite (same_list_add_prev _ _ Hs). by apply list_add_prev_tail.
Qed.

Lemma adjacent_lookup P l i a b :
  adjacent P l → l !! i = Some a → l !! S i = Some b → P a b.
Proof.
  revert i. induction l as [|x l IH]; intros i Hadj Ha Hb; [done|].
  destruct l as [|y l]; [done|]. destruct Hadj as [Hxy Hadj].
  destruct i as [|i]; simpl in *.
  - by simplify_eq.
  - by apply (IH i).
Qed.

(** *** The loop of the coalescer *)

Lemma u32_small z : 0 ≤ z < 2 ^ 32 → u32 z = z.
Proof. intros H. unfold u32. by apply Z.mod_small. Qed.

Lemma ascending_head_notin s req l : ascending s (req :: l) → req ∉ l.
Proof.
  intros H Hin. apply StronglySorted_cons in H as [H _].
  rewrite Forall_forall in H. specialize (H _ Hin). simpl in H. lia.
Qed.

Lemma filter_head (req : ptr) (l : list ptr) :
  req ∉ l → filter (λ q, q ≠ req) (req :: l) = l.
Proof.
  intros H. rewrite filter_cons. rewrite decide_False by (intros N; by apply N).
  by apply filter_ne_id.
Qed.

Lemma coalesce_loop_spec s src dst maxpages :
  src ≠ dst → maxpages < 2 ^ 32 →
  ∀ R fuel U pv s1,
    chain s1 src = R → chain s1 dst = U → last U = Some pv →
    same_requests s s1 →
    ascending s (U ++ R) → (∀ req, req ∈ R → hashed s req = true) →
    to_page_end s pv →
    Z.of_nat (length U) < maxpages →
    (length R < fuel)%nat →
    ∃ B R' s' z,
      R = B ++ R' ∧
      coalesce_loop fuel src dst maxpages (Some pv) (Z.of_nat (length U)) s1
        = Some (Z.of_nat (length (U ++ B)), s') ∧
      chain s' dst = U ++ B ∧ chain s' src = R' ∧ same_requests s s' ∧
      Z.of_nat (length (U ++ B)) ≤ maxpages ∧
      adjacent (joined s) (pv :: B) ∧
      last (pv :: B) = Some z ∧ stopped s maxpages (length (U ++ B)) z R'.
Proof.
  intros Hne Hmax.
  induction R as [|req R0 IH];
    intros fuel U pv s1 Hsrc Hdst Hlast Hsame Hasc Hhash Hend Hlen Hfuel;
    (destruct fuel as [|fuel]; [simpl in Hfuel; lia|]); cbn [coalesce_loop]; rewrite Hsrc.
  - exists [], [], s1, pv. rewrite (app_nil_r U). split_and!; try done. lia.
  - rewrite (same_coalesce_break _ _ Hsame).
    destruct (coalesce_break s (Some pv) req) eqn:Hbrk.
    { exists [], (req :: R0), s1, pv. rewrite (app_nil_r U).
      split_and!; try done; [lia|]. by left. }
    set (s2 := nfs_list_add_request req dst (nfs_list_remove_request req s1)).
    assert (Hs2 : same_requests s s2).
    { eapply same_requests_trans; [exact Hsame|apply same_requests_move]. }
    assert (HR0 : ascending s (req :: R0)) by (by apply StronglySorted_app_1_r in Hasc).
    assert (Hsrc2 : chain s2 src = R0).
    { subst s2. rewrite chain_move_src, Hsrc by done.
      by apply filter_head, (ascending_head_notin s). }
    assert (Hdst2 : chain s2 dst = U ++ [req]).
    { subst s2. rewrite chain_move_dst, Hdst; [done| |].
      - rewrite (same_hashed _ _ Hsame). apply Hhash, list_elem_of_here.
      - intros x Hx. rewrite !(same_page_index _ _ Hsame). rewrite Hdst in Hx.
        apply (StronglySorted_app_1_elem_of _ _ _ _ _ Hasc Hx), list_elem_of_here. }
    assert (Hpages : u32 (Z.of_nat (length U) + 1) = Z.of_nat (length (U ++ [req]))).
    { rewrite length_app. simpl. rewrite u32_small; lia. }
    rewrite Hpages, (same_wb_offset _ _ Hs2), (same_wb_bytes _ _ Hs2).
    destruct (Z.eqb_spec (u32 (wb_offset (deref s req) + wb_bytes (deref s req)))
                PAGE_CACHE_SIZE) as [Hto|Hto]; simpl.
    2:{ exists [req], R0, s2, req.
        split_and!; try done; [rewrite length_app in *; simpl; lia|].
        destruct R0; [done|]. right. by left. }
    destruct (Z.leb_spec maxpages (Z.of_nat (length (U ++ [req])))) as [Hle|Hgt].
    { exists [req], R0, s2, req.
      split_and!; try done; [rewrite length_app in *; simpl; lia|].
      destruct R0; [done|]. right. by right. }
    destruct (IH fuel (U ++ [req]) req s2) as (B & R' & s' & z & HB & Hrun & Hd & Hsr & Hss & Hn & Hadj & Hz & Hstop);
      try done.
    { apply last_snoc. }
    { by rewrite <- app_assoc. }
    { intros q Hq. apply Hhash. by apply list_elem_of_further. }
    { simpl in Hfuel. lia. }
    exists (req :: B), R', s', z.
    rewrite <- app_assoc in Hrun, Hd, Hn, Hstop. simpl in Hrun, Hd, Hn, Hstop.
    split_and!; try done. by rewrite HB.
Qed.

(** What [coalesce_requests] does to a sorted list of hashed requests. *)
Lemma coalesce_spec fuel s src dst maxpages :
  src ≠ dst → chain s dst = [] → 0 ≤ maxpages < 2 ^ 32 →
  ascending s (chain s src) →
  (∀ req, req ∈ chain s src → hashed s req = true) →
  (length (chain s src) < fuel)%nat →
  ∃ batch rest s',
    coalesce_requests fuel src dst maxpages s = Some (Z.of_nat (length batch), s') ∧
    chain s src = batch ++ rest ∧ chain s' dst = batch ∧ chain s' src = rest ∧
    same_requests s s' ∧
    Z.of_nat (length batch) ≤ Z.max 1 maxpages ∧
    (batch = [] → chain s src = []) ∧
    adjacent (joined s) batch ∧
    (∀ z, last batch = Some z → stopped s maxpages (length batch) z rest).
Proof.
  intros Hne Hdst Hmax Hasc Hhash Hfuel. unfold coalesce_requests.
  destruct fuel as [|fuel]; [lia|]. cbn [coalesce_loop coalesce_break].
  destruct (chain s src) as [|req R0] eqn:Hsrc.
  { exists [], [], s. split_and!; try done; try apply same_requests_refl.
    simpl. lia. }
  set (s2 := nfs_list_add_request req dst (nfs_list_remove_request req s)).
  assert (Hs2 : same_requests s s2) by apply same_requests_move.
  assert (Hsrc2 : chain s2 src = R0).
  { subst s2. rewrite chain_move_src, Hsrc by done.
    by apply filter_head, (ascending_head_notin s). }
  assert (Hdst2 : chain s2 dst = [req]).
  { subst s2. rewrite chain_move_dst, Hdst; [done| |].
    - apply Hhash, list_elem_of_here.
    - rewrite Hdst. intros x Hx. by apply elem_of_nil in Hx. }
  change (u32 (0 + 1)) with 1.
  rewrite (same_wb_offset _ _ Hs2), (same_wb_bytes _ _ Hs2).
  destruct (Z.eqb_spec (u32 (wb_offset (deref s req) + wb_bytes (deref s req)))
              PAGE_CACHE_SIZE) as [Hto|Hto]; simpl.
  2:{ exists [req], R0, s2. split_and!; try done; [simpl; lia|].
      intros z [= <-]. destruct R0; [done|]. right. by left. }
  destruct (Z.leb_spec maxpages 1) as [Hle|Hgt].
  { exists [req], R0, s2. split_and!; try done; [simpl; lia|].
    intros z [= <-]. destruct R0; [done|]. right. right. simpl. lia. }
  destruct (coalesce_loop_spec s src dst maxpages Hne (proj2 Hmax) R0 fuel [req] req s2)
    as (B & R' & s' & z & HB & Hrun & Hd & Hsr & Hss & Hn & Hadj & Hz & Hstop);
    try done.
  { intros q Hq. apply Hhash. by apply list_elem_of_further. }
  { simpl in Hfuel. lia. }
  exists (req :: B), R', s'. simpl in *. split_and!; try done.
  - by rewrite HB.
  - lia.
  - intros z' Hz'. rewrite Hz in Hz'. by simplify_eq.
Qed.

(** *** Steps that touch one request only *)

Lemma touches_only_refl req s : touches_only req s s.
Proof. by split_and!. Qed.

Lemma touches_only_trans req s1 s2 s3 :
  touches_only req s1 s2 → touches_only req s2 s3 → touches_only req s1 s3.
Proof.
  intros (D1 & W1 & C1) (D2 & W2 & C2). split_and!.
  - intros x Hx. by rewrite D2, D1.
  - intros x Hx. by rewrite W2, W1.
  - intros x h Hx. by rewrite C2, C1.
Qed.

Lemma touches_only_same req s s' :
  mem s' = mem s → lists s' = lists s → writeback s' = writeback s →
  touches_only req s s'.
Proof.
  intros Hm Hl Hw. unfold touches_only, deref, chain. rewrite Hm, Hl, Hw.
  by split_and!.
Qed.

Lemma touches_upd req f s : touches_only req s (upd req f s).
Proof.
  split_and!; try done. intros x Hx. by apply deref_upd_ne.
Qed.

Lemma touches_list_remove req s : touches_only req s (nfs_list_remove_request req s).
Proof.
  split_and!.
  - intros x Hx. unfold nfs_list_remove_request. destruct (on_list s req); [|done].
    simpl. exact (deref_upd_ne req _ (set_lists _ s) x (not_eq_sym Hx)).
  - intros x Hx. unfold nfs_list_remove_request. by destruct (on_list s req).
  - intros x h Hx. rewrite chain_remove, list_elem_of_filter. tauto.
Qed.

Lemma touches_list_add req h s : touches_only req s (nfs_list_add_request req h s).
Proof.
  split_and!.
  - intros x Hx. unfold nfs_list_add_request. destruct (on_list s req); [done|].
    destruct (hashed s req); [|done].
    simpl. exact (deref_upd_ne req _ (set_lists _ s) x (not_eq_sym Hx)).
  - intros x Hx. unfold nfs_list_add_request. destruct (on_list s req); [done|].
    by destruct (hashed s req).
  - intros x h' Hx. rewrite chain_add. destruct (_ || _); [done|].
    destruct (decide (h = h')) as [->|]; [|done].
    rewrite elem_of_reverse, elem_of_list_add_prev, elem_of_reverse. tauto.
Qed.

Lemma touches_mark_dirty req s : touches_only req s (nfs_mark_request_dirty req s).
Proof.
  unfold nfs_mark_request_dirty. destruct (on_list s req); [apply touches_only_refl|].
  simpl. eapply touches_only_trans; [apply (touches_list_add req I_DIRTY)|].
  by apply touches_only_same.
Qed.

Lemma touches_unhash req s :
  touches_only req s
    (set_npages (u32 (npages s - 1))
       (set_writeback (filter (λ q, q ≠ req) (writeback s)) s)).
Proof.
  split_and!; try done. intros x Hx. simpl. rewrite list_elem_of_filter. tauto.
Qed.

Lemma touches_inode_remove_with release req s :
  (∀ s, touches_only req s (release req s)) →
  touches_only req s (nfs_inode_remove_request_with release req s).
Proof.
  intros Hr. unfold nfs_inode_remove_request_with.
  destruct (hashed s req); [|apply touches_only_refl]. simpl.
  eapply touches_only_trans; [apply touches_unhash|apply Hr].
Qed.

Lemma touches_free req s :
  touches_only req s
    (set_nfs_nr_requests (u32 (nfs_nr_requests s - 1)) (set_mem (delete req (mem s)) s)).
Proof.
  split_and!; try done. intros x Hx. unfold deref. simpl.
  by rewrite lookup_delete_ne.
Qed.

Lemma touches_release_aux fuel req s :
  touches_only req s (nfs_release_request_aux fuel req s).
Proof.
  revert s. induction fuel as [|fuel IH]; intros s; [apply touches_only_refl|].
  simpl. set (s1 := upd req _ s).
  assert (H1 : touches_only req s s1) by apply touches_upd.
  destruct (negb _); [done|].
  set (s2 := if on_list s1 req then _ else _).
  assert (H2 : touches_only req s s2).
  { eapply touches_only_trans; [exact H1|]. subst s2.
    destruct (on_list s1 req); [apply touches_list_remove|apply touches_only_refl]. }
  set (s3 := if hashed s2 req then _ else _).
  assert (H3 : touches_only req s s3).
  { eapply touches_only_trans; [exact H2|]. subst s3.
    destruct (hashed s2 req); [|apply touches_only_refl].
    by apply touches_inode_remove_with. }
  eapply touches_only_trans; [exact H3|apply touches_free].
Qed.

Lemma touches_release req s : touches_only req s (nfs_release_request req s).
Proof. apply touches_release_aux. Qed.

Lemma touches_inode_remove req s : touches_only req s (nfs_inode_remove_request req s).
Proof. apply touches_inode_remove_with. intros. apply touches_release. Qed.

Lemma touches_unlock req s : touches_only req s (nfs_unlock_request req s).
Proof.
  unfold nfs_unlock_request. destruct (_ =? 0); [apply touches_only_refl|].
  eapply touches_only_trans; [|apply touches_release].
  eapply touches_only_trans; [apply touches_upd|]. by apply touches_only_same.
Qed.

Lemma touches_fail_req status req s : touches_only req s (fail_req status req s).
Proof.
  unfold fail_req.
  eapply touches_only_trans; [|apply touches_unlock].
  eapply touches_only_trans; [|apply touches_inode_remove].
  eapply touches_only_trans; [apply touches_list_remove|]. by apply touches_only_same.
Qed.

Lemma touches_commit_done_req data status req s :
  touches_only req s (commit_done_req data status req s).
Proof.
  unfold commit_done_req.
  eapply touches_only_trans; [|apply touches_unlock].
  eapply touches_only_trans; [apply touches_list_remove|].
  destruct (status <? 0).
  - eapply touches_only_trans; [|apply touches_inode_remove].
    by apply touches_only_same.
  - destruct (_ =? _); [apply touches_inode_remove|apply touches_mark_dirty].
Qed.

(** *** What release and unlock do to the request itself *)

Lemma writeback_release_aux fuel req s :
  writeback (nfs_release_request_aux fuel req s) = writeback s
  ∨ writeback (nfs_release_request_aux fuel req s)
    = filter (λ q, q ≠ req) (writeback s).
Proof.
  revert s. induction fuel as [|fuel IH]; intros s; [by left|]. simpl.
  set (s1 := upd req _ s). destruct (negb _); [by left|].
  set (s2 := if on_list s1 req then _ else _).
  assert (H2 : writeback s2 = writeback s).
  { subst s2. destruct (on_list s1 req); [|done].
    unfold nfs_list_remove_request. by destruct (on_list s1 req). }
  set (s3 := if hashed s2 req then _ else _).
  change (writeback s3 = writeback s ∨ writeback s3 = filter (λ q, q ≠ req) (writeback s)).
  rewrite <- H2. subst s3. destruct (hashed s2 req) eqn:E; [|by left].
  unfold nfs_inode_remove_request_with. rewrite E. simpl. right.
  eapply chain_cases_notin; [exact (IH _)|]. simpl.
  rewrite list_elem_of_filter. tauto.
Qed.

Lemma not_hashed_inode_remove req s : req ∉ writeback (nfs_inode_remove_request req s).
Proof.
  unfold nfs_inode_remove_request, nfs_inode_remove_request_with.
  destruct (hashed s req) eqn:E; simpl.
  - intros Hin.
    destruct (writeback_release_aux 2 req
                (set_npages (u32 (npages s - 1))
                   (set_writeback (filter (λ q, q ≠ req) (writeback s)) s)))
      as [H|H]; unfold nfs_release_request in Hin; rewrite H in Hin; simpl in Hin;
      rewrite ?list_elem_of_filter in Hin; tauto.
  - unfold hashed in E. by apply bool_decide_eq_false in E.
Qed.

Lemma not_hashed_release req s :
  req ∉ writeback s → req ∉ writeback (nfs_release_request req s).
Proof.
  intros H Hin. destruct (writeback_release_aux 2 req s) as [E|E];
    unfold nfs_release_request in Hin; rewrite E in Hin;
    rewrite ?list_elem_of_filter in Hin; tauto.
Qed.

Lemma not_hashed_unlock req s :
  req ∉ writeback s → req ∉ writeback (nfs_unlock_request req s).
Proof.
  intros H. unfold nfs_unlock_request. destruct (_ =? 0); [done|].
  by apply not_hashed_release.
Qed.

(** A release either drops one reference or frees the request. *)
Lemma release_cases req s :
  let c := u32 (wb_count (deref s req) - 1) in
  (c ≠ 0 ∧ nfs_release_request req s = upd req (set_wb_count c) s)
  ∨ (c = 0 ∧ mem (nfs_release_request req s) !! req = None).
Proof.
  intros c. unfold nfs_release_request. simpl. fold c.
  destruct (Z.eqb_spec c 0) as [E|E]; simpl; [right|by left].
  split; [done|]. apply lookup_delete_eq.
Qed.

Lemma busy_release req s :
  NFS_WBACK_BUSY (deref s req) = 0 →
  NFS_WBACK_BUSY (deref (nfs_release_request req s) req) = 0.
Proof.
  intros H. destruct (release_cases req s) as [[_ E]|[_ E]].
  - rewrite E, deref_upd, decide_True by done. unfold deref in *.
    by destruct (mem s !! req).
  - unfold deref. by rewrite E.
Qed.

Lemma busy_cleared f : Z.land (Z.land f (Z.lnot PG_BUSY)) PG_BUSY = 0.
Proof. rewrite <- Z.land_assoc. change (Z.land (Z.lnot PG_BUSY) PG_BUSY) with 0. apply Z.land_0_r. Qed.

Lemma busy_unlock req s : NFS_WBACK_BUSY (deref (nfs_unlock_request req s) req) = 0.
Proof.
  unfold nfs_unlock_request.
  destruct (Z.eqb_spec (NFS_WBACK_BUSY (deref s req)) 0) as [E|E]; [done|].
  apply busy_release. change (deref (set_woken ?w ?t) req) with (deref t req).
  rewrite deref_upd, decide_True by done. unfold deref in *.
  destruct (mem s !! req); simpl; [|done]. apply busy_cleared.
Qed.

(** *** The error of the file *)

Lemma f_error_release_aux fuel req s :
  f_error (nfs_release_request_aux fuel req s) = f_error s.
Proof.
  revert s. induction fuel as [|fuel IH]; intros s; [done|]. simpl.
  destruct (negb _); [done|].
  set (s1 := upd req _ s).
  set (s2 := if on_list s1 req then _ else _).
  assert (H2 : f_error s2 = f_error s).
  { subst s2. destruct (on_list s1 req); [|done].
    unfold nfs_list_remove_request. by destruct (on_list s1 req). }
  set (s3 := if hashed s2 req then _ else _).
  change (f_error s3 = f_error s). rewrite <- H2. subst s3.
  destruct (hashed s2 req) eqn:E; [|done].
  unfold nfs_inode_remove_request_with. rewrite E. simpl. by rewrite IH.
Qed.

Lemma f_error_inode_remove req s : f_error (nfs_inode_remove_request req s) = f_error s.
Proof.
  unfold nfs_inode_remove_request, nfs_inode_remove_request_with.
  destruct (hashed s req); [|done]. simpl. unfold nfs_release_request.
  by rewrite f_error_release_aux.
Qed.

Lemma f_error_unlock req s : f_error (nfs_unlock_request req s) = f_error s.
Proof.
  unfold nfs_unlock_request. destruct (_ =? 0); [done|].
  unfold nfs_release_request. by rewrite f_error_release_aux.
Qed.

Lemma f_error_list_remove req s : f_error (nfs_list_remove_request req s) = f_error s.
Proof. unfold nfs_list_remove_request. by destruct (on_list s req). Qed.

(** *** A request of a call that failed *)

Lemma chain_fail_req status req s h :
  chain (fail_req status req s) h = filter (λ q, q ≠ req) (chain s h).
Proof.
  unfold fail_req. set (s1 := nfs_list_remove_request req s).
  assert (E1 : chain s1 h = filter (λ q, q ≠ req) (chain s h)) by apply chain_remove.
  assert (N1 : req ∉ chain s1 h) by (rewrite E1, list_elem_of_filter; tauto).
  set (s2 := nfs_inode_remove_request req _).
  assert (E2 : chain s2 h = chain s1 h).
  { eapply chain_cases_notin; [exact (chain_inode_remove _ _ _)|done]. }
  rewrite <- E1, <- E2. eapply chain_cases_notin; [exact (chain_unlock _ _ _)|].
  by rewrite E2.
Qed.

Lemma f_error_fail_req status req s :
  f_error (fail_req status req s) = <[wb_file (deref s req) := status]> (f_error s).
Proof.
  unfold fail_req. rewrite f_error_unlock, f_error_inode_remove.
  unfold set_file_error. simpl.
  by rewrite f_error_list_remove, (same_wb_file _ _ (same_requests_remove req s)).
Qed.

Lemma fail_req_done status req s :
  let s' := fail_req status req s in
  (∀ h, req ∉ chain s' h) ∧ (req ∉ writeback s')
  ∧ NFS_WBACK_BUSY (deref s' req) = 0
  ∧ f_error s' !! (wb_file (deref s req)) = Some status.
Proof.
  intros s'. split_and!.
  - intros h. subst s'. rewrite chain_fail_req, list_elem_of_filter. tauto.
  - apply not_hashed_unlock, not_hashed_inode_remove.
  - apply busy_unlock.
  - subst s'. rewrite f_error_fail_req. apply lookup_insert_eq.
Qed.

Lemma writeback_done_req_fail jiffies data status req s :
  status < 0 → writeback_done_req jiffies data status req s = fail_req status req s.
Proof.
  intros H. apply Z.ltb_lt in H. unfold writeback_done_req, fail_req.
  by rewrite H.
Qed.

Lemma commit_done_req_fail data status req s :
  status < 0 → commit_done_req data status req s = fail_req status req s.
Proof.
  intros H. apply Z.ltb_lt in H. unfold commit_done_req, fail_req.
  by rewrite H.
Qed.

Lemma drain_ext body1 body2 h :
  (∀ req s, body1 req s = body2 req s) →
  ∀ fuel s, drain fuel body1 h s = drain fuel body2 h s.
Proof.
  intros H. induction fuel as [|fuel IH]; intros s; [done|]. simpl.
  destruct (chain s h); [done|]. by rewrite H, IH.
Qed.

(** The loop of a completion handler over the batch of a call that failed. *)
Lemma drain_fail status h fuel s :
  (length (chain s h) < fuel)%nat →
  ∃ s', drain fuel (fail_req status) h s = Some s' ∧ chain s' h = []
    ∧ ∀ req, req ∈ chain s h → failed status s s' req.
Proof.
  intros Hfuel.
  set (P := λ s1 : state, ∀ req, req ∈ chain s h →
              (req ∈ chain s1 h ∧ deref s1 req = deref s req) ∨ failed status s s1 req).
  destruct (drain_inv P (fail_req status) h) with (fuel := fuel) (s := s)
    as (s' & Hrun & HP & Hnil); try done.
  - intros s1 q rest HP Hq. split.
    + intros req Hreq. destruct (touches_fail_req status q s1) as (D & W & C).
      destruct (decide (req = q)) as [->|Hne].
      * right. destruct (HP q Hreq) as [[_ Hd]|(Hc & _)].
        -- unfold failed. rewrite <- Hd. apply fail_req_done.
        -- destruct (Hc h). rewrite Hq. apply list_elem_of_here.
      * destruct (HP req Hreq) as [[Hin Hd]|(Hc & Hw & Hb & He)].
        -- left. by rewrite C, D.
        -- right. split_and!.
           ++ intros h'. by rewrite C.
           ++ by rewrite W.
           ++ by rewrite D.
           ++ rewrite f_error_fail_req, lookup_insert. by case_decide.
    + rewrite chain_fail_req. by apply (filter_head_length q rest).
  - intros req Hreq. by left.
  - exists s'. split_and!; try done. intros req Hreq.
    destruct (HP req Hreq) as [[Hin _]|Hf]; [|done].
    rewrite Hnil in Hin. by apply elem_of_nil in Hin.
Qed.

(** *** A request of a COMMIT call that did not fail *)

Lemma count_live s req : wb_count (deref s req) ≠ 0 → live s req.
Proof. unfold deref, live. by destruct (mem s !! req). Qed.

Lemma live_list_remove req s : live s req → live (nfs_list_remove_request req s) req.
Proof.
  intros [r Hr]. unfold nfs_list_remove_request, live.
  destruct (on_list s req); simpl; [|by rewrite Hr].
  rewrite lookup_alter_eq, Hr. by eexists.
Qed.

(** Unlocking a request that holds another reference leaves it where it is. *)
Lemma unlock_keeps req s :
  u32 (wb_count (deref s req) - 1) ≠ 0 →
  lists (nfs_unlock_request req s) = lists s
  ∧ writeback (nfs_unlock_request req s) = writeback s
  ∧ wb_list_head (deref (nfs_unlock_request req s) req) = wb_list_head (deref s req).
Proof.
  intros Hc. unfold nfs_unlock_request. destruct (_ =? 0); [done|].
  set (s2 := set_woken _ _).
  assert (Hcount : wb_count (deref s2 req) = wb_count (deref s req)).
  { subst s2. change (deref (set_woken ?w ?t) req) with (deref t req).
    rewrite deref_upd, decide_True by done. unfold deref.
    by destruct (mem s !! req). }
  destruct (release_cases req s2) as [[_ E]|[E _]]; [|by rewrite Hcount in E].
  rewrite E. split_and!; try done.
  rewrite deref_upd, decide_True by done. subst s2.
  change (mem (set_woken ?w ?t)) with (mem t). unfold upd, deref. simpl.
  rewrite lookup_alter_eq. by destruct (mem s !! req).
Qed.

(** A release of a request with references in range drops one of them,
    or frees the request, which then reads as zeroes. *)
Lemma release_count_lt req s :
  1 ≤ wb_count (deref s req) < 2 ^ 32 →
  wb_count (deref (nfs_release_request req s) req) = wb_count (deref s req) - 1
  ∨ wb_count (deref (nfs_release_request req s) req) = 0.
Proof.
  intros Hc. destruct (count_live s req) as [r Hr]; [lia|].
  rewrite (deref_known _ _ _ Hr) in *.
  destruct (release_cases req s) as [[_ E]|[_ E]].
  - left. rewrite E, (upd_known _ _ _ _ Hr), (deref_known _ _ _ Hr).
    unfold deref. simpl. rewrite lookup_insert_eq. simpl. apply u32_small. lia.
  - right. unfold deref. by rewrite E.
Qed.

Lemma inode_remove_count req s :
  req ∈ writeback s → 2 ≤ wb_count (deref s req) < 2 ^ 32 →
  wb_count (deref (nfs_inode_remove_request req s) req) = wb_count (deref s req) - 1.
Proof.
  intros Hw Hc. unfold nfs_inode_remove_request, nfs_inode_remove_request_with.
  assert (hashed s req = true) as -> by (by apply bool_decide_eq_true). simpl.
  set (s1 := set_npages _ _). change (deref s req) with (deref s1 req) in *.
  destruct (count_live s1 req) as [r Hr]; [lia|].
  destruct (release_cases req s1) as [[_ E]|[E _]].
  - rewrite E, (upd_known _ _ _ _ Hr), (deref_known _ _ _ Hr).
    rewrite (deref_known _ _ _ Hr) in Hc.
    unfold deref. simpl. rewrite lookup_insert_eq. simpl. apply u32_small. lia.
  - rewrite u32_small in E; lia.
Qed.

Lemma unlock_count_le req s :
  1 ≤ wb_count (deref s req) < 2 ^ 32 →
  wb_count (deref (nfs_unlock_request req s) req) ≤ wb_count (deref s req).
Proof.
  intros Hc. unfold nfs_unlock_request. destruct (_ =? 0); [done|].
  set (s2 := set_woken _ _).
  assert (Hcount : wb_count (deref s2 req) = wb_count (deref s req)).
  { subst s2. change (deref (set_woken ?w ?t) req) with (deref t req).
    rewrite deref_upd, decide_True by done. unfold deref.
    by destruct (mem s !! req). }
  destruct (release_count_lt req s2) as [E|E]; rewrite ?Hcount in *; lia.
Qed.

Lemma commit_done_req_match data status req s :
  0 ≤ status →
  verifier (wb_verf (deref s req)) = verifier (wd_verf data) →
  req ∈ writeback s → 2 ≤ wb_count (deref s req) < 2 ^ 32 →
  let s' := commit_done_req data status req s in
  NFS_WBACK_BUSY (deref s' req) = 0 ∧ (req ∉ writeback s') ∧ (∀ h, req ∉ chain s' h)
  ∧ wb_count (deref s' req) < wb_count (deref s req).
Proof.
  intros Hst Hv Hw Hc s'. subst s'. unfold commit_done_req.
  set (s1 := nfs_list_remove_request req s).
  pose proof (same_requests_remove req s) as Hs1. fold s1 in Hs1.
  assert ((status <? 0) = false) as -> by lia.
  assert (Hv1 : (verifier (wb_verf (deref s1 req)) =? verifier (wd_verf data)) = true).
  { apply Z.eqb_eq. rewrite <- Hv. destruct Hs1 as [_ D].
    exact (f_equal (λ r, verifier (wb_verf r)) (D req)). }
  rewrite Hv1. split_and!.
  - apply busy_unlock.
  - apply not_hashed_unlock, not_hashed_inode_remove.
  - intros h.
    assert (N1 : req ∉ chain s1 h).
    { subst s1. rewrite chain_remove, list_elem_of_filter. tauto. }
    assert (E2 : chain (nfs_inode_remove_request req s1) h = chain s1 h).
    { eapply chain_cases_notin; [exact (chain_inode_remove _ _ _)|done]. }
    assert (E3 : chain (nfs_unlock_request req (nfs_inode_remove_request req s1)) h
                 = chain (nfs_inode_remove_request req s1) h).
    { eapply chain_cases_notin; [exact (chain_unlock _ _ _)|]. by rewrite E2. }
    by rewrite E3, E2.
  - assert (Hc1 : wb_count (deref s1 req) = wb_count (deref s req))
      by apply (same_wb_count _ _ Hs1).
    assert (Hw1 : req ∈ writeback s1) by (by destruct Hs1 as [-> _]).
    pose proof (inode_remove_count req s1 Hw1 ltac:(lia)) as Hc2.
    pose proof (unlock_count_le req (nfs_inode_remove_request req s1) ltac:(lia)) as Hc3.
    lia.
Qed.

Lemma commit_done_req_mismatch data status req s :
  0 ≤ status →
  verifier (wb_verf (deref s req)) ≠ verifier (wd_verf data) →
  req ∈ writeback s → 2 ≤ wb_count (deref s req) < 2 ^ 32 →
  let s' := commit_done_req data status req s in
  NFS_WBACK_BUSY (deref s' req) = 0 ∧ req ∈ chain s' I_DIRTY ∧ req ∈ writeback s'
  ∧ wb_list_head (deref s' req) = Some I_DIRTY.
Proof.
  intros Hst Hv Hw Hc s'. subst s'. unfold commit_done_req.
  set (s1 := nfs_list_remove_request req s).
  pose proof (same_requests_remove req s) as Hs1. fold s1 in Hs1.
  assert ((status <? 0) = false) as -> by lia.
  assert (Hv1 : (verifier (wb_verf (deref s1 req)) =? verifier (wd_verf data)) = false).
  { apply Z.eqb_neq. intros E. apply Hv. rewrite <- E. destruct Hs1 as [_ D].
    symmetry. exact (f_equal (λ r, verifier (wb_verf r)) (D req)). }
  rewrite Hv1.
  assert (Hl1 : live s1 req).
  { apply live_list_remove, count_live. lia. }
  assert (Hon : on_list s1 req = false) by apply on_list_remove.
  assert (Hh1 : hashed s1 req = true).
  { rewrite (same_hashed _ _ Hs1). unfold hashed. by apply bool_decide_eq_true. }
  set (s2 := nfs_mark_request_dirty req s1).
  assert (Hin2 : req ∈ chain s2 I_DIRTY).
  { subst s2. unfold nfs_mark_request_dirty. rewrite Hon. simpl.
    change (req ∈ chain (nfs_list_add_request req I_DIRTY s1) I_DIRTY).
    rewrite chain_add, Hon, Hh1. simpl.
    rewrite elem_of_reverse, elem_of_list_add_prev. by left. }
  assert (Hw2 : writeback s2 = writeback s).
  { subst s2. unfold nfs_mark_request_dirty. rewrite Hon. simpl.
    destruct (same_requests_add req I_DIRTY s1) as [-> _]. by destruct Hs1 as [-> _]. }
  assert (Ht2 : wb_list_head (deref s2 req) = Some I_DIRTY).
  { subst s2. unfold nfs_mark_request_dirty. rewrite Hon. simpl.
    change (wb_list_head (deref (nfs_list_add_request req I_DIRTY s1) req) = Some I_DIRTY).
    unfold nfs_list_add_request. rewrite Hon, Hh1. simpl.
    by rewrite (deref_upd_live req _ (set_lists _ s1)). }
  assert (Hc2 : wb_count (deref s2 req) = wb_count (deref s req)).
  { subst s2. unfold nfs_mark_request_dirty. rewrite Hon. simpl.
    change (wb_count (deref (nfs_list_add_request req I_DIRTY s1) req) = wb_count (deref s req)).
    rewrite (same_wb_count _ _ (same_requests_add req I_DIRTY s1)).
    by rewrite (same_wb_count _ _ Hs1). }
  destruct (unlock_keeps req s2) as (Hl & Hwb & Htag).
  { rewrite Hc2, u32_small; lia. }
  split_and!.
  - apply busy_unlock.
  - unfold chain. by rewrite Hl.
  - by rewrite Hwb, Hw2.
  - by rewrite Htag.
Qed.

(** The loop of [nfs_commit_done] over the batch of a call that did not fail. *)
Lemma drain_commit data status h fuel s :
  0 ≤ status → h ≠ I_DIRTY →
  (∀ req, req ∈ chain s h →
     req ∈ writeback s ∧ 2 ≤ wb_count (deref s req) < 2 ^ 32) →
  (length (chain s h) < fuel)%nat →
  ∃ s', drain fuel (commit_done_req data status) h s = Some s' ∧ chain s' h = []
    ∧ ∀ req, req ∈ chain s h → committed_or_dirty data s s' req.
Proof.
  intros Hst Hh Hwf Hfuel.
  set (P := λ s1 : state, ∀ req, req ∈ chain s h →
              (req ∈ chain s1 h ∧ deref s1 req = deref s req ∧ req ∈ writeback s1)
              ∨ ((req ∉ chain s1 h) ∧ committed_or_dirty data s s1 req)).
  destruct (drain_inv P (commit_done_req data status) h) with (fuel := fuel) (s := s)
    as (s' & Hrun & HP & Hnil); try done.
  - intros s1 q rest HP Hq.
    assert (Hch : chain (commit_done_req data status q s1) h
                  = filter (λ x, x ≠ q) (chain s1 h)) by by apply chain_commit_done_req.
    split; [|rewrite Hch; by apply (filter_head_length q rest)].
    intros req Hreq. destruct (touches_commit_done_req data status q s1) as (D & W & C).
    destruct (decide (req = q)) as [->|Hne].
    + right. split; [rewrite Hch, list_elem_of_filter; tauto|].
      destruct (HP q Hreq) as [(_ & Hd & Hw)|[Hc _]];
        [|destruct Hc; rewrite Hq; apply list_elem_of_here].
      destruct (Hwf q Hreq) as [_ Hcount]. rewrite <- Hd in Hcount.
      destruct (decide (verifier (wb_verf (deref s q)) = verifier (wd_verf data)))
        as [Hv|Hv].
      * destruct (commit_done_req_match data status q s1 Hst) as (Hb & Hnw & Hnc & Hlt);
          [by rewrite Hd|done|done|].
        rewrite Hd in Hlt.
        unfold committed_or_dirty. split_and!; try done; intros Hv'; by destruct Hv'.
      * destruct (commit_done_req_mismatch data status q s1 Hst) as (Hb & Hi & Hw' & Ht);
          [by rewrite Hd|done|done|].
        unfold committed_or_dirty. split_and!; try done; intros Hv'; by destruct Hv.
    + destruct (HP req Hreq) as [(Hin & Hd & Hw)|(Hni & Hb & Hm & Hmm)].
      * left. by rewrite C, D, W.
      * right. split; [by rewrite C|]. unfold committed_or_dirty. split_and!.
        -- by rewrite D.
        -- intros Hv. destruct (Hm Hv) as (Hnw & Hnc & Hlt). split_and!.
           ++ by rewrite W.
           ++ intros h'. by rewrite C.
           ++ by rewrite D.
        -- intros Hv. destruct (Hmm Hv) as (Hi & Hw & Ht). by rewrite C, W, D.
  - intros req Hreq. left. split_and!; try done. by apply Hwf.
  - exists s'. split_and!; try done. intros req Hreq.
    by destruct (HP req Hreq) as [(Hin & _)|[_ Hf]]; [rewrite Hnil in Hin; apply elem_of_nil in Hin|].
Qed.

(** ** The properties of the design document *)

(** C2, as the code has it: when the WRITE call fails (negative completion
    status) the handler records the status on the file of every request
    of the batch, takes every request of the batch out of the index of
    the inode (it is on no list afterwards, the dirty list included: the
    data is dropped, not re-dirtied) and unlocks it. *)
Theorem writeback_done_failure fuel jiffies data tk_status s :
  tk_status < 0 →
  (length (chain s (wd_pages data)) < fuel)%nat →
  ∃ s', nfs_writeback_done fuel jiffies data tk_status s = Some s'
    ∧ chain s' (wd_pages data) = []
    ∧ ∀ req, req ∈ chain s (wd_pages data) →
        f_error s' !! (wb_file (deref s req)) = Some tk_status
        ∧ (req ∉ writeback s')
        ∧ (∀ h, req ∉ chain s' h)
        ∧ NFS_WBACK_BUSY (deref s' req) = 0.
Proof.
  intros Hst Hfuel. unfold nfs_writeback_done.
  assert (writeback_status data tk_status = tk_status) as ->.
  { unfold writeback_status. assert ((0 <=? tk_status) = false) as -> by lia.
    by rewrite andb_false_r. }
  rewrite (drain_ext _ (fail_req tk_status))
    by (intros; by apply writeback_done_req_fail).
  destruct (drain_fail tk_status (wd_pages data) fuel s Hfuel) as (s' & Hrun & Hnil & Hall).
  exists s'. split_and!; try done. intros req Hreq.
  destruct (Hall req Hreq) as (Hc & Hw & Hb & He). by split_and!.
Qed.

(** C3: when the server has answered the COMMIT call, and so returned a
    verifier (the completion status is not negative), every request of
    the batch whose stored verifier equals the one the server returned is
    taken out of the index of the inode and released (it is on no list,
    and it holds fewer references than before or is freed, when it reads
    as zeroes), every request whose verifier differs is put back on the
    dirty list, still hashed, and both are unlocked when the handler
    returns. *)
Theorem commit_done_verifier fuel data tk_status s :
  0 ≤ tk_status → wd_pages data ≠ I_DIRTY →
  Forall (λ req, req ∈ writeback s ∧ 2 ≤ wb_count (deref s req) < 2 ^ 32)
         (chain s (wd_pages data)) →
  (length (chain s (wd_pages data)) < fuel)%nat →
  ∃ s', nfs_commit_done fuel data tk_status s = Some s'
    ∧ chain s' (wd_pages data) = []
    ∧ ∀ req, req ∈ chain s (wd_pages data) →
        NFS_WBACK_BUSY (deref s' req) = 0
        ∧ (verifier (wb_verf (deref s req)) = verifier (wd_verf data) →
             (req ∉ writeback s') ∧ (∀ h, req ∉ chain s' h)
             ∧ wb_count (deref s' req) < wb_count (deref s req))
        ∧ (verifier (wb_verf (deref s req)) ≠ verifier (wd_verf data) →
             req ∈ chain s' I_DIRTY ∧ req ∈ writeback s'
             ∧ nfs_dirty_request s' req = true).
Proof.
  intros Hst Hh Hwf Hfuel. rewrite Forall_forall in Hwf. unfold nfs_commit_done.
  destruct (drain_commit data tk_status (wd_pages data) fuel s) as (s' & Hrun & Hnil & Hall);
    try done.
  exists s'. split_and!; try done. intros req Hreq.
  destruct (Hall req Hreq) as (Hb & Hm & Hmm). split_and!; try done.
  intros Hv. destruct (Hmm Hv) as (Hi & Hw & Ht). split_and!; try done.
  unfold nfs_dirty_request. rewrite Ht, bool_decide_eq_true_2 by done.
  rewrite andb_true_r. apply on_list_spec. by exists I_DIRTY.
Qed.

(** C6, as the code has it: a completion that fails overwrites the error
    stored on the file.  After [nfs_writeback_done] or [nfs_commit_done]
    has handled a failed call, [f_error] of the file of every request of
    the batch is the status of that call, whatever it was before: the
    last error wins. *)
Theorem failed_completion_overwrites_error fuel jiffies data tk_status s req :
  tk_status < 0 →
  req ∈ chain s (wd_pages data) →
  (length (chain s (wd_pages data)) < fuel)%nat →
  (∃ s', nfs_writeback_done fuel jiffies data tk_status s = Some s'
     ∧ f_error s' !! (wb_file (deref s req)) = Some tk_status)
  ∧ (∃ s', nfs_commit_done fuel data tk_status s = Some s'
     ∧ f_error s' !! (wb_file (deref s req)) = Some tk_status).
Proof.
  intros Hst Hreq Hfuel.
  destruct (drain_fail tk_status (wd_pages data) fuel s Hfuel) as (s' & Hrun & Hnil & Hall).
  destruct (Hall req Hreq) as (_ & _ & _ & He).
  split; exists s'; (split; [|done]).
  - unfold nfs_writeback_done.
    assert (writeback_status data tk_status = tk_status) as ->.
    { unfold writeback_status. assert ((0 <=? tk_status) = false) as -> by lia.
      by rewrite andb_false_r. }
    by rewrite (drain_ext _ (fail_req tk_status))
      by (intros; by apply writeback_done_req_fail).
  - unfold nfs_commit_done.
    by rewrite (drain_ext _ (fail_req tk_status))
      by (intros; by apply commit_done_req_fail).
Qed.

(** C9: unlocking a request whose busy flag is clear changes nothing: the
    flag stays clear, nobody is woken, no reference is dropped and the
    request is not freed. *)
Theorem unlock_not_busy_noop req s :
  NFS_WBACK_BUSY (deref s req) = 0 → nfs_unlock_request req s = s.
Proof. intros H. unfold nfs_unlock_request. by rewrite H. Qed.

Lemma run_op_single o s :
  op_ok o → single_membership s →
  ∃ s', run_op o s = Some s' ∧ single_membership s'.
Proof.
  intros Hok H. destruct o; simpl in *.
  - eexists. split; [done|]. by apply keeps_inode_add.
  - eexists. split; [done|]. by apply keeps_inode_remove.
  - eexists. split; [done|]. by apply keeps_list_add.
  - eexists. split; [done|]. by apply keeps_list_remove.
  - eexists. split; [done|]. by apply keeps_mark_dirty.
  - eexists. split; [done|]. by apply keeps_mark_commit.
  - eexists. split; [done|].
    eapply single_membership_lists; [apply lists_lock|done].
  - eexists. split; [done|]. by apply keeps_unlock.
  - eexists. split; [done|]. by apply keeps_release.
  - eexists. split; [done|]. unfold nfs_scan_dirty.
    pose proof (keeps_scan_list I_DIRTY dst file start count s H) as H1.
    destruct (nfs_scan_list I_DIRTY dst file start count s) as [pages s1].
    by eapply single_membership_lists; [|exact H1].
  - eexists. split; [done|]. unfold nfs_scan_commit.
    pose proof (keeps_scan_list I_COMMIT dst file start count s H) as H1.
    destruct (nfs_scan_list I_COMMIT dst file start count s) as [pages s1].
    by eapply single_membership_lists; [|exact H1].
  - unfold coalesce_requests.
    destruct (coalesce_loop_total (S (length (chain s src))) src dst maxpages None 0 s)
      as [r Hr]; [done|lia|].
    rewrite Hr. exists (snd r). split; [done|]. by eapply keeps_coalesce_loop.
  - destruct Hok as [Hd Hc]. unfold nfs_writeback_done.
    destruct (drain_inv single_membership
                (writeback_done_req jiffies data (writeback_status data tk_status))
                (wd_pages data))
      with (fuel := S (length (chain s (wd_pages data)))) (s := s)
      as (s' & Hrun & HP & _); [|done|lia|by exists s'].
    intros s1 q rest H1 Hq. split; [by apply keeps_writeback_done_req|].
    rewrite chain_writeback_done_req by done. by apply (filter_head_length q rest).
  - destruct Hok as [Hd Hc]. unfold nfs_commit_done.
    destruct (drain_inv single_membership (commit_done_req data tk_status)
                (wd_pages data))
      with (fuel := S (length (chain s (wd_pages data)))) (s := s)
      as (s' & Hrun & HP & _); [|done|lia|by exists s'].
    intros s1 q rest H1 Hq. split; [by apply keeps_commit_done_req|].
    rewrite chain_commit_done_req by done. by apply (filter_head_length q rest).
Qed.

(** C8: a request is on at most one list, the dirty list and the commit
    list in particular, and every operation on the index keeps it so:
    any sequence of the operations, started in a state where every
    request is on at most one list, runs to a state where this holds
    again. *)
Theorem single_membership_invariant os s :
  Forall op_ok os → single_membership s →
  ∃ s', run_ops os s = Some s' ∧ single_membership s'
    ∧ ∀ req, ¬ (req ∈ chain s' I_DIRTY ∧ req ∈ chain s' I_COMMIT).
Proof.
  intros Hok. revert s. induction Hok as [|o os Ho Hos IH]; intros s H; simpl.
  - exists s. split_and!; try done. intros req [Hd Hc]. by specialize (H req _ _ Hd Hc).
  - destruct (run_op_single o s Ho H) as (s1 & -> & H1). by apply IH.
Qed.

Lemma coalesce_break_false s a b :
  coalesce_break s (Some a) b = false →
  wb_file (deref s b) = wb_file (deref s a)
  ∧ page_index s b = u32 (page_index s a + 1)
  ∧ wb_offset (deref s b) = 0.
Proof.
  unfold coalesce_break. rewrite !orb_false_iff, !negb_false_iff, !Z.eqb_eq. tauto.
Qed.

Lemma ascending_lookup s l i a b :
  ascending s l → l !! i = Some a → l !! S i = Some b →
  page_index s a < page_index s b.
Proof.
  revert i. induction l as [|x l IH]; intros i Hasc Ha Hb; [done|].
  apply StronglySorted_cons in Hasc as [Hx Hasc]. destruct i as [|i]; simpl in *.
  - simplify_eq. rewrite Forall_forall in Hx. apply Hx.
    by eapply list_elem_of_lookup_2.
  - by apply (IH i).
Qed.

(** C1, as the code has it: from a dirty list of hashed requests of one
    file in ascending page order, [coalesce_requests] takes a batch that
    is a prefix of the list, in the order of the list; the page indices of
    neighbours in the batch differ by exactly one; a batch holds at most
    [maxpages] requests, but never fewer than one when the list is not
    empty (so one request when [maxpages] is 0); and a batch of fewer than
    [maxpages] requests ends only where the list ends, the next request
    is not on the following page or does not begin at the start of its
    page, or the last request taken does not reach the end of its page. *)
Theorem coalesce_requests_batches fuel s src dst maxpages file :
  src ≠ dst → chain s dst = [] → 0 ≤ maxpages < 2 ^ 32 →
  ascending s (chain s src) →
  Forall (λ req, hashed s req = true ∧ wb_file (deref s req) = file
                 ∧ 0 ≤ page_index s req < 2 ^ 32) (chain s src) →
  (length (chain s src) < fuel)%nat →
  ∃ batch rest s',
    coalesce_requests fuel src dst maxpages s = Some (Z.of_nat (length batch), s')
    ∧ chain s src = batch ++ rest ∧ chain s' dst = batch ∧ chain s' src = rest
    ∧ (∀ i a b, batch !! i = Some a → batch !! S i = Some b →
         page_index s b = page_index s a + 1)
    ∧ Z.of_nat (length batch) ≤ Z.max 1 maxpages
    ∧ (chain s src ≠ [] → batch ≠ [])
    ∧ (∀ a b, last batch = Some a → head rest = Some b →
         Z.of_nat (length batch) < maxpages →
         page_index s b ≠ page_index s a + 1 ∨ wb_offset (deref s b) ≠ 0
         ∨ ¬ to_page_end s a).
Proof.
  intros Hne Hdst Hmax Hasc Hwf Hfuel. rewrite Forall_forall in Hwf.
  destruct (coalesce_spec fuel s src dst maxpages)
    as (batch & rest & s' & Hrun & Hsplit & Hd & Hs & Hsame & Hlen & Hnil & Hadj & Hstop);
    try done.
  { intros req Hreq. by apply Hwf. }
  exists batch, rest, s'. split_and!; try done.
  - intros i a b Ha Hb.
    destruct (adjacent_lookup _ _ _ _ _ Hadj Ha Hb) as [_ Hbrk].
    apply coalesce_break_false in Hbrk as (_ & Hidx & _).
    assert (Hlt : page_index s a < page_index s b).
    { apply (ascending_lookup s (batch ++ rest) i); [by rewrite <- Hsplit| |].
      - by apply lookup_app_l_Some.
      - by apply lookup_app_l_Some. }
    assert (Hina : a ∈ chain s src).
    { rewrite Hsplit, elem_of_app. left. by eapply list_elem_of_lookup_2. }
    destruct (Hwf a Hina) as (_ & _ & Hra).
    assert (Hrb : 0 ≤ page_index s b < 2 ^ 32).
    { apply Hwf. rewrite Hsplit, elem_of_app. left. by eapply list_elem_of_lookup_2. }
    unfold u32 in Hidx.
    destruct (decide (page_index s a + 1 < 2 ^ 32)) as [Hs1|Hs1].
    + by rewrite Z.mod_small in Hidx by lia.
    + assert (page_index s a + 1 = 2 ^ 32) as Heq by lia.
      rewrite Heq, Z.mod_same in Hidx by lia. lia.
  - intros Hn Hb. apply Hn. by apply Hnil.
  - intros a b Ha Hb Hlt. specialize (Hstop a Ha).
    destruct rest as [|b' rest]; [done|]. simpl in Hb. simplify_eq.
    destruct Hstop as [Hbrk|[Hto|Hle]]; [|by right; right|lia].
    assert (Hina : a ∈ chain s src).
    { rewrite Hsplit, elem_of_app. left. apply last_Some in Ha as [l' ->].
      rewrite elem_of_app, list_elem_of_singleton. by right. }
    assert (Hinb : b ∈ chain s src).
    { rewrite Hsplit, elem_of_app. right. apply list_elem_of_here. }
    destruct (Hwf a Hina) as (_ & Hfa & Hra). destruct (Hwf b Hinb) as (_ & Hfb & Hrb).
    unfold coalesce_break in Hbrk. rewrite Hfa, Hfb, Z.eqb_refl in Hbrk. simpl in Hbrk.
    apply orb_true_iff in Hbrk as [Hi|Ho].
    + left. apply negb_true_iff, Z.eqb_neq in Hi. intros E. apply Hi. rewrite E.
      unfold u32. rewrite <- E. symmetry. apply Z.mod_small. lia.
    + right. left. by apply negb_true_iff, Z.eqb_neq in Ho.
Qed.

(** C5, as the code has it: a request that does not begin at the start
    of its page is never taken into a batch behind another request: it
    closes the batch before it is taken and stays on the source list.
    Every request of a batch but the first begins at offset 0, and every
    request but the last reaches the end of its page; a first request
    with a non-zero offset does not close the batch by that. *)
Theorem coalesce_requests_offsets fuel s src dst maxpages :
  src ≠ dst → chain s dst = [] → 0 ≤ maxpages < 2 ^ 32 →
  ascending s (chain s src) →
  Forall (λ req, hashed s req = true) (chain s src) →
  (length (chain s src) < fuel)%nat →
  ∃ batch rest s',
    coalesce_requests fuel src dst maxpages s = Some (Z.of_nat (length batch), s')
    ∧ chain s src = batch ++ rest ∧ chain s' dst = batch ∧ chain s' src = rest
    ∧ (∀ i b, batch !! S i = Some b → wb_offset (deref s b) = 0)
    ∧ (∀ i a, batch !! i = Some a → (S i < length batch)%nat → to_page_end s a)
    ∧ (∀ a b, last batch = Some a → head rest = Some b →
         wb_file (deref s b) = wb_file (deref s a) →
         page_index s b = u32 (page_index s a + 1) →
         to_page_end s a → Z.of_nat (length batch) < maxpages →
         wb_offset (deref s b) ≠ 0).
Proof.
  intros Hne Hdst Hmax Hasc Hwf Hfuel. rewrite Forall_forall in Hwf.
  destruct (coalesce_spec fuel s src dst maxpages)
    as (batch & rest & s' & Hrun & Hsplit & Hd & Hs & Hsame & Hlen & Hnil & Hadj & Hstop);
    try done.
  exists batch, rest, s'. split_and!; try done.
  - intros i b Hb.
    destruct (lookup_lt_is_Some_2 batch i) as [a Ha].
    { apply lookup_lt_Some in Hb. lia. }
    destruct (adjacent_lookup _ _ _ _ _ Hadj Ha Hb) as [_ Hbrk].
    by apply coalesce_break_false in Hbrk as (_ & _ & Ho).
  - intros i a Ha Hi.
    destruct (lookup_lt_is_Some_2 batch (S i)) as [b Hb]; [done|].
    by destruct (adjacent_lookup _ _ _ _ _ Hadj Ha Hb) as [Hto _].
  - intros a b Ha Hb Hf Hi Hto Hlt. specialize (Hstop a Ha).
    destruct rest as [|b' rest]; [done|]. simpl in Hb. simplify_eq.
    destruct Hstop as [Hbrk|[Hn|Hle]]; [|done|lia].
    unfold coalesce_break in Hbrk. rewrite Hf, Hi, !Z.eqb_refl in Hbrk. simpl in Hbrk.
    by apply negb_true_iff, Z.eqb_neq in Hbrk.
Qed.

(** *** The wait loop of [nfs_create_request] *)







(** *** The loop of [nfs_writepage_sync] *)

Lemma s32_small z : - 2 ^ 31 ≤ z < 2 ^ 31 → s32 z = z.
Proof. intros H. unfold s32. rewrite Z.mod_small; lia. Qed.

(** The loop counts what it has written and does not lose count of it. *)
Lemma sync_loop_written fuel reply n wsize count offset buffer written isize refresh
    calls r :
  0 < wsize → 0 < count → 0 ≤ written → written + count < 2 ^ 31 →
  sync_loop fuel reply n wsize count offset buffer written isize refresh calls = Some r →
  let '(result, written', _, _, _, m, _) := r in
  (written' = written ∧ m = n ∧ result = reply n ∧ result < 0) ∨ written < written'.
Proof.
  revert n wsize count offset buffer written isize refresh calls.
  induction fuel as [|fuel IH];
    intros n wsize count offset buffer written isize refresh calls Hw Hc Hwr Hsum H;
    [done|].
  cbn [sync_loop] in H. cbv zeta in H.
  destruct (Z.ltb_spec (reply n) 0) as [Hneg|Hpos].
  { simplify_eq. by left. }
  set (w := if count <? wsize then count else wsize) in H.
  assert (Hw1 : 0 < w ≤ count) by (subst w; destruct (Z.ltb_spec count wsize); lia).
  rewrite (s32_small (written + w)), (u32_small (count - w)) in H by lia.
  destruct (Z.eqb_spec (count - w) 0) as [E|E].
  { simplify_eq. right. lia. }
  apply IH in H; [|lia..].
  destruct r as [[[[[[result written'] isize'] err] rf] m] cs]. right. lia.
Qed.

(** The loop leaves with what it has written when chunk [k] fails. *)
Lemma sync_loop_fails (k : nat) :
  ∀ fuel reply n wsize count offset buffer written isize refresh calls,
    0 < wsize → 0 < count < 2 ^ 32 → 0 ≤ written → written + count < 2 ^ 31 →
    (∀ j, (j < k)%nat → 0 ≤ reply (n + j)%nat) → reply (n + k)%nat < 0 →
    Z.of_nat k * Z.min wsize count < count → (k < fuel)%nat →
    ∃ isize' refresh' calls',
      sync_loop fuel reply n wsize count offset buffer written isize refresh calls
      = Some (reply (n + k)%nat, written + Z.of_nat k * Z.min wsize count, isize', true,
              refresh', (n + k)%nat, calls').
Proof.
  induction k as [|k IH];
    intros fuel reply n wsize count offset buffer written isize refresh calls
      Hw Hc Hwr Hsum Hok Hfail Hk Hfuel;
    (destruct fuel as [|fuel]; [lia|]); cbn [sync_loop]; cbv zeta.
  - rewrite Nat.add_0_r in Hfail.
    assert ((reply n <? 0) = true) as -> by lia.
    exists isize, refresh, (calls ++ [WriteCall offset (if count <? wsize then count else wsize) buffer]).
    rewrite Nat.add_0_r. change (Z.of_nat 0) with 0. by rewrite Z.mul_0_l, Z.add_0_r.
  - assert (0 ≤ reply n) as Hn by (specialize (Hok 0%nat); rewrite Nat.add_0_r in Hok; apply Hok; lia).
    assert ((reply n <? 0) = false) as -> by lia.
    set (w := if count <? wsize then count else wsize).
    assert (Hmin : Z.min wsize count = w) by (subst w; destruct (Z.ltb_spec count wsize); lia).
    rewrite Hmin in Hk |- *.
    assert (Hw1 : 0 < w ≤ count) by lia.
    assert (Hcw : w < count) by nia.
    rewrite (s32_small (written + w)), (u32_small (count - w)) by lia.
    assert ((count - w =? 0) = false) as -> by lia.
    destruct (IH fuel reply (S n) w (count - w) (u32 (offset + w)) (buffer + w)
                (written + w)
                (if isize <? u32 (offset + w) then u32 (offset + w) else isize)
                true (calls ++ [WriteCall offset w buffer]))
      as (isize' & refresh' & calls' & Hrun); try lia.
    { intros j Hj. replace (S n + j)%nat with (n + S j)%nat by lia. apply Hok. lia. }
    { by replace (S n + k)%nat with (n + S k)%nat by lia. }
    { destruct k as [|k]; [lia|]. rewrite Z.min_l by nia. nia. }
    exists isize', refresh', calls'. rewrite Hrun.
    replace (S n + k)%nat with (n + S k)%nat by lia.
    assert (written + w + Z.of_nat k * Z.min w (count - w) = written + Z.of_nat (S k) * w)
      as ->; [|done].
    destruct k as [|k]; [lia|]. rewrite Z.min_l by nia. lia.
Qed.

Lemma sync_loop_total fuel reply n wsize count offset buffer written isize refresh calls :
  0 < wsize → 0 < count < 2 ^ 32 → 0 ≤ written → written + count < 2 ^ 31 →
  (Z.to_nat count ≤ fuel)%nat →
  is_Some (sync_loop fuel reply n wsize count offset buffer written isize refresh calls).
Proof.
  revert n wsize count offset buffer written isize refresh calls.
  induction fuel as [|fuel IH];
    intros n wsize count offset buffer written isize refresh calls Hw Hc Hwr Hsum Hf;
    [lia|].
  cbn [sync_loop]. cbv zeta. destruct (reply n <? 0); [done|].
  set (w := if count <? wsize then count else wsize).
  assert (Hw1 : 0 < w ≤ count) by (subst w; destruct (Z.ltb_spec count wsize); lia).
  rewrite (s32_small (written + w)), (u32_small (count - w)) by lia.
  destruct (Z.eqb_spec (count - w) 0) as [E|E]; [done|].
  apply IH; lia.
Qed.

(** C10: when a chunk of a synchronous page write fails after at least
    one chunk was written, [nfs_writepage_sync] returns the count of the
    bytes written so far, which is positive, and not the error; it
    returns the error when the first chunk fails; and a negative return
    value is the error of the first chunk, with no byte written. *)
Theorem writepage_sync_partial reply attrs wsize pg_offset offset count inode uptodate :
  0 < wsize → 0 < count < 2 ^ 31 →
  (∀ fuel (k : nat),
     (∀ j, (j < k)%nat → 0 ≤ reply j) → reply k < 0 →
     Z.of_nat k * Z.min wsize count < count → (k < fuel)%nat →
     ∃ r, nfs_writepage_sync fuel reply attrs wsize pg_offset offset count inode uptodate
          = Some r
       ∧ sync_uptodate r = false
       ∧ (k = 0%nat → sync_ret r = reply 0%nat)
       ∧ (k ≠ 0%nat → sync_ret r = Z.of_nat k * Z.min wsize count ∧ 0 < sync_ret r))
  ∧ (∀ fuel r,
       nfs_writepage_sync fuel reply attrs wsize pg_offset offset count inode uptodate
       = Some r →
       sync_ret r < 0 → reply 0%nat < 0 ∧ sync_ret r = reply 0%nat)
  ∧ (∀ fuel, (Z.to_nat count ≤ fuel)%nat →
       is_Some (nfs_writepage_sync fuel reply attrs wsize pg_offset offset count inode
                                   uptodate)).
Proof.
  intros Hw Hc. split_and!.
  - intros fuel k Hok Hfail Hk Hfuel. unfold nfs_writepage_sync.
    destruct (sync_loop_fails k fuel reply 0%nat wsize count (u32 (offset + pg_offset))
                offset 0 (i_size inode) false [])
      as (isize' & refresh' & calls' & Hrun); try done; try lia.
    rewrite Hrun. cbv zeta. eexists. split; [done|].
    cbn [sync_ret sync_uptodate]. split_and!; [done| |].
    + by intros ->.
    + intros Hk0. assert (0 < Z.of_nat k * Z.min wsize count) by nia.
      destruct (Z.eqb_spec (0 + Z.of_nat k * Z.min wsize count) 0); lia.
  - intros fuel r Hrun Hneg. unfold nfs_writepage_sync in Hrun.
    destruct (sync_loop fuel reply 0 wsize count (u32 (offset + pg_offset)) offset 0
                (i_size inode) false [])
      as [[[[[[[result written] isize'] err] rf] m] cs]|] eqn:E; [|done].
    pose proof (sync_loop_written _ _ _ _ _ _ _ _ _ _ _ _ Hw (proj1 Hc) (Z.le_refl 0)
                  ltac:(lia) E) as Hcases.
    cbv beta iota in Hcases. cbv zeta in Hrun. simplify_eq.
    cbn [sync_ret] in Hneg |- *.
    destruct Hcases as [(-> & -> & -> & Hlt)|Hpos].
    + by rewrite Z.eqb_refl in Hneg |- *.
    + destruct (Z.eqb_spec written 0); lia.
  - intros fuel Hfuel. unfold nfs_writepage_sync.
    destruct (sync_loop_total fuel reply 0%nat wsize count (u32 (offset + pg_offset))
                offset 0 (i_size inode) false [])
      as [[[[[[[result written] isize'] err] rf] m] cs] ->]; try done; lia.
Qed.

(** *** Updating a request that is there *)

Lemma find_alone s pg req :
  req ∈ writeback s → page_index s req = index pg →
  Forall (λ q, page_index s q = index pg → q = req) (writeback s) →
  ∃ i, list_find (λ q, page_index s q = index pg) (writeback s) = Some (i, req).
Proof.
  intros Hin Hidx Halone. rewrite Forall_forall in Halone.
  destruct (list_find (λ q, page_index s q = index pg) (writeback s)) as [[i q]|] eqn:E.
  - apply list_find_Some in E as (Hq & HP & _). exists i.
    rewrite (Halone q); [done| |done]. by eapply list_elem_of_lookup_2.
  - apply list_find_None in E. rewrite Forall_forall in E. by destruct (E req Hin).
Qed.

Lemma busy_locked f : Z.land (Z.lor f PG_BUSY) PG_BUSY = PG_BUSY.
Proof.
  rewrite Z.land_lor_distr_l. change (Z.land PG_BUSY PG_BUSY) with PG_BUSY.
  unfold PG_BUSY. apply Z.bits_inj'. intros n Hn.
  rewrite Z.lor_spec, Z.land_spec. destruct (Z.testbit 1 n); [apply orb_true_r|].
  by rewrite andb_false_r.
Qed.

Lemma update_loop_found fuel e file pg offset bytes s req r :
  mem s !! req = Some r → updatable s file pg req →
  1 ≤ wb_count r < 2 ^ 32 - 2 →
  update_loop (S fuel) e file pg offset bytes None s
  = (UpdReq req,
     set_mem (<[req := set_wb_flags (Z.lor (wb_flags r) PG_BUSY)
                         (set_wb_count (wb_count r + 2) r)]> (mem s)) s).
Proof.
  intros Hr [Hl Hh Ha Hf Hp Hd Hb Hrg] Hc. rewrite (deref_known _ _ _ Hr) in *.
  destruct (find_alone s pg req) as [i Hfind]; try done.
  { unfold page_index. by rewrite (deref_known _ _ _ Hr), Hp. }
  simpl. unfold update_pass, _nfs_find_request. rewrite Hfind.
  rewrite (upd_known _ _ _ _ Hr). unfold nfs_lock_request.
  set (s1 := set_mem _ s).
  assert (Hr1 : mem s1 !! req = Some (set_wb_count (u32 (wb_count r + 1)) r))
    by apply lookup_insert_eq.
  rewrite (deref_known _ _ _ Hr1).
  change (NFS_WBACK_BUSY (set_wb_count ?c r)) with (NFS_WBACK_BUSY r). rewrite Hb.
  simpl. rewrite (upd_known _ _ _ _ Hr1). subst s1. unfold set_mem. simpl.
  rewrite insert_insert_eq. do 4 f_equal. unfold set_wb_flags, set_wb_count. simpl.
  f_equal. rewrite (u32_small (wb_count r + 1)) by lia. rewrite u32_small; lia.
Qed.

Lemma unlock_known req s r :
  mem s !! req = Some r → NFS_WBACK_BUSY r ≠ 0 → 2 ≤ wb_count r < 2 ^ 32 →
  nfs_unlock_request req s
  = set_woken (req :: woken s)
      (set_mem (<[req := set_wb_count (wb_count r - 1)
                           (set_wb_flags (Z.land (wb_flags r) (Z.lnot PG_BUSY)) r)]>
                  (mem s)) s).
Proof.
  intros Hr Hb Hc. unfold nfs_unlock_request. rewrite (deref_known _ _ _ Hr).
  apply Z.eqb_neq in Hb. rewrite Hb. rewrite (upd_known _ _ _ _ Hr).
  set (s2 := set_woken _ _).
  assert (Hr2 : mem s2 !! req
                = Some (set_wb_flags (Z.land (wb_flags r) (Z.lnot PG_BUSY)) r))
    by apply lookup_insert_eq.
  destruct (release_cases req s2) as [[_ E]|[E _]].
  - rewrite E, (upd_known _ _ _ _ Hr2), (deref_known _ _ _ Hr2). subst s2.
    unfold set_mem, set_woken. simpl. rewrite insert_insert_eq. do 4 f_equal.
    unfold set_wb_count. simpl. f_equal. apply u32_small. lia.
  - rewrite (deref_known _ _ _ Hr2) in E. simpl in E. rewrite u32_small in E; lia.
Qed.

(** What [nfs_update_request] does when the page has a request that the
    write overlaps or abuts. *)
Lemma update_existing fuel e file pg offset bytes s req r :
  mem s !! req = Some r → updatable s file pg req →
  1 ≤ wb_count r < 2 ^ 32 - 2 →
  0 ≤ offset → 0 ≤ bytes → offset + bytes < 2 ^ 32 →
  offset ≤ wb_offset r + wb_bytes r → wb_offset r ≤ offset + bytes →
  nfs_update_request (S fuel) e file pg offset bytes s
  = (UpdReq req,
     set_woken (req :: woken s)
       (set_mem (<[req := widened offset bytes r]> (mem s)) s)).
Proof.
  intros Hr Hu Hc Ho Hby Hend Hov1 Hov2. unfold nfs_update_request.
  rewrite (update_loop_found fuel e file pg offset bytes s req r Hr Hu Hc).
  destruct Hu as [Hl Hh Ha Hf Hp Hd Hb Hrg]. rewrite (deref_known _ _ _ Hr) in *.
  set (r2 := set_wb_flags _ _). set (s2 := set_mem _ s).
  assert (Hr2 : mem s2 !! req = Some r2) by apply lookup_insert_eq.
  rewrite (deref_known _ _ _ Hr2).
  change (wb_file r2) with (wb_file r). change (wb_page r2) with (wb_page r).
  change (wb_offset r2) with (wb_offset r). change (wb_bytes r2) with (wb_bytes r).
  rewrite Hf, Hp, !Z.eqb_refl.
  assert (Hd2 : nfs_dirty_request s2 req = true).
  { unfold nfs_dirty_request in *. rewrite (deref_known _ _ _ Hr2).
    by rewrite (deref_known _ _ _ Hr) in Hd. }
  rewrite Hd2. rewrite (u32_small (wb_offset r + wb_bytes r)) by lia.
  rewrite (u32_small (offset + bytes)), (u32_small offset) by lia.
  assert ((wb_offset r + wb_bytes r <? offset) = false) as -> by lia.
  assert ((offset + bytes <? wb_offset r) = false) as -> by lia.
  simpl negb. simpl orb. cbv iota.
  assert (Hb2 : NFS_WBACK_BUSY r2 ≠ 0).
  { unfold NFS_WBACK_BUSY, r2. simpl. by rewrite busy_locked. }
  destruct (Z.ltb_spec offset (wb_offset r)) as [Hlo|Hlo];
    destruct (Z.ltb_spec (wb_offset r + wb_bytes r) (offset + bytes)) as [Hhi|Hhi].
  - rewrite (upd_known _ _ _ _ Hr2).
    set (s3 := set_mem _ s2).
    assert (Hr3 : mem s3 !! req
                  = Some (set_wb_bytes (u32 (wb_offset r + wb_bytes r - offset))
                            (set_wb_offset offset r2))) by apply lookup_insert_eq.
    rewrite (upd_known _ _ _ _ Hr3). erewrite unlock_known;
      [|apply lookup_insert_eq|done|simpl; lia].
    subst s3 s2. unfold set_mem, set_woken. simpl. rewrite !insert_insert_eq.
    do 4 f_equal. unfold widened, set_wb_count, set_wb_flags, set_wb_bytes. simpl.
    rewrite Z.min_l, Z.max_l by lia. f_equal; [apply u32_small|]; lia.
  - rewrite (upd_known _ _ _ _ Hr2). erewrite unlock_known;
      [|apply lookup_insert_eq|done|simpl; lia].
    subst s2. unfold set_mem, set_woken. simpl. rewrite !insert_insert_eq.
    do 4 f_equal. unfold widened, set_wb_count, set_wb_flags, set_wb_bytes. simpl.
    rewrite Z.min_l, Z.max_r by lia. f_equal; [apply u32_small|]; lia.
  - rewrite (upd_known _ _ _ _ Hr2). erewrite unlock_known;
      [|apply lookup_insert_eq|done|simpl; lia].
    subst s2. unfold set_mem, set_woken. simpl. rewrite !insert_insert_eq.
    do 4 f_equal. unfold widened, set_wb_count, set_wb_flags, set_wb_bytes. simpl.
    rewrite Z.min_r, Z.max_l by lia. f_equal; [apply u32_small|]; lia.
  - erewrite unlock_known; [|exact Hr2|done|simpl; lia].
    subst s2. unfold set_mem, set_woken. simpl. rewrite !insert_insert_eq.
    do 4 f_equal. unfold widened, set_wb_count, set_wb_flags. simpl.
    rewrite Z.min_r, Z.max_r by lia. destruct r. simpl. f_equal; lia.
Qed.

Lemma updatable_widened file pg offset bytes s req r :
  mem s !! req = Some r → updatable s file pg req →
  0 ≤ offset → 0 ≤ bytes → offset + bytes < 2 ^ 32 →
  updatable
    (set_woken (req :: woken s) (set_mem (<[req := widened offset bytes r]> (mem s)) s))
    file pg req.
Proof.
  intros Hr [Hl Hh Ha Hf Hp Hd Hb Hrg] Ho Hby Hend.
  rewrite (deref_known _ _ _ Hr) in *.
  set (s' := set_woken _ _).
  assert (Hr' : mem s' !! req = Some (widened offset bytes r)) by apply lookup_insert_eq.
  assert (Hidx : ∀ q, page_index s' q = page_index s q).
  { intros q. unfold page_index, deref. simpl. rewrite lookup_insert.
    case_decide; [|done]. subst q. by rewrite Hr. }
  split; rewrite ?(deref_known _ _ _ Hr'); try done.
  - by eexists.
  - simpl. eapply Forall_impl; [exact Ha|]. intros q Hq. by rewrite Hidx.
  - unfold nfs_dirty_request in *. rewrite (deref_known _ _ _ Hr').
    by rewrite (deref_known _ _ _ Hr) in Hd.
  - unfold NFS_WBACK_BUSY. simpl. apply busy_cleared.
  - simpl. lia.
Qed.

(** C7: a write to a page whose dirty request it overlaps or abuts widens
    that request in place: the request begins at the smaller of the two
    starts and ends at the larger of the two ends, and no request is
    added to the index.  Writing the same range once more returns the
    same request with the same span. *)
Theorem update_request_widens fuel e file pg offset bytes s req :
  updatable s file pg req →
  1 ≤ wb_count (deref s req) < 2 ^ 32 - 3 →
  0 ≤ offset → 0 ≤ bytes → offset + bytes < 2 ^ 32 →
  offset ≤ wb_offset (deref s req) + wb_bytes (deref s req) →
  wb_offset (deref s req) ≤ offset + bytes →
  ∃ s',
    nfs_update_request (S fuel) e file pg offset bytes s = (UpdReq req, s')
    ∧ wb_offset (deref s' req) = Z.min offset (wb_offset (deref s req))
    ∧ wb_offset (deref s' req) + wb_bytes (deref s' req)
      = Z.max (offset + bytes) (wb_offset (deref s req) + wb_bytes (deref s req))
    ∧ writeback s' = writeback s ∧ lists s' = lists s
    ∧ dom (mem s') = dom (mem s)
    ∧ ∃ s'',
        nfs_update_request (S fuel) e file pg offset bytes s' = (UpdReq req, s'')
        ∧ wb_offset (deref s'' req) = wb_offset (deref s' req)
        ∧ wb_bytes (deref s'' req) = wb_bytes (deref s' req)
        ∧ writeback s'' = writeback s ∧ lists s'' = lists s
        ∧ dom (mem s'') = dom (mem s).
Proof.
  intros Hu Hc Ho Hby Hend Hov1 Hov2.
  destruct (upd_live _ _ _ _ Hu) as [r Hr]. rewrite (deref_known _ _ _ Hr) in *.
  pose proof (upd_range _ _ _ _ Hu) as Hrg. rewrite (deref_known _ _ _ Hr) in Hrg.
  assert (Hdom : ∀ (m : gmap ptr nfs_page) r0 r1,
            m !! req = Some r0 → dom (<[req := r1]> m) = dom m).
  { intros m r0 r1 Hm. apply dom_insert_lookup_L. by eexists. }
  eexists. split;
    [apply (update_existing fuel e file pg offset bytes s req r); try done; lia|].
  set (s' := set_woken _ _).
  assert (Hr' : mem s' !! req = Some (widened offset bytes r)) by apply lookup_insert_eq.
  rewrite (deref_known _ _ _ Hr').
  split_and!; try done.
  - simpl. lia.
  - simpl. by eapply Hdom.
  - pose proof (updatable_widened file pg offset bytes s req r Hr Hu Ho Hby Hend) as Hu'.
    fold s' in Hu'.
    eexists. split;
      [apply (update_existing fuel e file pg offset bytes s' req (widened offset bytes r));
       try done; simpl; lia|].
    set (s'' := set_woken _ _).
    assert (Hr'' : mem s'' !! req = Some (widened offset bytes (widened offset bytes r)))
      by apply lookup_insert_eq.
    rewrite (deref_known _ _ _ Hr'').
    split_and!; try done.
    + simpl. lia.
    + simpl. lia.
    + simpl. rewrite (Hdom _ (widened offset bytes r)) by done. by eapply Hdom.
Qed.


(** ** A COMMIT call that failed *)

(** X29: when the COMMIT call fails (negative completion status),
    [nfs_commit_done] compares no verifier: it records the status on the
    file of every request of the batch, takes every request of the batch
    out of the index of the inode, whatever its verifier (it is on no
    list afterwards, the dirty list included), and unlocks it. *)
Theorem commit_done_failure fuel data tk_status s :
  tk_status < 0 →
  (length (chain s (wd_pages data)) < fuel)%nat →
  ∃ s', nfs_commit_done fuel data tk_status s = Some s'
    ∧ chain s' (wd_pages data) = []
    ∧ ∀ req, req ∈ chain s (wd_pages data) →
        f_error s' !! (wb_file (deref s req)) = Some tk_status
        ∧ (req ∉ writeback s')
        ∧ (∀ h, req ∉ chain s' h)
        ∧ NFS_WBACK_BUSY (deref s' req) = 0.
Proof.
  intros Hst Hfuel. unfold nfs_commit_done.
  rewrite (drain_ext _ (fail_req tk_status))
    by (intros; by apply commit_done_req_fail).
  destruct (drain_fail tk_status (wd_pages data) fuel s Hfuel) as (s' & Hrun & Hnil & Hall).
  exists s'. split_and!; try done. intros req Hreq.
  destruct (Hall req Hreq) as (Hc & Hw & Hb & He). by split_and!.
Qed.

(** ** Sorted insertion *)

Lemma list_add_prev_split s req rl :
  ∃ r1 r2, rl = r1 ++ r2 ∧ list_add_prev s req rl = r1 ++ req :: r2
    ∧ Forall (λ x, page_index s req ≤ page_index s x) r1
    ∧ (∀ p, head r2 = Some p → page_index s p < page_index s req).
Proof.
  induction rl as [|p rl (r1 & r2 & E1 & E2 & H1 & H2)].
  - exists [], []. by split_and!.
  - cbn [list_add_prev]. destruct (Z.ltb_spec (page_index s p) (page_index s req)) as [Hlt|Hge].
    + exists [], (p :: rl). split_and!; try done. intros q [= <-]. done.
    + exists (p :: r1), r2. rewrite E2. split_and!; try done.
      * by rewrite E1.
      * by constructor.
Qed.

Lemma ordered_app s l1 l2 :
  ordered s (l1 ++ l2) ↔
  ordered s l1 ∧ ordered s l2
  ∧ ∀ a b, a ∈ l1 → b ∈ l2 → page_index s a ≤ page_index s b.
Proof.
  unfold ordered. induction l1 as [|x l1 IH]; simpl.
  - split; [intros H; split_and!; [constructor|done|]|by intros (_ & H & _)].
    intros a b Ha. by apply elem_of_nil in Ha.
  - split.
    + intros H. apply StronglySorted_inv in H as [H1 H2].
      apply IH in H1 as (Ha & Hb & Hab). apply Forall_app in H2 as [H2 H3].
      split_and!; [by constructor|done|].
      intros a b [->|Ha']%elem_of_cons Hb'; [|by apply Hab].
      by eapply Forall_forall in H3.
    + intros (H1 & H2 & H3). apply StronglySorted_inv in H1 as [H1 H4].
      constructor.
      * apply IH. split_and!; [done..|]. intros a b Ha Hb. apply H3; [|done].
        by apply elem_of_cons; right.
      * apply Forall_app. split; [done|]. apply Forall_forall. intros b Hb.
        apply H3; [|done]. apply list_elem_of_here.
Qed.

Lemma ordered_same s s' l :
  (∀ q, page_index s' q = page_index s q) → ordered s l → ordered s' l.
Proof.
  intros E. unfold ordered. induction 1 as [|x l H IH HF]; constructor; [done|].
  eapply Forall_impl; [exact HF|]. intros y Hy. simpl in Hy. by rewrite !E.
Qed.

(** X1: [nfs_list_add_request] puts a hashed request that is on no list
    into a list sorted by page index behind every entry of a smaller index
    and in front of every other one; the list stays sorted, and no other
    list changes. *)
Theorem list_add_request_sorted req h s :
  on_list s req = false → hashed s req = true → ordered s (chain s h) →
  ∃ l1 l2,
    chain s h = l1 ++ l2
    ∧ chain (nfs_list_add_request req h s) h = l1 ++ req :: l2
    ∧ Forall (λ x, page_index s x < page_index s req) l1
    ∧ Forall (λ x, page_index s req ≤ page_index s x) l2
    ∧ ordered (nfs_list_add_request req h s) (chain (nfs_list_add_request req h s) h)
    ∧ ∀ h', h' ≠ h → chain (nfs_list_add_request req h s) h' = chain s h'.
Proof.
  intros Hon Hh Hord.
  destruct (list_add_prev_split s req (reverse (chain s h))) as (r1 & r2 & E1 & E2 & H1 & H2).
  assert (Ec : chain s h = reverse r2 ++ reverse r1).
  { by rewrite <- reverse_app, <- E1, reverse_involutive. }
  assert (Ea : chain (nfs_list_add_request req h s) h = reverse r2 ++ req :: reverse r1).
  { rewrite chain_add, Hon, Hh. simpl. rewrite decide_True by done.
    rewrite E2, reverse_app, reverse_cons, <- app_assoc. done. }
  rewrite Ec in Hord. apply ordered_app in Hord as (Ho2 & Ho1 & Ho12).
  assert (Hl1 : Forall (λ x, page_index s x < page_index s req) (reverse r2)).
  { apply Forall_forall. intros x Hx.
    destruct r2 as [|p r2]; [by apply elem_of_nil in Hx|].
    specialize (H2 p eq_refl). rewrite reverse_cons in Hx, Ho2.
    apply ordered_app in Ho2 as (_ & _ & Ho2).
    apply elem_of_app in Hx as [Hx|Hx%list_elem_of_singleton]; [|by subst].
    specialize (Ho2 x p Hx). rewrite list_elem_of_singleton in Ho2.
    specialize (Ho2 eq_refl). lia. }
  assert (Hl2 : Forall (λ x, page_index s req ≤ page_index s x) (reverse r1)).
  { apply Forall_forall. intros x Hx. rewrite elem_of_reverse in Hx.
    rewrite Forall_forall in H1. by apply H1. }
  exists (reverse r2), (reverse r1). split_and!; try done.
  - rewrite Ea.
    apply (ordered_same s); [intros q; apply (same_page_index _ _ (same_requests_add req h s))|].
    apply ordered_app. split_and!; [done| |].
    + constructor; [done|]. exact Hl2.
    + intros a b Ha [->|Hb]%elem_of_cons.
      * eapply Forall_forall in Hl1; [|done]. simpl in Hl1. lia.
      * by apply Ho12.
  - intros h' Hne. rewrite chain_add, Hon, Hh. simpl. by rewrite decide_False.
Qed.

(** ** Locking *)

Lemma flags_lock_unlock f :
  Z.land f PG_BUSY = 0 → Z.land (Z.lor f PG_BUSY) (Z.lnot PG_BUSY) = f.
Proof.
  intros H. apply Z.bits_inj'. intros n Hn.
  rewrite Z.land_spec, Z.lor_spec, Z.lnot_spec by done.
  apply (f_equal (λ z, Z.testbit z n)) in H. rewrite Z.land_spec, Z.bits_0 in H.
  unfold PG_BUSY in *. destruct (decide (n = 0)) as [->|Hne].
  - change (Z.testbit 1 0) with true in *. rewrite andb_true_r in H. rewrite H. done.
  - assert (Z.testbit 1 n = false) as ->.
    { apply (Z.bits_above_log2 1 n); simpl; lia. }
    by rewrite orb_false_r, andb_true_r.
Qed.

Lemma set_mem_id req r s : mem s !! req = Some r → set_mem (<[req := r]> (mem s)) s = s.
Proof. intros H. destruct s; unfold set_mem; simpl in *. by rewrite insert_id. Qed.

(** X2: locking an unlocked request and unlocking it again gives the
    request back as it was; all that is left of the two calls is the
    wake-up of the waiters of the request. *)
Theorem lock_unlock_restores req s :
  live s req → NFS_WBACK_BUSY (deref s req) = 0 →
  1 ≤ wb_count (deref s req) < 2 ^ 32 - 1 →
  fst (nfs_lock_request req s) = true
  ∧ nfs_unlock_request req (snd (nfs_lock_request req s))
    = set_woken (req :: woken s) s.
Proof.
  intros [r Hr] Hb Hc. rewrite (deref_known _ _ _ Hr) in Hb, Hc.
  unfold nfs_lock_request. rewrite (deref_known _ _ _ Hr), Hb. simpl.
  split; [done|]. rewrite (upd_known _ _ _ _ Hr).
  set (r1 := set_wb_flags _ _). set (s1 := set_mem _ s).
  assert (Hr1 : mem s1 !! req = Some r1) by apply lookup_insert_eq.
  rewrite (unlock_known req s1 r1 Hr1).
  - subst s1 r1. destruct s as [m l w np nd nc fe nr wk]. unfold set_woken, set_mem. simpl in *.
    f_equal. rewrite insert_insert_eq. apply insert_id. rewrite Hr. f_equal.
    destruct r as [lh f c p t o b cnt fl v]. unfold set_wb_count, set_wb_flags. simpl in *.
    f_equal.
    + rewrite u32_small by lia. lia.
    + symmetry. by apply flags_lock_unlock.
  - subst r1. unfold NFS_WBACK_BUSY. simpl. rewrite busy_locked. done.
  - subst r1. simpl. rewrite u32_small by lia. lia.
Qed.

(** ** References *)

Lemma release_step fuel req s :
  nfs_release_request_aux (S fuel) req s
  = if negb (u32 (wb_count (deref s req) - 1) =? 0)
    then upd req (set_wb_count (u32 (wb_count (deref s req) - 1))) s
    else
      let s1 := upd req (set_wb_count (u32 (wb_count (deref s req) - 1))) s in
      let s2 := if on_list s1 req then nfs_list_remove_request req s1 else s1 in
      let s3 :=
        if hashed s2 req
        then nfs_inode_remove_request_with (nfs_release_request_aux fuel) req s2
        else s2 in
      let s4 := set_mem (delete req (mem s3)) s3 in
      set_nfs_nr_requests (u32 (nfs_nr_requests s4 - 1)) s4.
Proof. reflexivity. Qed.

Lemma release_shared req s r :
  mem s !! req = Some r → 2 ≤ wb_count r < 2 ^ 32 →
  nfs_release_request req s
  = set_mem (<[req := set_wb_count (wb_count r - 1) r]> (mem s)) s.
Proof.
  intros Hr Hc. unfold nfs_release_request. rewrite release_step.
  rewrite (deref_known _ _ _ Hr). rewrite (u32_small (wb_count r - 1)) by lia.
  destruct (Z.eqb_spec (wb_count r - 1) 0) as [E|E]; [lia|]. cbn [negb].
  by apply upd_known.
Qed.

Lemma wb_count_upd req c s : wb_count (deref (upd req (set_wb_count c) s) req) = c ∨
  (mem s !! req = None ∧ wb_count (deref (upd req (set_wb_count c) s) req) = 0).
Proof.
  rewrite deref_upd, decide_True by done.
  destruct (mem s !! req); [by left|by right].
Qed.

Lemma release_freed req s :
  u32 (wb_count (deref s req) - 1) = 0 →
  let s' := nfs_release_request req s in
  mem s' = delete req (mem s)
  ∧ (∀ h, chain s' h = filter (λ q, q ≠ req) (chain s h))
  ∧ writeback s' = filter (λ q, q ≠ req) (writeback s)
  ∧ nfs_nr_requests s' = u32 (nfs_nr_requests s - 1)
  ∧ npages s' = (if hashed s req then u32 (npages s - 1) else npages s).
Proof.
  intros Hc s'. subst s'. unfold nfs_release_request. rewrite release_step, Hc.
  change (negb (0 =? 0)) with false. cbv iota zeta.
  set (s1 := upd req (set_wb_count 0) s).
  assert (H1 : wb_count (deref s1 req) = 0).
  { destruct (wb_count_upd req 0 s) as [E|[_ E]]; exact E. }
  set (s2 := if on_list s1 req then nfs_list_remove_request req s1 else s1).
  assert (Hm2 : mem s2 = alter (set_wb_list_head None) req (mem s1) ∨ mem s2 = mem s1).
  { subst s2. unfold nfs_list_remove_request. destruct (on_list s1 req); [by left|by right]. }
  assert (Hl2 : ∀ h, chain s2 h = filter (λ q, q ≠ req) (chain s h)).
  { intros h. subst s2. destruct (on_list s1 req) eqn:Hon.
    - exact (chain_remove req s1 h).
    - symmetry. apply filter_ne_id. by apply (proj1 (on_list_false s1 req) Hon h). }
  assert (Hw2 : writeback s2 = writeback s).
  { subst s2. unfold nfs_list_remove_request. by destruct (on_list s1 req). }
  assert (Hn2 : npages s2 = npages s ∧ nfs_nr_requests s2 = nfs_nr_requests s).
  { subst s2. unfold nfs_list_remove_request. by destruct (on_list s1 req). }
  assert (H2 : wb_count (deref s2 req) = 0).
  { subst s2. destruct (on_list s1 req); [|done].
    by rewrite (same_wb_count _ _ (same_requests_remove req s1)). }
  assert (Hh2 : hashed s2 req = hashed s req) by (unfold hashed; by rewrite Hw2).
  assert (Hd2 : delete req (mem s2) = delete req (mem s)).
  { destruct Hm2 as [-> | ->]; subst s1; unfold upd; simpl; by rewrite ?delete_alter_eq. }
  rewrite Hh2. destruct (hashed s req) eqn:Hh.
  - unfold nfs_inode_remove_request_with. rewrite Hh2. cbn [negb].
    rewrite release_aux_count0 by exact H2. simpl.
    rewrite delete_alter_eq, Hd2, Hw2. destruct Hn2 as [-> ->]. split_and!; try done.
  - simpl. rewrite Hd2, Hw2. destruct Hn2 as [-> ->]. split_and!; try done.
    symmetry. apply filter_ne_id. unfold hashed in Hh. by apply bool_decide_eq_false in Hh.
Qed.

(** X3: [nfs_release_request] frees a request when, and only when, it
    drops the last reference: the request is then off every list and out
    of the index of the inode, the inode's page count goes down if it was
    still hashed, and one request less is counted; with references left,
    the count of the request is all that changes. *)
Theorem release_last_reference req s :
  1 ≤ wb_count (deref s req) < 2 ^ 32 →
  (wb_count (deref s req) = 1 →
     mem (nfs_release_request req s) = delete req (mem s)
     ∧ (∀ h, chain (nfs_release_request req s) h = filter (λ q, q ≠ req) (chain s h))
     ∧ writeback (nfs_release_request req s) = filter (λ q, q ≠ req) (writeback s)
     ∧ nfs_nr_requests (nfs_release_request req s) = u32 (nfs_nr_requests s - 1)
     ∧ npages (nfs_release_request req s)
       = (if hashed s req then u32 (npages s - 1) else npages s))
  ∧ (wb_count (deref s req) ≠ 1 →
     nfs_release_request req s
     = upd req (set_wb_count (wb_count (deref s req) - 1)) s).
Proof.
  intros Hc. split.
  - intros E. apply release_freed. by rewrite E.
  - intros Hne. destruct (release_cases req s) as [[_ E]|[E _]].
    + rewrite E. by rewrite u32_small by lia.
    + rewrite u32_small in E by lia. lia.
Qed.

(** ** The index of the inode *)

(** X4: hashing a request and unhashing it again leaves the state as it
    was. *)
Theorem inode_add_remove_restores req s :
  live s req → req ∉ writeback s →
  1 ≤ wb_count (deref s req) < 2 ^ 32 - 1 → 0 ≤ npages s < 2 ^ 32 - 1 →
  nfs_inode_remove_request req (nfs_inode_add_request req s) = s.
Proof.
  intros [r Hr] Hw Hc Hn. rewrite (deref_known _ _ _ Hr) in Hc.
  unfold nfs_inode_add_request, hashed. rewrite bool_decide_eq_false_2 by done.
  cbv zeta. set (s2 := set_writeback _ _).
  rewrite (upd_known req _ s2 r Hr).
  unfold nfs_inode_remove_request, nfs_inode_remove_request_with, hashed.
  rewrite bool_decide_eq_true_2 by apply list_elem_of_here. cbn [negb].
  set (r1 := set_wb_count _ r). set (s3 := set_npages _ _).
  assert (Hr1 : mem s3 !! req = Some r1) by apply lookup_insert_eq.
  rewrite (release_shared req s3 r1 Hr1).
  - subst s3 s2 r1. destruct s as [m l w np nd nc fe nr wk].
    unfold set_mem, set_npages, set_writeback. simpl in *. f_equal.
    + rewrite insert_insert_eq. apply insert_id. rewrite Hr. f_equal.
      destruct r. unfold set_wb_count. simpl in *. f_equal.
      rewrite u32_small by lia. lia.
    + rewrite filter_cons, decide_False by (intros H; by apply H).
      by apply filter_ne_id.
    + rewrite (u32_small (np + 1)) by lia. rewrite u32_small by lia. lia.
  - subst r1. simpl. rewrite u32_small by lia. lia.
Qed.

Lemma page_index_count req c s q :
  page_index (upd req (λ r, set_wb_count (c r) r) s) q = page_index s q.
Proof.
  unfold page_index. rewrite deref_upd. destruct (decide (req = q)) as [->|]; [|done].
  unfold deref. by destruct (mem s !! q).
Qed.

(** X5: the request hashed last is the one a lookup of its page finds,
    whatever else is hashed for the page. *)
Theorem find_after_add req pg s :
  req ∉ writeback s → page_index s req = index pg →
  fst (_nfs_find_request pg (nfs_inode_add_request req s)) = Some req.
Proof.
  intros Hw Hi. unfold nfs_inode_add_request, hashed.
  rewrite bool_decide_eq_false_2 by done. cbv zeta.
  unfold _nfs_find_request.
  set (s3 := upd req _ _).
  assert (Hw3 : writeback s3 = req :: writeback s) by done.
  rewrite Hw3. cbn [list_find].
  rewrite decide_True; [done|].
  subst s3. rewrite (page_index_count req (λ r, u32 (wb_count r + 1))). exact Hi.
Qed.

(** X6: a request that has been taken out of the index is not found by a
    lookup any more. *)
Theorem find_after_remove req pg s :
  fst (_nfs_find_request pg (nfs_inode_remove_request req s)) ≠ Some req.
Proof.
  pose proof (not_hashed_inode_remove req s) as Hn.
  unfold _nfs_find_request. destruct (list_find _ _) as [[i q]|] eqn:E; [|done].
  simpl. intros [= ->]. apply list_find_Some in E as (E & _ & _).
  apply Hn. by eapply list_elem_of_lookup_2.
Qed.

(** X7: [nfs_flush_incompatible] leaves the request of the page alone
    when it is of the same file and page: nothing is written back, and
    the reference taken by the lookup is given back. *)
Theorem flush_incompatible_compatible file pg s req :
  live s req → req ∈ writeback s → page_index s req = index pg →
  Forall (λ q, page_index s q = index pg → q = req) (writeback s) →
  wb_file (deref s req) = file → pg_addr (wb_page (deref s req)) = pg_addr pg →
  1 ≤ wb_count (deref s req) < 2 ^ 32 - 1 →
  nfs_flush_incompatible file pg s = (0, s).
Proof.
  intros [r Hr] Hw Hi Hall Hf Hp Hc. rewrite (deref_known _ _ _ Hr) in Hf, Hp, Hc.
  destruct (find_alone s pg req Hw Hi Hall) as [i Hfind].
  unfold nfs_flush_incompatible, nfs_find_request, _nfs_find_request. rewrite Hfind.
  rewrite (upd_known req _ s r Hr). set (r1 := set_wb_count _ r). set (s1 := set_mem _ s).
  assert (Hr1 : mem s1 !! req = Some r1) by apply lookup_insert_eq.
  cbv zeta. rewrite (deref_known _ _ _ Hr1).
  assert ((wb_file r1 =? file) = true) as -> by (apply Z.eqb_eq; exact Hf).
  assert ((pg_addr (wb_page r1) =? pg_addr pg) = true) as -> by (apply Z.eqb_eq; exact Hp).
  cbn [negb orb]. change (0 <? 0) with false. cbv iota. f_equal.
  rewrite (release_shared req s1 r1 Hr1).
  - subst s1 r1. destruct s as [m l w np nd nc fe nr wk]. unfold set_mem. simpl in *.
    f_equal. rewrite insert_insert_eq. apply insert_id. rewrite Hr. f_equal.
    destruct r. unfold set_wb_count. simpl in *. f_equal. rewrite u32_small by lia. lia.
  - subst r1. simpl. rewrite u32_small by lia. lia.
Qed.

(** ** Writing a page: the calls all succeed *)





Lemma shiftr_page z :
  PAGE_CACHE_SIZE = 2 ^ PAGE_CACHE_SHIFT → 0 ≤ PAGE_CACHE_SHIFT →
  Z.shiftr z PAGE_CACHE_SHIFT = z / PAGE_CACHE_SIZE.
Proof. intros -> H. by apply Z.shiftr_div_pow2. Qed.


Lemma land_page z :
  PAGE_CACHE_SIZE = 2 ^ PAGE_CACHE_SHIFT → 0 ≤ PAGE_CACHE_SHIFT →
  Z.land z (PAGE_CACHE_SIZE - 1) = z mod PAGE_CACHE_SIZE.
Proof.
  intros -> H. rewrite <- Z.land_ones by done. by rewrite Z.ones_equiv, Z.sub_1_r.
Qed.

Lemma page_size_pos :
  PAGE_CACHE_SIZE = 2 ^ PAGE_CACHE_SHIFT → 0 ≤ PAGE_CACHE_SHIFT → 0 < PAGE_CACHE_SIZE.
Proof. intros -> H. by apply Z.pow_pos_nonneg. Qed.

(** X9: [nfs_writepage] makes no call to the server for a page that lies
    wholly behind the end of the file, and returns [-EIO]; the inode and
    the page are as they were. *)
Theorem writepage_beyond_eof fuel reply attrs wsize pg inode uptodate :
  PAGE_CACHE_SIZE = 2 ^ PAGE_CACHE_SHIFT → 0 ≤ PAGE_CACHE_SHIFT →
  0 ≤ i_size inode < 2 ^ 32 → i_size inode ≤ index pg * PAGE_CACHE_SIZE →
  nfs_writepage fuel reply attrs wsize pg inode uptodate
  = Some (SyncResult (- EIO) inode uptodate []).
Proof.
  intros Hsz Hsh Hi Hpg. pose proof (page_size_pos Hsz Hsh) as Hpos.
  unfold nfs_writepage. rewrite shiftr_page, land_page by done.
  set (isz := i_size inode) in *.
  assert (He : 0 ≤ isz / PAGE_CACHE_SIZE ≤ isz).
  { split; [apply Z.div_pos; lia|]. apply Z.div_le_upper_bound; nia. }
  assert (Hle : isz / PAGE_CACHE_SIZE ≤ index pg).
  { apply Z.div_le_upper_bound; [done|]. lia. }
  rewrite (u32_small (isz / PAGE_CACHE_SIZE)) by lia.
  destruct (Z.ltb_spec (index pg) (isz / PAGE_CACHE_SIZE)) as [|_]; [lia|].
  pose proof (Z.mod_pos_bound isz PAGE_CACHE_SIZE Hpos) as Hm.
  pose proof (Z.div_mod isz PAGE_CACHE_SIZE ltac:(lia)) as Hdm.
  destruct (decide (index pg = isz / PAGE_CACHE_SIZE)) as [E|E].
  - assert (isz mod PAGE_CACHE_SIZE = 0) as -> by nia.
    change (u32 0 =? 0) with true. by rewrite orb_true_r.
  - assert (Hu : u32 (isz / PAGE_CACHE_SIZE + 1) ≤ isz / PAGE_CACHE_SIZE + 1).
    { unfold u32. apply Z.mod_le; lia. }
    destruct (Z.leb_spec (u32 (isz / PAGE_CACHE_SIZE + 1)) (index pg)); [done|lia].
Qed.



(** ** Scanning a list *)

Lemma set_head_head a b r :
  set_wb_list_head a (set_wb_list_head b r) = set_wb_list_head a r.
Proof. by destruct r. Qed.

Lemma deref_move req dst s :
  live s req → hashed s req = true →
  deref (nfs_list_add_request req dst (nfs_list_remove_request req s)) req
  = set_wb_list_head (Some dst) (deref s req).
Proof.
  intros Hl Hh. pose proof (same_requests_remove req s) as Hs.
  unfold nfs_list_add_request. rewrite on_list_remove, (same_hashed _ _ Hs), Hh.
  cbn [negb]. cbv zeta. rewrite deref_upd_live by exact (live_list_remove req s Hl).
  change (deref (set_lists ?l ?t) req) with (deref t req).
  destruct Hs as [_ D]. specialize (D req).
  rewrite <- (set_head_head (Some dst) None (deref _ req)), D. apply set_head_head.
Qed.

Lemma deref_move_ne req dst s q :
  q ≠ req →
  deref (nfs_list_add_request req dst (nfs_list_remove_request req s)) q = deref s q.
Proof.
  intros Hne.
  rewrite (proj1 (touches_list_add req dst _) q Hne).
  apply (proj1 (touches_list_remove req s) q Hne).
Qed.

Lemma frame_list_remove req s :
  writeback (nfs_list_remove_request req s) = writeback s
  ∧ npages (nfs_list_remove_request req s) = npages s
  ∧ ndirty (nfs_list_remove_request req s) = ndirty s
  ∧ ncommit (nfs_list_remove_request req s) = ncommit s.
Proof. unfold nfs_list_remove_request. by destruct (negb _). Qed.

Lemma frame_list_add req h s :
  writeback (nfs_list_add_request req h s) = writeback s
  ∧ npages (nfs_list_add_request req h s) = npages s
  ∧ ndirty (nfs_list_add_request req h s) = ndirty s
  ∧ ncommit (nfs_list_add_request req h s) = ncommit s.
Proof.
  unfold nfs_list_add_request. destruct (on_list s req); [done|]. by destruct (negb _).
Qed.

Lemma frame_move req dst s :
  let s' := nfs_list_add_request req dst (nfs_list_remove_request req s) in
  writeback s' = writeback s ∧ npages s' = npages s
  ∧ ndirty s' = ndirty s ∧ ncommit s' = ncommit s.
Proof.
  intros s'. subst s'.
  destruct (frame_list_add req dst (nfs_list_remove_request req s)) as (-> & -> & -> & ->).
  apply frame_list_remove.
Qed.

Lemma scan_step_skip dst file i0 i1 pages s req :
  scan_selects file i0 i1 s req = false →
  scan_step dst file i0 i1 (pages, s) req = (pages, s).
Proof.
  unfold scan_selects, scan_step, nfs_lock_request. cbv zeta.
  destruct (file =? 0), (wb_file (deref s req) =? file); cbn [negb andb orb];
    try done;
    destruct (Z.ltb_spec (index (wb_page (deref s req))) i0),
             (Z.leb_spec i0 (index (wb_page (deref s req)))); try lia;
    cbn [negb andb orb]; try done;
    destruct (Z.ltb_spec i1 (index (wb_page (deref s req)))),
             (Z.leb_spec (index (wb_page (deref s req))) i1); try lia;
    cbn [negb andb orb]; try done;
    by destruct (NFS_WBACK_BUSY (deref s req) =? 0).
Qed.

Lemma scan_step_take dst file i0 i1 pages s req :
  scan_selects file i0 i1 s req = true →
  scan_step dst file i0 i1 (pages, s) req
  = (s32 (pages + 1),
     nfs_list_add_request req dst (nfs_list_remove_request req (upd req locked s))).
Proof.
  unfold scan_selects, scan_step, nfs_lock_request. cbv zeta.
  destruct (file =? 0), (wb_file (deref s req) =? file); cbn [negb andb orb];
    try done;
    destruct (Z.ltb_spec (index (wb_page (deref s req))) i0),
             (Z.leb_spec i0 (index (wb_page (deref s req)))); try lia;
    cbn [negb andb orb]; try done;
    destruct (Z.ltb_spec i1 (index (wb_page (deref s req)))),
             (Z.leb_spec (index (wb_page (deref s req))) i1); try lia;
    cbn [negb andb orb]; try done;
    by destruct (NFS_WBACK_BUSY (deref s req) =? 0).
Qed.

Lemma scan_selects_same file i0 i1 s s' q :
  deref s' q = deref s q → scan_selects file i0 i1 s' q = scan_selects file i0 i1 s q.
Proof. unfold scan_selects. by intros ->. Qed.

Lemma ascending_middle s (P L : list ptr) req :
  ascending s (P ++ req :: L) →
  (req ∉ P) ∧ (req ∉ L) ∧ ∀ x, x ∈ P → page_index s x < page_index s req.
Proof.
  intros H. assert (Hlt : ∀ x, x ∈ P → page_index s x < page_index s req).
  { intros x Hx.
    apply (StronglySorted_app_1_elem_of _ P (req :: L) x req H Hx), list_elem_of_here. }
  split_and!; [|by eapply ascending_head_notin, StronglySorted_app_1_r|done].
  intros Hin. specialize (Hlt _ Hin). lia.
Qed.

Lemma filter_out_middle (req : ptr) (A L : list ptr) :
  req ∉ A → req ∉ L → filter (λ q, q ≠ req) (A ++ req :: L) = A ++ L.
Proof.
  intros HA HL. rewrite filter_app, filter_cons_False by (intros H; by apply H).
  by rewrite !filter_ne_id.
Qed.

Lemma page_index_moved dst r : index (wb_page (moved dst r)) = index (wb_page r).
Proof. done. Qed.

Lemma lookup_move req dst s q :
  hashed s req = true →
  mem (nfs_list_add_request req dst (nfs_list_remove_request req s)) !! q
  = if decide (q = req) then set_wb_list_head (Some dst) <$> mem s !! q else mem s !! q.
Proof.
  intros Hh. pose proof (same_requests_remove req s) as Hs.
  unfold nfs_list_add_request. rewrite on_list_remove, (same_hashed _ _ Hs), Hh.
  cbn [negb]. cbv zeta. unfold upd. cbn [mem set_mem set_lists].
  unfold nfs_list_remove_request, upd. destruct (negb (on_list s req)); cbn [mem set_mem set_lists].
  - destruct (decide (q = req)) as [->|Hne]; [by rewrite lookup_alter_eq|].
    by rewrite lookup_alter_ne.
  - destruct (decide (q = req)) as [->|Hne].
    + rewrite !lookup_alter_eq. destruct (mem s !! req); [|done]. simpl.
      by rewrite set_head_head.
    + by rewrite !lookup_alter_ne.
Qed.

Lemma lookup_upd req f s q :
  mem (upd req f s) !! q = if decide (q = req) then f <$> mem s !! q else mem s !! q.
Proof.
  unfold upd. cbn [mem set_mem]. destruct (decide (q = req)) as [->|Hne].
  - by rewrite lookup_alter_eq.
  - by rewrite lookup_alter_ne.
Qed.

Lemma filter_snoc_True (P : ptr → Prop) `{!∀ x, Decision (P x)} (l : list ptr) x :
  P x → filter P (l ++ [x]) = filter P l ++ [x].
Proof. intros Hx. by rewrite filter_app, filter_cons_True, filter_nil. Qed.

Lemma filter_snoc_False (P : ptr → Prop) `{!∀ x, Decision (P x)} (l : list ptr) x :
  ¬ P x → filter P (l ++ [x]) = filter P l.
Proof. intros Hx. by rewrite filter_app, filter_cons_False, filter_nil, app_nil_r. Qed.

Lemma scan_fold src dst file i0 i1 s0 :
  src ≠ dst →
  ∀ L P pages s,
    ascending s0 (P ++ L) →
    Forall (λ q, hashed s0 q = true) L →
    Z.of_nat (length (P ++ L)) < 2 ^ 31 →
    chain s src = left_behind file i0 i1 s0 P ++ L →
    chain s dst = taken file i0 i1 s0 P →
    pages = Z.of_nat (length (taken file i0 i1 s0 P)) →
    (∀ q, mem s !! q
          = if decide (q ∈ P ∧ scan_selects file i0 i1 s0 q = true)
            then moved dst <$> mem s0 !! q else mem s0 !! q) →
    writeback s = writeback s0 ∧ npages s = npages s0
    ∧ ndirty s = ndirty s0 ∧ ncommit s = ncommit s0 →
    let r := foldl (scan_step dst file i0 i1) (pages, s) L in
    fst r = Z.of_nat (length (taken file i0 i1 s0 (P ++ L)))
    ∧ chain (snd r) src = left_behind file i0 i1 s0 (P ++ L)
    ∧ chain (snd r) dst = taken file i0 i1 s0 (P ++ L)
    ∧ (∀ q, mem (snd r) !! q
            = if decide (q ∈ P ++ L ∧ scan_selects file i0 i1 s0 q = true)
              then moved dst <$> mem s0 !! q else mem s0 !! q)
    ∧ writeback (snd r) = writeback s0 ∧ npages (snd r) = npages s0
    ∧ ndirty (snd r) = ndirty s0 ∧ ncommit (snd r) = ncommit s0.
Proof.
  intros Hne L. induction L as [|req L IH]; intros P pages s Hasc Hall Hlen Hsrc Hdst Hp HM Hfr.
  - intros r. subst r. cbn [foldl fst snd]. rewrite ?app_nil_r in *.
    destruct Hfr as (? & ? & ? & ?). by split_and!.
  - cbn [foldl].
    apply Forall_cons in Hall as [Hhash Hall].
    destruct (ascending_middle _ _ _ _ Hasc) as (HnP & HnL & Hlt).
    assert (Hreq : mem s !! req = mem s0 !! req).
    { rewrite HM. rewrite decide_False; [done|]. by intros [? _]. }
    assert (HD : ∀ q, index (wb_page (deref s q)) = index (wb_page (deref s0 q))).
    { intros q. unfold deref. rewrite HM. destruct (decide _); [|done].
      by destruct (mem s0 !! q). }
    assert (Hsel : scan_selects file i0 i1 s req = scan_selects file i0 i1 s0 req).
    { apply scan_selects_same. unfold deref. by rewrite Hreq. }
    replace (P ++ req :: L) with ((P ++ [req]) ++ L) in * by (by rewrite <- app_assoc).
    unfold taken, left_behind in *.
    destruct (scan_selects file i0 i1 s0 req) eqn:Esel.
    + rewrite scan_step_take by done.
      set (s1 := upd req locked s).
      assert (Hh1 : hashed s1 req = true).
      { change (hashed s1 req) with (hashed s req). unfold hashed in *.
        destruct Hfr as [-> _]. exact Hhash. }
      apply (IH (P ++ [req])); try done.
      * rewrite filter_snoc_False by (cbn beta; congruence).
        rewrite chain_move_src by done. change (chain s1 src) with (chain s src).
        rewrite Hsrc. apply filter_out_middle; [|done].
        intros Hin. apply HnP. by apply list_elem_of_filter in Hin as [_ ?].
      * rewrite filter_snoc_True by (cbn beta; congruence).
        rewrite chain_move_dst; [|done|].
        -- change (chain s1 dst) with (chain s dst). by rewrite Hdst.
        -- change (chain s1 dst) with (chain s dst). rewrite Hdst.
           intros x Hx. apply list_elem_of_filter in Hx as [_ Hx].
           unfold page_index.
           assert (Hi1 : ∀ q, index (wb_page (deref s1 q)) = index (wb_page (deref s q))).
           { intros q. unfold s1. rewrite deref_upd. destruct (decide (req = q)) as [->|]; [|done].
             unfold deref. by destruct (mem s !! q). }
           rewrite !Hi1, !HD. by apply Hlt.
      * rewrite filter_snoc_True by (cbn beta; congruence).
        rewrite Hp, length_app. simpl length.
        rewrite s32_small; [lia|].
        pose proof (length_filter (λ q, scan_selects file i0 i1 s0 q = true) P) as Hle.
        rewrite !length_app in Hlen. simpl length in Hlen. lia.
      * intros q. rewrite lookup_move by done.
        unfold s1. rewrite lookup_upd. destruct (decide (q = req)) as [->|Hq].
        -- rewrite Hreq. rewrite decide_True.
           2:{ split; [|done]. apply elem_of_app. right. apply list_elem_of_here. }
           by destruct (mem s0 !! req).
        -- rewrite HM. apply decide_ext. rewrite elem_of_app, list_elem_of_singleton.
           split; [intros [? ?]; by split; [left|]|].
           intros [[?|?] ?]; [done|by subst].
      * destruct (frame_move req dst s1) as (-> & -> & -> & ->). exact Hfr.
    + rewrite scan_step_skip by done.
      apply (IH (P ++ [req])); try done.
      * rewrite filter_snoc_True by (cbn beta; congruence).
        by rewrite Hsrc, <- app_assoc.
      * by rewrite filter_snoc_False by (cbn beta; congruence).
      * by rewrite filter_snoc_False by (cbn beta; congruence).
      * intros q. rewrite HM. apply decide_ext. rewrite elem_of_app, list_elem_of_singleton.
        split; [intros [? ?]; by split; [left|]|].
        intros [[?|?] ?]; [done|]. subst. congruence.
Qed.

Lemma filter_bool_length (f : ptr → bool) (l : list ptr) :
  (length (filter (λ q, f q = true) l) + length (filter (λ q, f q = false) l))%nat
  = length l.
Proof.
  induction l as [|x l IH]; [done|]. destruct (f x) eqn:E.
  - rewrite filter_cons_True, filter_cons_False by (cbn beta; congruence).
    simpl. lia.
  - rewrite filter_cons_False, filter_cons_True by (cbn beta; congruence).
    simpl. lia.
Qed.

Lemma scan_list_spec src dst file start count s :
  src ≠ dst → chain s dst = [] → ascending s (chain s src) →
  Forall (λ q, hashed s q = true) (chain s src) →
  Z.of_nat (length (chain s src)) < 2 ^ 31 →
  let r := nfs_scan_list src dst file start count s in
  fst r = Z.of_nat (length (taken file (idx_start_of start) (idx_end_of start count) s
                              (chain s src)))
  ∧ chain (snd r) src
    = left_behind file (idx_start_of start) (idx_end_of start count) s (chain s src)
  ∧ chain (snd r) dst
    = taken file (idx_start_of start) (idx_end_of start count) s (chain s src)
  ∧ (∀ q, mem (snd r) !! q
          = if decide (q ∈ chain s src
                       ∧ scan_selects file (idx_start_of start) (idx_end_of start count)
                                      s q = true)
            then moved dst <$> mem s !! q else mem s !! q)
  ∧ writeback (snd r) = writeback s ∧ npages (snd r) = npages s
  ∧ ndirty (snd r) = ndirty s ∧ ncommit (snd r) = ncommit s.
Proof.
  intros Hne Hdst Hasc Hall Hlen. unfold nfs_scan_list.
  by apply (scan_fold src dst file _ _ s Hne (chain s src) [] 0 s).
Qed.

(** X11: [nfs_scan_list] splits a list in ascending page order in two:
    the requests of the file in the index window that are not locked go
    to [dst], in their order, each one locked and with one more
    reference, and are counted; the others stay behind, in their order,
    and nothing else about any request changes. *)
Theorem scan_list_partition src dst file start count s :
  src ≠ dst → chain s dst = [] → ascending s (chain s src) →
  Forall (λ q, hashed s q = true) (chain s src) →
  Z.of_nat (length (chain s src)) < 2 ^ 31 →
  fst (nfs_scan_list src dst file start count s)
  = Z.of_nat (length (chain (snd (nfs_scan_list src dst file start count s)) dst))
  ∧ chain (snd (nfs_scan_list src dst file start count s)) dst
    = taken file (idx_start_of start) (idx_end_of start count) s (chain s src)
  ∧ chain (snd (nfs_scan_list src dst file start count s)) src
    = left_behind file (idx_start_of start) (idx_end_of start count) s (chain s src)
  ∧ (∀ q, mem (snd (nfs_scan_list src dst file start count s)) !! q
          = if decide (q ∈ chain s src
                       ∧ scan_selects file (idx_start_of start) (idx_end_of start count)
                                      s q = true)
            then moved dst <$> mem s !! q else mem s !! q)
  ∧ writeback (snd (nfs_scan_list src dst file start count s)) = writeback s.
Proof.
  intros Hne Hdst Hasc Hall Hlen.
  destruct (scan_list_spec src dst file start count s Hne Hdst Hasc Hall Hlen)
    as (H1 & H2 & H3 & H4 & H5 & _).
  split_and!; try done. by rewrite H3.
Qed.

(** *** Lists in ascending page order *)

Lemma ascending_filter s (P : ptr → Prop) `{!∀ x, Decision (P x)} l :
  ascending s l → ascending s (filter P l).
Proof.
  unfold ascending. induction 1 as [|x l Hl IH HF]; [constructor|].
  destruct (decide (P x)).
  - rewrite filter_cons_True by done. constructor; [done|].
    apply Forall_forall. intros y Hy. apply list_elem_of_filter in Hy as [_ Hy].
    rewrite Forall_forall in HF. by apply HF.
  - by rewrite filter_cons_False.
Qed.

Lemma ascending_distinct s l : ascending s l → NoDup (page_index s <$> l).
Proof.
  unfold ascending. induction 1 as [|x l Hl IH HF]; [constructor|].
  rewrite fmap_cons. constructor; [|done].
  intros (y & Hxy & Hy)%list_elem_of_fmap. rewrite Forall_forall in HF.
  specialize (HF y Hy). simpl in HF. lia.
Qed.

Lemma ascending_unique s l1 l2 :
  ascending s l1 → ascending s l2 → l1 ≡ₚ l2 → l1 = l2.
Proof.
  intros H1 H2 Hp. eapply StronglySorted_unique_strong; [|exact H1|exact H2|exact Hp].
  intros x1 x2 _ _ Ha Hb. simpl in *. lia.
Qed.

Lemma taken_left_behind file i0 i1 s l :
  taken file i0 i1 s l ++ left_behind file i0 i1 s l ≡ₚ l.
Proof.
  unfold taken, left_behind. induction l as [|x l IH]; [done|].
  destruct (scan_selects file i0 i1 s x) eqn:E.
  - rewrite filter_cons_True, filter_cons_False by (cbn beta; congruence).
    cbn [app]. by rewrite IH.
  - rewrite filter_cons_False, filter_cons_True by (cbn beta; congruence).
    rewrite <- Permutation_middle. by rewrite IH.
Qed.

(** X12: [nfs_scan_dirty] keeps [ndirty] equal to the length of the dirty
    list: it takes off the count what the scan has moved away; what it
    returns is the number of requests on [dst]; and the requests on
    [dst] and on the dirty list are together the requests that were on
    the dirty list, each of them once. *)
Theorem scan_dirty_counted dst file start count s :
  dst ≠ I_DIRTY → chain s dst = [] → ascending s (chain s I_DIRTY) →
  Forall (λ q, hashed s q = true) (chain s I_DIRTY) →
  Z.of_nat (length (chain s I_DIRTY)) < 2 ^ 31 →
  dirty_counted s →
  dirty_counted (snd (nfs_scan_dirty dst file start count s))
  ∧ fst (nfs_scan_dirty dst file start count s)
    = Z.of_nat (length (chain (snd (nfs_scan_dirty dst file start count s)) dst))
  ∧ chain (snd (nfs_scan_dirty dst file start count s)) dst
    ++ chain (snd (nfs_scan_dirty dst file start count s)) I_DIRTY
    ≡ₚ chain s I_DIRTY
  ∧ NoDup (chain (snd (nfs_scan_dirty dst file start count s)) dst
           ++ chain (snd (nfs_scan_dirty dst file start count s)) I_DIRTY).
Proof.
  intros Hne Hdst Hasc Hall Hlen Hcnt.
  assert (Hne' : I_DIRTY ≠ dst) by done.
  pose proof (scan_list_spec I_DIRTY dst file start count s Hne' Hdst Hasc Hall Hlen)
    as (H1 & H2 & H3 & _ & _ & _ & H4 & _).
  unfold nfs_scan_dirty. destruct (nfs_scan_list I_DIRTY dst file start count s) as [pages s1].
  cbn [fst snd] in *.
  change (chain (set_ndirty ?v s1)) with (chain s1).
  pose proof (filter_bool_length
                (scan_selects file (idx_start_of start) (idx_end_of start count) s)
                (chain s I_DIRTY)) as Hsum.
  assert (Hperm : chain s1 dst ++ chain s1 I_DIRTY ≡ₚ chain s I_DIRTY).
  { rewrite H2, H3. apply taken_left_behind. }
  assert (Hnd : NoDup (chain s I_DIRTY)).
  { eapply NoDup_fmap_1. by apply (ascending_distinct s). }
  unfold taken, left_behind in *. split_and!; [|by rewrite H3|done|by rewrite Hperm].
  unfold dirty_counted in *. cbn [ndirty set_ndirty].
  change (chain (set_ndirty ?v s1) I_DIRTY) with (chain s1 I_DIRTY).
  rewrite H2, H4, Hcnt, H1. rewrite u32_small; lia.
Qed.

Lemma length_list_add_prev s req rl : length (list_add_prev s req rl) = S (length rl).
Proof.
  induction rl as [|p rl IH]; [done|]. cbn [list_add_prev].
  destruct (_ <? _); [done|]. simpl. by rewrite IH.
Qed.

Lemma on_list_add req h s :
  hashed s req = true → on_list (nfs_list_add_request req h s) req = true.
Proof.
  intros Hh. destruct (on_list s req) eqn:Hon.
  - unfold nfs_list_add_request. by rewrite Hon.
  - apply on_list_spec. exists h. rewrite chain_add, Hon, Hh. cbn [negb orb].
    rewrite decide_True by done. rewrite elem_of_reverse, elem_of_list_add_prev. by left.
Qed.

(** X13: [nfs_mark_request_dirty] keeps [ndirty] equal to the length of
    the dirty list when the request is hashed; a request that was on no
    list is on the dirty list afterwards, and a second call changes
    nothing. *)
Theorem mark_dirty_counted req s :
  hashed s req = true → dirty_counted s →
  Z.of_nat (length (chain s I_DIRTY)) < 2 ^ 32 - 1 →
  dirty_counted (nfs_mark_request_dirty req s)
  ∧ (on_list s req = false → req ∈ chain (nfs_mark_request_dirty req s) I_DIRTY)
  ∧ nfs_mark_request_dirty req (nfs_mark_request_dirty req s)
    = nfs_mark_request_dirty req s.
Proof.
  intros Hh Hcnt Hlen. destruct (on_list s req) eqn:Hon.
  - assert (E : nfs_mark_request_dirty req s = s).
    { unfold nfs_mark_request_dirty. by rewrite Hon. }
    rewrite !E. by split_and!.
  - set (s1 := nfs_list_add_request req I_DIRTY s).
    assert (E : nfs_mark_request_dirty req s = set_ndirty (u32 (ndirty s1 + 1)) s1).
    { unfold nfs_mark_request_dirty. by rewrite Hon. }
    rewrite !E.
    assert (Hc1 : chain s1 I_DIRTY
                  = reverse (list_add_prev s req (reverse (chain s I_DIRTY)))).
    { unfold s1. rewrite chain_add, Hon, Hh. cbn [negb orb]. by rewrite decide_True. }
    split_and!.
    + unfold dirty_counted in *. cbn [ndirty set_ndirty].
      change (chain (set_ndirty ?v s1)) with (chain s1).
      rewrite Hc1, length_reverse, length_list_add_prev, length_reverse.
      destruct (frame_list_add req I_DIRTY s) as (_ & _ & E' & _). fold s1 in E'.
      rewrite E', Hcnt. rewrite u32_small; lia.
    + intros _. change (chain (set_ndirty ?v s1)) with (chain s1).
      rewrite Hc1, elem_of_reverse, elem_of_list_add_prev. by left.
    + unfold nfs_mark_request_dirty.
      change (on_list (set_ndirty ?v s1) req) with (on_list s1 req).
      unfold s1. by rewrite on_list_add.
Qed.

(** ** Loops over a list of locked requests *)

(** *** What a step on one request leaves of the others *)

Lemma agree_on_refl req s : agree_on req s s.
Proof. by split_and!. Qed.

Lemma agree_on_trans req s1 s2 s3 :
  agree_on req s1 s2 → agree_on req s2 s3 → agree_on req s1 s3.
Proof.
  intros (M1 & W1 & C1) (M2 & W2 & C2). split_and!.
  - by rewrite M2.
  - by rewrite W2.
  - intros h. by rewrite C2.
Qed.

Lemma agree_on_deref req s s' : agree_on req s s' → deref s' req = deref s req.
Proof. intros (M & _ & _). unfold deref. by rewrite M. Qed.

Lemma others_upd q f s x : x ≠ q → mem (upd q f s) !! x = mem s !! x.
Proof. intros Hne. rewrite lookup_upd. by rewrite decide_False. Qed.

Lemma others_list_remove q s x :
  x ≠ q → mem (nfs_list_remove_request q s) !! x = mem s !! x.
Proof.
  intros Hne. unfold nfs_list_remove_request. destruct (negb _); [done|].
  by apply (others_upd q _ (set_lists _ s)).
Qed.

Lemma others_list_add q h s x :
  x ≠ q → mem (nfs_list_add_request q h s) !! x = mem s !! x.
Proof.
  intros Hne. unfold nfs_list_add_request. destruct (on_list s q); [done|].
  destruct (negb _); [done|]. by apply (others_upd q _ (set_lists _ s)).
Qed.

Lemma others_mark_dirty q s x :
  x ≠ q → mem (nfs_mark_request_dirty q s) !! x = mem s !! x.
Proof.
  intros Hne. unfold nfs_mark_request_dirty. destruct (negb _); [|done].
  by apply others_list_add.
Qed.

Lemma others_mark_commit q s x :
  x ≠ q → mem (nfs_mark_request_commit q s) !! x = mem s !! x.
Proof.
  intros Hne. unfold nfs_mark_request_commit. destruct (negb _); [|done].
  by apply others_list_add.
Qed.

Lemma others_release_aux fuel q s x :
  x ≠ q → mem (nfs_release_request_aux fuel q s) !! x = mem s !! x.
Proof.
  intros Hne. revert s. induction fuel as [|fuel IH]; intros s; [done|].
  rewrite release_step. destruct (negb _); [by apply others_upd|]. cbv zeta.
  set (s1 := upd q _ s).
  set (s2 := if on_list s1 q then nfs_list_remove_request q s1 else s1).
  assert (H2 : mem s2 !! x = mem s !! x).
  { subst s2. destruct (on_list s1 q).
    - rewrite others_list_remove by done. by apply others_upd.
    - by apply others_upd. }
  cbn [mem set_nfs_nr_requests set_mem]. rewrite lookup_delete_ne by done.
  destruct (hashed s2 q); [|done].
  unfold nfs_inode_remove_request_with. destruct (negb _); [done|]. by rewrite IH.
Qed.

Lemma others_inode_remove q s x :
  x ≠ q → mem (nfs_inode_remove_request q s) !! x = mem s !! x.
Proof.
  intros Hne. unfold nfs_inode_remove_request, nfs_inode_remove_request_with.
  destruct (negb _); [done|]. unfold nfs_release_request.
  by rewrite others_release_aux.
Qed.

Lemma others_unlock q s x :
  x ≠ q → mem (nfs_unlock_request q s) !! x = mem s !! x.
Proof.
  intros Hne. unfold nfs_unlock_request. destruct (_ =? 0); [done|].
  unfold nfs_release_request. rewrite others_release_aux by done.
  by apply others_upd.
Qed.

Lemma touches_agree q s s' x :
  touches_only q s s' → (∀ y, y ≠ q → mem s' !! y = mem s !! y) → x ≠ q →
  agree_on x s s'.
Proof.
  intros (_ & W & C) M Hne. split_and!; [by apply M|by apply W|].
  intros h. by apply C.
Qed.

Lemma touches_mark_commit req s : touches_only req s (nfs_mark_request_commit req s).
Proof.
  unfold nfs_mark_request_commit. destruct (negb _); [|apply touches_only_refl].
  eapply touches_only_trans; [apply touches_list_add|]. by apply touches_only_same.
Qed.

(** *** The loop, request by request *)

Lemma drain_each (body : ptr → state → state) (h : lhead)
    (Inv : state → Prop) (Pre Post : state → ptr → Prop) fuel s :
  (∀ q s x, x ≠ q → agree_on x s (body q s)) →
  (∀ q s, chain (body q s) h = filter (λ x, x ≠ q) (chain s h)) →
  (∀ q s, Inv s → Inv (body q s)) →
  (∀ q s, q ∈ chain s h → Pre s q → Post (body q s) q) →
  (∀ x s s', agree_on x s s' → Pre s x → Pre s' x) →
  (∀ x s s', agree_on x s s' → Post s x → Post s' x) →
  Inv s → (∀ q, q ∈ chain s h → Pre s q) →
  (length (chain s h) < fuel)%nat →
  ∃ s', drain fuel body h s = Some s' ∧ chain s' h = [] ∧ Inv s'
    ∧ ∀ q, q ∈ chain s h → Post s' q.
Proof.
  intros Hfr Hch Hinv Hstep HPre HPost HI HP Hfuel.
  set (P := λ s1 : state,
              Inv s1 ∧ ∀ q, q ∈ chain s h →
                (q ∈ chain s1 h ∧ Pre s1 q) ∨ ((q ∉ chain s1 h) ∧ Post s1 q)).
  destruct (drain_inv P body h) with (fuel := fuel) (s := s)
    as (s' & Hrun & [HI' HP'] & Hnil); try done.
  - intros s1 q rest [HI1 HP1] Hq.
    assert (Hqin : q ∈ chain s1 h) by (rewrite Hq; apply list_elem_of_here).
    split; [|rewrite Hch; by apply (filter_head_length q rest)].
    split; [by apply Hinv|]. intros x Hx.
    destruct (decide (x = q)) as [->|Hne].
    + right. split; [rewrite Hch, list_elem_of_filter; tauto|].
      destruct (HP1 q Hx) as [[_ Hpre]|[Hn _]]; [|done]. by apply Hstep.
    + pose proof (Hfr q s1 x Hne) as Hag.
      destruct (HP1 x Hx) as [[Hin Hpre]|[Hn Hpost]].
      * left. split; [by apply Hag|]. by eapply HPre.
      * right. split; [|by eapply HPost]. intros Hin. apply Hn. by apply Hag.
  - split; [done|]. intros q Hq. left. split; [done|]. by apply HP.
  - exists s'. split_and!; try done. intros q Hq.
    destruct (HP' q Hq) as [[Hin _]|[_ Hpost]]; [|done].
    rewrite Hnil in Hin. by apply elem_of_nil in Hin.
Qed.

(** *** The primitives, seen from another request *)

Lemma agree_same x s s' :
  mem s' = mem s → lists s' = lists s → writeback s' = writeback s → agree_on x s s'.
Proof. intros M L W. unfold agree_on, chain. by rewrite M, L, W. Qed.

Lemma agree_upd q f s x : x ≠ q → agree_on x s (upd q f s).
Proof. intros Hne. split_and!; [by apply others_upd|done|done]. Qed.

Lemma agree_list_remove q s x : x ≠ q → agree_on x s (nfs_list_remove_request q s).
Proof.
  intros Hne. eapply touches_agree; [apply touches_list_remove| |done].
  intros y Hy. by apply others_list_remove.
Qed.

Lemma agree_mark_dirty q s x : x ≠ q → agree_on x s (nfs_mark_request_dirty q s).
Proof.
  intros Hne. eapply touches_agree; [apply touches_mark_dirty| |done].
  intros y Hy. by apply others_mark_dirty.
Qed.

Lemma agree_mark_commit q s x : x ≠ q → agree_on x s (nfs_mark_request_commit q s).
Proof.
  intros Hne. eapply touches_agree; [apply touches_mark_commit| |done].
  intros y Hy. by apply others_mark_commit.
Qed.

Lemma agree_inode_remove q s x : x ≠ q → agree_on x s (nfs_inode_remove_request q s).
Proof.
  intros Hne. eapply touches_agree; [apply touches_inode_remove| |done].
  intros y Hy. by apply others_inode_remove.
Qed.

Lemma agree_unlock q s x : x ≠ q → agree_on x s (nfs_unlock_request q s).
Proof.
  intros Hne. eapply touches_agree; [apply touches_unlock| |done].
  intros y Hy. by apply others_unlock.
Qed.

Lemma agree_redirty q s x : x ≠ q → agree_on x s (redirty_req q s).
Proof.
  intros Hne. unfold redirty_req.
  eapply agree_on_trans; [|by apply agree_unlock].
  eapply agree_on_trans; [|by apply agree_mark_dirty].
  by apply agree_list_remove.
Qed.

Lemma agree_recommit q s x : x ≠ q → agree_on x s (recommit_req q s).
Proof.
  intros Hne. unfold recommit_req.
  eapply agree_on_trans; [|by apply agree_unlock].
  eapply agree_on_trans; [|by apply agree_mark_commit].
  by apply agree_list_remove.
Qed.

Lemma agree_writeback_done_req jiffies data status q s x :
  x ≠ q → agree_on x s (writeback_done_req jiffies data status q s).
Proof.
  intros Hne. unfold writeback_done_req.
  eapply agree_on_trans; [|by apply agree_unlock].
  eapply agree_on_trans; [by apply agree_list_remove|].
  destruct (status <? 0).
  - eapply agree_on_trans; [|by apply agree_inode_remove]. by apply agree_same.
  - destruct CONFIG_NFS_V3; [|by apply agree_inode_remove].
    destruct (negb _); [by apply agree_inode_remove|].
    eapply agree_on_trans; [|by apply agree_mark_commit]. by apply agree_upd.
Qed.

(** *** The request itself *)

Lemma chain_filter_twice (q : ptr) (l l' : list ptr) :
  l' = filter (λ x, x ≠ q) l ∨ l' = filter (λ x, x ≠ q) (filter (λ x, x ≠ q) l) →
  l' = filter (λ x, x ≠ q) l.
Proof.
  intros [->| ->]; [done|]. apply filter_ne_id. rewrite list_elem_of_filter. tauto.
Qed.

Lemma chain_redirty q s h :
  h ≠ I_DIRTY → chain (redirty_req q s) h = filter (λ x, x ≠ q) (chain s h).
Proof.
  intros Hh. unfold redirty_req. apply chain_filter_twice.
  destruct (chain_unlock q (nfs_mark_request_dirty q (nfs_list_remove_request q s)) h)
    as [-> | ->]; rewrite chain_mark_dirty, chain_remove by done; [by left|by right].
Qed.

Lemma chain_recommit q s h :
  h ≠ I_COMMIT → chain (recommit_req q s) h = filter (λ x, x ≠ q) (chain s h).
Proof.
  intros Hh. unfold recommit_req. apply chain_filter_twice.
  destruct (chain_unlock q (nfs_mark_request_commit q (nfs_list_remove_request q s)) h)
    as [-> | ->]; rewrite chain_mark_commit, chain_remove by done; [by left|by right].
Qed.

Lemma lookup_list_add req h s :
  on_list s req = false → hashed s req = true →
  mem (nfs_list_add_request req h s) !! req = set_wb_list_head (Some h) <$> mem s !! req.
Proof.
  intros Hon Hh. unfold nfs_list_add_request. rewrite Hon, Hh. cbn [negb]. cbv zeta.
  rewrite lookup_upd, decide_True by done. done.
Qed.

Lemma lookup_list_remove req s r :
  mem s !! req = Some r →
  ∃ r', mem (nfs_list_remove_request req s) !! req = Some r'
        ∧ set_wb_list_head None r' = set_wb_list_head None r.
Proof.
  intros Hr. unfold nfs_list_remove_request. destruct (negb _).
  - by exists r.
  - exists (set_wb_list_head None r). split; [|by rewrite set_head_head].
    rewrite lookup_upd, decide_True by done. cbn [mem set_lists]. by rewrite Hr.
Qed.

(** Unlocking a locked request that someone else holds as well. *)
Lemma unlock_held req s r :
  mem s !! req = Some r → NFS_WBACK_BUSY r ≠ 0 → 2 ≤ wb_count r < 2 ^ 32 →
  mem (nfs_unlock_request req s) = <[req := unlocked r]> (mem s)
  ∧ lists (nfs_unlock_request req s) = lists s
  ∧ writeback (nfs_unlock_request req s) = writeback s
  ∧ f_error (nfs_unlock_request req s) = f_error s
  ∧ ndirty (nfs_unlock_request req s) = ndirty s
  ∧ ncommit (nfs_unlock_request req s) = ncommit s.
Proof. intros Hr Hb Hc. by rewrite (unlock_known req s r Hr Hb Hc). Qed.

(** A locked, hashed request is taken off its list, put on the list [H]
    by [mark], and unlocked. *)
Lemma requeue_spec (mark : ptr → state → state) (H : lhead) (g : nfs_page → nfs_page)
    req s0 s :
  (∀ t, mem (mark req t) = mem (nfs_list_add_request req H t)
        ∧ lists (mark req t) = lists (nfs_list_add_request req H t)
        ∧ writeback (mark req t) = writeback t) →
  (∀ r, set_wb_list_head None (g r) = g (set_wb_list_head None r)) →
  (∀ r, wb_flags (g r) = wb_flags r ∧ wb_count (g r) = wb_count r) →
  in_flight s req → deref s req = deref s0 req →
  let s' := nfs_unlock_request req (mark req (upd req g (nfs_list_remove_request req s))) in
  req ∈ chain s' H ∧ req ∈ writeback s'
  ∧ deref s' req = set_wb_list_head (Some H) (unlocked (g (deref s0 req))).
Proof.
  intros Hmark Hg1 Hg2 (Hw & Hb & Hc) Hd. cbv zeta.
  destruct (count_live s req) as [r Hr]; [lia|].
  rewrite (deref_known _ _ _ Hr) in Hb, Hc, Hd. rewrite <- Hd.
  set (s1 := nfs_list_remove_request req s).
  destruct (lookup_list_remove req s r Hr) as (r1 & Hr1 & E1). fold s1 in Hr1.
  set (s1' := upd req g s1).
  assert (Hr1' : mem s1' !! req = Some (g r1)).
  { unfold s1'. rewrite lookup_upd, decide_True by done. by rewrite Hr1. }
  assert (Hon : on_list s1' req = false) by apply on_list_remove.
  assert (Hh : hashed s1' req = true).
  { change (hashed s1' req) with (hashed s1 req).
    rewrite (same_hashed _ _ (same_requests_remove req s)).
    unfold hashed. by apply bool_decide_eq_true. }
  destruct (Hmark s1') as (Hm2 & Hl2 & Hw2). set (s2 := mark req s1') in *.
  assert (Hr2 : mem s2 !! req = Some (set_wb_list_head (Some H) (g r1))).
  { rewrite Hm2, lookup_list_add by done. by rewrite Hr1'. }
  assert (Hgr : set_wb_list_head (Some H) (g r1) = set_wb_list_head (Some H) (g r)).
  { rewrite <- (set_head_head (Some H) None (g r1)), Hg1, E1, <- Hg1.
    apply set_head_head. }
  rewrite Hgr in Hr2.
  destruct (Hg2 r) as [Hf Hcnt].
  destruct (unlock_held req s2 _ Hr2) as (Hm3 & Hl3 & Hw3 & _).
  { unfold NFS_WBACK_BUSY in *. simpl. by rewrite Hf. }
  { simpl. by rewrite Hcnt. }
  split_and!.
  - unfold chain. rewrite Hl3, Hl2.
    change (req ∈ chain (nfs_list_add_request req H s1') H).
    rewrite chain_add, Hon, Hh. cbn [negb orb]. rewrite decide_True by done.
    rewrite elem_of_reverse, elem_of_list_add_prev. by left.
  - rewrite Hw3, Hw2. change (writeback s1') with (writeback s1). unfold s1.
    by destruct (same_requests_remove req s) as [-> _].
  - unfold deref. rewrite Hm3, lookup_insert_eq. simpl. by destruct (g r).
Qed.

Lemma mark_dirty_as_add req t :
  mem (nfs_mark_request_dirty req t) = mem (nfs_list_add_request req I_DIRTY t)
  ∧ lists (nfs_mark_request_dirty req t) = lists (nfs_list_add_request req I_DIRTY t)
  ∧ writeback (nfs_mark_request_dirty req t) = writeback t.
Proof.
  unfold nfs_mark_request_dirty. destruct (on_list t req) eqn:Hon; cbn [negb].
  - unfold nfs_list_add_request. by rewrite Hon.
  - cbv zeta. split_and!; [done|done|]. apply frame_list_add.
Qed.

Lemma mark_commit_as_add req t :
  mem (nfs_mark_request_commit req t) = mem (nfs_list_add_request req I_COMMIT t)
  ∧ lists (nfs_mark_request_commit req t) = lists (nfs_list_add_request req I_COMMIT t)
  ∧ writeback (nfs_mark_request_commit req t) = writeback t.
Proof.
  unfold nfs_mark_request_commit. destruct (on_list t req) eqn:Hon; cbn [negb].
  - unfold nfs_list_add_request. by rewrite Hon.
  - cbv zeta. split_and!; [done|done|]. apply frame_list_add.
Qed.

Lemma upd_id req s : upd req (λ r, r) s = s.
Proof.
  destruct s. unfold upd, set_mem. simpl. f_equal. apply map_eq. intros i.
  destruct (decide (i = req)) as [->|Hne].
  - rewrite lookup_alter_eq. by destruct (_ !! req).
  - by rewrite lookup_alter_ne.
Qed.

Lemma in_flight_agree x s s' : agree_on x s s' → in_flight s x → in_flight s' x.
Proof.
  intros Hag (Hw & Hb & Hc). unfold in_flight.
  rewrite (agree_on_deref _ _ _ Hag). split; [by apply Hag|done].
Qed.

(** The loop that gives a list of locked requests to the list [H]. *)
Lemma drain_requeue (mark : ptr → state → state) (H : lhead) (g : nfs_page → nfs_page)
    (body : ptr → state → state) (h : lhead) fuel s :
  (∀ req t, body req t
            = nfs_unlock_request req (mark req (upd req g (nfs_list_remove_request req t)))) →
  (∀ req t, mem (mark req t) = mem (nfs_list_add_request req H t)
            ∧ lists (mark req t) = lists (nfs_list_add_request req H t)
            ∧ writeback (mark req t) = writeback t) →
  (∀ r, set_wb_list_head None (g r) = g (set_wb_list_head None r)) →
  (∀ r, wb_flags (g r) = wb_flags r ∧ wb_count (g r) = wb_count r) →
  (∀ q t x, x ≠ q → agree_on x t (body q t)) →
  (∀ q t, chain (body q t) h = filter (λ x, x ≠ q) (chain t h)) →
  Forall (in_flight s) (chain s h) →
  (length (chain s h) < fuel)%nat →
  ∃ s', drain fuel body h s = Some s' ∧ chain s' h = []
    ∧ ∀ req, req ∈ chain s h →
        req ∈ chain s' H ∧ req ∈ writeback s'
        ∧ deref s' req = set_wb_list_head (Some H) (unlocked (g (deref s req))).
Proof.
  intros Hbody Hmark Hg1 Hg2 Hag Hch Hall Hfuel. rewrite Forall_forall in Hall.
  destruct (drain_each body h (λ _, True)
              (λ t q, in_flight t q ∧ deref t q = deref s q)
              (λ t q, q ∈ chain t H ∧ q ∈ writeback t
                      ∧ deref t q = set_wb_list_head (Some H) (unlocked (g (deref s q))))
              fuel s) as (s' & Hrun & Hnil & _ & Hpost); try done.
  - intros q t Hq [Hin Hd]. rewrite Hbody.
    by apply (requeue_spec mark H g q s t).
  - intros x t t' Ha [Hin Hd]. split; [by eapply in_flight_agree|].
    by rewrite (agree_on_deref _ _ _ Ha).
  - intros x t t' Ha (Hc & Hw & Hd). split_and!; [by apply Ha|by apply Ha|].
    by rewrite (agree_on_deref _ _ _ Ha).
  - intros q Hq. split; [by apply Hall|done].
  - by exists s'.
Qed.

Lemma busy_unlocked r : NFS_WBACK_BUSY (unlocked r) = 0.
Proof. unfold NFS_WBACK_BUSY, unlocked. simpl. apply busy_cleared. Qed.

Lemma dirty_request_spec s req :
  req ∈ chain s I_DIRTY → wb_list_head (deref s req) = Some I_DIRTY →
  nfs_dirty_request s req = true.
Proof.
  intros Hin Hh. unfold nfs_dirty_request. rewrite Hh, bool_decide_eq_true_2 by done.
  rewrite andb_true_r. apply on_list_spec. by exists I_DIRTY.
Qed.

(** X14: when [nfs_flush_one] gets no memory for the call, it returns
    [-ENOMEM] and every request of the list is back on the dirty list,
    unlocked and still hashed, with its page, byte range, file and
    verifier as they were; the list is empty. *)
Theorem flush_one_no_memory fuel rpc_execute head stable s :
  head ≠ I_DIRTY → Forall (in_flight s) (chain s head) →
  (length (chain s head) < fuel)%nat →
  ∃ s', nfs_flush_one fuel None rpc_execute head stable s = Some (- ENOMEM, s')
    ∧ chain s' head = []
    ∧ ∀ req, req ∈ chain s head →
        nfs_dirty_request s' req = true ∧ req ∈ writeback s'
        ∧ NFS_WBACK_BUSY (deref s' req) = 0
        ∧ deref s' req = set_wb_list_head (Some I_DIRTY) (unlocked (deref s req)).
Proof.
  intros Hne Hall Hfuel.
  destruct (drain_requeue nfs_mark_request_dirty I_DIRTY (λ r, r) redirty_req head fuel s)
    as (s' & Hrun & Hnil & Hpost); try done.
  - intros req t. by rewrite upd_id.
  - apply mark_dirty_as_add.
  - apply agree_redirty.
  - intros q t. by apply chain_redirty.
  - exists s'. unfold nfs_flush_one. rewrite Hrun. split_and!; try done.
    intros req Hreq. destruct (Hpost req Hreq) as (Hc & Hw & Hd).
    split_and!; try done.
    + apply dirty_request_spec; [done|]. by rewrite Hd.
    + rewrite Hd. apply busy_unlocked.
Qed.

(** X15: when [nfs_commit_list] gets no memory for the call, it returns
    [-ENOMEM] and every request of the list is back on the commit list,
    unlocked and still hashed, with its page, byte range, file and
    verifier as they were; the list is empty. *)
Theorem commit_list_no_memory fuel rpc_execute head i_size s :
  head ≠ I_COMMIT → Forall (in_flight s) (chain s head) →
  (length (chain s head) < fuel)%nat →
  ∃ s', nfs_commit_list fuel None rpc_execute head i_size s = Some (- ENOMEM, s')
    ∧ chain s' head = []
    ∧ ∀ req, req ∈ chain s head →
        req ∈ chain s' I_COMMIT ∧ req ∈ writeback s'
        ∧ NFS_WBACK_BUSY (deref s' req) = 0
        ∧ deref s' req = set_wb_list_head (Some I_COMMIT) (unlocked (deref s req)).
Proof.
  intros Hne Hall Hfuel.
  destruct (drain_requeue nfs_mark_request_commit I_COMMIT (λ r, r) recommit_req head fuel s)
    as (s' & Hrun & Hnil & Hpost); try done.
  - intros req t. by rewrite upd_id.
  - apply mark_commit_as_add.
  - apply agree_recommit.
  - intros q t. by apply chain_recommit.
  - exists s'. unfold nfs_commit_list. rewrite Hrun. split_and!; try done.
    intros req Hreq. destruct (Hpost req Hreq) as (Hc & Hw & Hd).
    split_and!; try done. rewrite Hd. apply busy_unlocked.
Qed.

(** ** A WRITE call that did not fail *)

Lemma writeback_status_ok data tk_status :
  args_count data ≤ res_count data → writeback_status data tk_status = tk_status.
Proof.
  intros H. unfold writeback_status.
  destruct (Z.ltb_spec (res_count data) (args_count data)); [lia|done].
Qed.

Lemma writeback_done_req_unstable jiffies data status req t :
  CONFIG_NFS_V3 = true → 0 ≤ status → committed (wd_verf data) = NFS_UNSTABLE →
  writeback_done_req jiffies data status req t
  = nfs_unlock_request req
      (nfs_mark_request_commit req
         (upd req (λ r, set_wb_timeout (u32 (jiffies + NFS_COMMIT_DELAY))
                          (set_wb_verf (wd_verf data) r))
              (nfs_list_remove_request req t))).
Proof.
  intros HV Hst Hc. unfold writeback_done_req. rewrite HV, Hc, Z.eqb_refl.
  by destruct (Z.ltb_spec status 0); [lia|].
Qed.

Lemma writeback_done_req_stable jiffies data status req t :
  CONFIG_NFS_V3 = false ∨ committed (wd_verf data) ≠ NFS_UNSTABLE → 0 ≤ status →
  writeback_done_req jiffies data status req t
  = nfs_unlock_request req
      (nfs_inode_remove_request req (nfs_list_remove_request req t)).
Proof.
  intros HV Hst. unfold writeback_done_req.
  destruct (Z.ltb_spec status 0); [lia|].
  destruct HV as [-> | Hc]; [done|]. destruct CONFIG_NFS_V3; [|done].
  by destruct (Z.eqb_spec (committed (wd_verf data)) NFS_UNSTABLE).
Qed.

(** X16: a WRITE call that the server answered in full, but with
    unstable storage (NFSv3), leaves every request of the call on the
    commit list, hashed and unlocked, with the verifier of the reply and
    the commit deadline [jiffies + NFS_COMMIT_DELAY]. *)
Theorem writeback_done_unstable fuel jiffies data tk_status s :
  CONFIG_NFS_V3 = true → 0 ≤ tk_status → args_count data ≤ res_count data →
  committed (wd_verf data) = NFS_UNSTABLE →
  wd_pages data ≠ I_DIRTY → wd_pages data ≠ I_COMMIT →
  Forall (in_flight s) (chain s (wd_pages data)) →
  (length (chain s (wd_pages data)) < fuel)%nat →
  ∃ s', nfs_writeback_done fuel jiffies data tk_status s = Some s'
    ∧ chain s' (wd_pages data) = []
    ∧ ∀ req, req ∈ chain s (wd_pages data) →
        req ∈ chain s' I_COMMIT ∧ req ∈ writeback s'
        ∧ NFS_WBACK_BUSY (deref s' req) = 0
        ∧ deref s' req
          = set_wb_list_head (Some I_COMMIT)
              (unlocked (set_wb_timeout (u32 (jiffies + NFS_COMMIT_DELAY))
                           (set_wb_verf (wd_verf data) (deref s req)))).
Proof.
  intros HV Hst Hcount Hc Hd Hcm Hall Hfuel.
  unfold nfs_writeback_done. rewrite writeback_status_ok by done.
  destruct (drain_requeue nfs_mark_request_commit I_COMMIT
              (λ r, set_wb_timeout (u32 (jiffies + NFS_COMMIT_DELAY))
                      (set_wb_verf (wd_verf data) r))
              (writeback_done_req jiffies data tk_status) (wd_pages data) fuel s)
    as (s' & Hrun & Hnil & Hpost); try done.
  - intros req t. by apply writeback_done_req_unstable.
  - apply mark_commit_as_add.
  - intros q t x. apply agree_writeback_done_req.
  - intros q t. by apply chain_writeback_done_req.
  - exists s'. split_and!; try done.
    intros req Hreq. destruct (Hpost req Hreq) as (Hc' & Hw & Hd').
    split_and!; try done. rewrite Hd'. apply busy_unlocked.
Qed.

Lemma retire_spec req s :
  in_flight s req → on_list s req = true →
  let s' := nfs_unlock_request req
              (nfs_inode_remove_request req (nfs_list_remove_request req s)) in
  (req ∉ writeback s') ∧ (∀ h, req ∉ chain s' h)
  ∧ mem s' !! req
    = if decide (wb_count (deref s req) = 2) then None else Some (retired (deref s req)).
Proof.
  intros (Hw & Hb & Hc) Hon. cbv zeta.
  destruct (count_live s req) as [r Hr]; [lia|].
  rewrite (deref_known _ _ _ Hr) in *.
  set (s1 := nfs_list_remove_request req s).
  assert (Hr1 : mem s1 !! req = Some (set_wb_list_head None r)).
  { unfold s1, nfs_list_remove_request. rewrite Hon. cbn [negb]. cbv zeta.
    rewrite lookup_upd, decide_True by done. cbn [mem set_lists]. by rewrite Hr. }
  assert (Hw1 : writeback s1 = writeback s)
    by apply (proj1 (same_requests_remove req s)).
  assert (Hn1 : ∀ h, req ∉ chain s1 h).
  { intros h. unfold s1. rewrite chain_remove, list_elem_of_filter. tauto. }
  set (s2 := nfs_inode_remove_request req s1).
  assert (Hs2 : s2 = set_mem (<[req := set_wb_count (wb_count r - 1)
                                         (set_wb_list_head None r)]> (mem s1))
                       (set_npages (u32 (npages s1 - 1))
                          (set_writeback (filter (λ q, q ≠ req) (writeback s1)) s1))).
  { unfold s2, nfs_inode_remove_request, nfs_inode_remove_request_with, hashed.
    rewrite bool_decide_eq_true_2 by (by rewrite Hw1). cbn [negb]. cbv zeta.
    set (t := set_npages _ _).
    by rewrite (release_shared req t (set_wb_list_head None r) Hr1). }
  assert (Hr2 : mem s2 !! req
                = Some (set_wb_count (wb_count r - 1) (set_wb_list_head None r))).
  { rewrite Hs2. apply lookup_insert_eq. }
  assert (Hn2 : ∀ h, req ∉ chain s2 h).
  { intros h. rewrite Hs2. exact (Hn1 h). }
  split_and!.
  - apply not_hashed_unlock, not_hashed_inode_remove.
  - intros h.
    erewrite (chain_cases_notin req _ _ (chain_unlock req s2 h)); [apply Hn2|apply Hn2].
  - destruct (decide (wb_count r = 2)) as [E|E].
    + unfold nfs_unlock_request. rewrite (deref_known _ _ _ Hr2).
      destruct (Z.eqb_spec (NFS_WBACK_BUSY
                  (set_wb_count (wb_count r - 1) (set_wb_list_head None r))) 0) as [E0|_];
        [by destruct r|].
      set (s3 := set_woken _ _).
      destruct (release_cases req s3) as [[Hc3 _]|[_ Hfree]]; [|done].
      exfalso. apply Hc3. unfold s3.
      change (deref (set_woken ?w ?t) req) with (deref t req).
      rewrite deref_upd_live by (by eexists). rewrite (deref_known _ _ _ Hr2).
      simpl. by rewrite E.
    + destruct (unlock_held req s2 _ Hr2) as (Hm3 & _).
      * by destruct r.
      * simpl. lia.
      * rewrite Hm3, lookup_insert_eq. f_equal. destruct r.
        unfold retired, unlocked, set_wb_list_head, set_wb_count, set_wb_flags.
        simpl. f_equal. lia.
Qed.

(** X17: a WRITE call that the server answered in full and on stable
    storage (or any full answer without NFSv3) takes every request of
    the call out of the index and off every list; a request that only
    the index and the lock held is freed, and no error is recorded on
    any file. *)
Theorem writeback_done_stable fuel jiffies data tk_status s :
  CONFIG_NFS_V3 = false ∨ committed (wd_verf data) ≠ NFS_UNSTABLE →
  0 ≤ tk_status → args_count data ≤ res_count data →
  wd_pages data ≠ I_DIRTY → wd_pages data ≠ I_COMMIT →
  Forall (in_flight s) (chain s (wd_pages data)) →
  (length (chain s (wd_pages data)) < fuel)%nat →
  ∃ s', nfs_writeback_done fuel jiffies data tk_status s = Some s'
    ∧ chain s' (wd_pages data) = []
    ∧ f_error s' = f_error s
    ∧ ∀ req, req ∈ chain s (wd_pages data) →
        (req ∉ writeback s') ∧ (∀ h, req ∉ chain s' h)
        ∧ mem s' !! req
          = if decide (wb_count (deref s req) = 2) then None
            else Some (retired (deref s req)).
Proof.
  intros HV Hst Hcount Hd Hcm Hall Hfuel. rewrite Forall_forall in Hall.
  unfold nfs_writeback_done. rewrite writeback_status_ok by done.
  destruct (drain_each (writeback_done_req jiffies data tk_status) (wd_pages data)
              (λ t, f_error t = f_error s)
              (λ t q, in_flight t q ∧ deref t q = deref s q)
              (λ t q, (q ∉ writeback t) ∧ (∀ h, q ∉ chain t h)
                      ∧ mem t !! q
                        = if decide (wb_count (deref s q) = 2) then None
                          else Some (retired (deref s q)))
              fuel s) as (s' & Hrun & Hnil & Hinv & Hpost); try done.
  - intros q t x. apply agree_writeback_done_req.
  - intros q t. by apply chain_writeback_done_req.
  - intros q t Ht. rewrite writeback_done_req_stable by done.
    by rewrite f_error_unlock, f_error_inode_remove, f_error_list_remove.
  - intros q t Hq [Hin Hdq]. rewrite writeback_done_req_stable by done.
    rewrite <- Hdq. apply retire_spec; [done|]. apply on_list_spec. by eexists.
  - intros x t t' Ha [Hin Hdx]. split; [by eapply in_flight_agree|].
    by rewrite (agree_on_deref _ _ _ Ha).
  - intros x t t' (M & W & C) (Hw & Hc & Hm). split_and!.
    + by rewrite W.
    + intros h. by rewrite C.
    + by rewrite M.
  - intros q Hq. split; [by apply Hall|done].
  - by exists s'.
Qed.

(** X18: a WRITE call that did not fail but that the server answered
    with fewer bytes than were sent is completed as a call that failed
    with [-EIO]: every request of the call is taken out of the index and
    off its list and unlocked, and the error is recorded on its file. *)
Theorem writeback_done_short_write fuel jiffies data tk_status s :
  0 < EIO → 0 ≤ tk_status → res_count data < args_count data →
  (length (chain s (wd_pages data)) < fuel)%nat →
  nfs_writeback_done fuel jiffies data tk_status s
  = nfs_writeback_done fuel jiffies data (- EIO) s
  ∧ ∃ s', nfs_writeback_done fuel jiffies data tk_status s = Some s'
      ∧ chain s' (wd_pages data) = []
      ∧ ∀ req, req ∈ chain s (wd_pages data) → failed (- EIO) s s' req.
Proof.
  intros HE Hst Hshort Hfuel.
  assert (E1 : writeback_status data tk_status = - EIO).
  { unfold writeback_status.
    destruct (Z.ltb_spec (res_count data) (args_count data)); [|lia].
    by destruct (Z.leb_spec 0 tk_status); [|lia]. }
  assert (E2 : writeback_status data (- EIO) = - EIO).
  { unfold writeback_status.
    destruct (Z.ltb_spec (res_count data) (args_count data)); [|lia].
    by destruct (Z.leb_spec 0 (- EIO)). }
  unfold nfs_writeback_done. rewrite E1, E2. split; [done|].
  rewrite (drain_ext _ (fail_req (- EIO))).
  - by apply drain_fail.
  - intros req t. apply writeback_done_req_fail. lia.
Qed.

(** ** Setting up a call *)

Lemma ascending_same s s' l : same_requests s s' → ascending s l → ascending s' l.
Proof.
  intros Hs. unfold ascending. induction 1 as [|x l H IH HF]; constructor; [done|].
  eapply Forall_impl; [exact HF|]. intros y Hy. simpl in Hy.
  by rewrite !(same_page_index _ _ Hs).
Qed.

(** One request goes from the head of [head] to the tail of [pages]. *)
Lemma move_step head pages s0 s req (L U : list ptr) :
  head ≠ pages → chain s head = req :: L → chain s pages = U →
  ascending s0 (U ++ req :: L) → same_requests s0 s → hashed s0 req = true →
  chain (nfs_list_add_request req pages (nfs_list_remove_request req s)) head = L
  ∧ chain (nfs_list_add_request req pages (nfs_list_remove_request req s)) pages
    = U ++ [req]
  ∧ same_requests s0 (nfs_list_add_request req pages (nfs_list_remove_request req s)).
Proof.
  intros Hne Hh Hp Hasc Hs Hhash.
  destruct (ascending_middle _ _ _ _ Hasc) as (HnU & HnL & Hlt). split_and!.
  - rewrite chain_move_src, Hh by done. by apply filter_head.
  - rewrite chain_move_dst, Hp; [done|by rewrite (same_hashed _ _ Hs)|].
    intros x Hx. rewrite Hp in Hx. rewrite !(same_page_index _ _ Hs). by apply Hlt.
  - eapply same_requests_trans; [exact Hs|apply same_requests_move].
Qed.

Lemma u32_add_l a b : u32 (u32 a + b) = u32 (a + b).
Proof. unfold u32. by rewrite Zplus_mod_idemp_l. Qed.

Lemma total_bytes_app s l1 l2 :
  total_bytes s (l1 ++ l2) = total_bytes s l1 + total_bytes s l2.
Proof.
  unfold total_bytes. induction l1 as [|x l1 IH]; simpl; [done|]. rewrite IH. lia.
Qed.

Lemma u32_range z : 0 ≤ u32 z < 2 ^ 32.
Proof. unfold u32. apply Z.mod_pos_bound. lia. Qed.

Lemma write_rpcsetup_loop_spec head pages s0 :
  head ≠ pages →
  ∀ L fuel U iov count nriov s,
    chain s head = L → chain s pages = U → ascending s0 (U ++ L) →
    same_requests s0 s → Forall (λ req, hashed s0 req = true) L →
    0 ≤ count < 2 ^ 32 → 0 ≤ nriov < 2 ^ 32 →
    (length L < fuel)%nat →
    ∃ s', write_rpcsetup_loop fuel head pages iov count nriov s
          = Some (iov ++ map (iov_of s0) L, u32 (count + total_bytes s0 L),
                  u32 (nriov + Z.of_nat (length L)), s')
      ∧ chain s' head = [] ∧ chain s' pages = U ++ L ∧ same_requests s0 s'.
Proof.
  intros Hne L. induction L as [|req L IH];
    intros fuel U iov count nriov s Hh Hp Hasc Hs Hall Hc Hn Hfuel;
    (destruct fuel as [|fuel]; [simpl in Hfuel; lia|]); cbn [write_rpcsetup_loop];
    rewrite Hh.
  - exists s. rewrite !app_nil_r. cbn [total_bytes foldr length].
    rewrite !Z.add_0_r, !u32_small by done. by split_and!.
  - cbv zeta.
    apply Forall_cons in Hall as [Hhash Hall].
    destruct (move_step head pages s0 s req L U Hne Hh Hp Hasc Hs Hhash)
      as (H1 & H2 & H3).
    set (s1 := nfs_list_add_request req pages (nfs_list_remove_request req s)) in *.
    destruct (IH fuel (U ++ [req])
                (iov ++ [(wb_page (deref s1 req), wb_offset (deref s1 req),
                          wb_bytes (deref s1 req))])
                (u32 (count + wb_bytes (deref s1 req))) (u32 (nriov + 1)) s1)
      as (s' & Hrun & Hh' & Hp' & Hs'); try done.
    + by rewrite <- app_assoc.
    + apply u32_range.
    + apply u32_range.
    + simpl in Hfuel. lia.
    + exists s'. rewrite Hrun. split_and!; try done.
      * rewrite <- app_assoc. cbn [map app]. unfold iov_of at 2.
        rewrite (same_wb_page _ _ H3), (same_wb_offset _ _ H3), (same_wb_bytes _ _ H3).
        rewrite !u32_add_l. cbn [total_bytes foldr length]. fold (total_bytes s0 L).
        replace (count + (wb_bytes (deref s0 req) + total_bytes s0 L))
          with (count + wb_bytes (deref s0 req) + total_bytes s0 L) by lia.
        replace (nriov + Z.of_nat (S (length L)))
          with (nriov + 1 + Z.of_nat (length L)) by lia.
        done.
      * by rewrite Hp', <- app_assoc.
Qed.

Lemma same_wb_cred s s' q : same_requests s s' → wb_cred (deref s' q) = wb_cred (deref s q).
Proof. intros [_ D]. exact (f_equal wb_cred (D q)). Qed.

Lemma write_rpcsetup_spec fuel src pages s :
  src ≠ pages → chain s pages = [] → ascending s (chain s src) →
  Forall (λ req, hashed s req = true) (chain s src) →
  (length (chain s src) < fuel)%nat →
  ∀ first, head (chain s src) = Some first →
  ∃ s', nfs_write_rpcsetup fuel src pages s
        = Some (RpcCall
                  (WData (wb_file (deref s first))
                         (u32 (total_bytes s (chain s src))) 0
                         (u32 (total_bytes s (chain s src))) (Verf 0 0) pages)
                  (wb_cred (deref s first)) (rq_start s first)
                  (u32 (Z.of_nat (length (chain s src))))
                  (map (iov_of s) (chain s src)),
                s')
    ∧ chain s' src = [] ∧ chain s' pages = chain s src ∧ same_requests s s'.
Proof.
  intros Hne Hp Hasc Hall Hfuel first Hfirst.
  destruct (write_rpcsetup_loop_spec src pages s Hne (chain s src) fuel [] [] 0 0 s)
    as (s' & Hrun & Hh' & Hp' & Hs'); try done.
  exists s'. unfold nfs_write_rpcsetup. rewrite Hrun. cbn [app] in *. rewrite Hp'.
  destruct (chain s src) as [|a L]; [done|]. injection Hfirst as ->.
  cbv zeta. unfold rq_start.
  rewrite (same_wb_file _ _ Hs'), (same_wb_cred _ _ _ Hs'), (same_wb_page _ _ Hs'),
    (same_wb_offset _ _ Hs'). by rewrite !Z.add_0_l.
Qed.

(** X19: [nfs_write_rpcsetup] moves every request of a sorted list to the
    [pages] list of the call, in its order; the call gets one [iov] entry
    for each request, in that order, the sum of the lengths of the
    requests (32 bits wide) as [args.count] and [res.count], their number
    as [args.nriov], and the file, the credential and the offset of the
    first request. *)
Theorem write_rpcsetup_call fuel src pages s first :
  src ≠ pages → chain s pages = [] → ascending s (chain s src) →
  Forall (λ req, hashed s req = true) (chain s src) →
  head (chain s src) = Some first →
  (length (chain s src) < fuel)%nat →
  ∃ c s', nfs_write_rpcsetup fuel src pages s = Some (c, s')
    ∧ chain s' src = [] ∧ chain s' pages = chain s src ∧ same_requests s s'
    ∧ args_iov c = map (iov_of s) (chain s src)
    ∧ args_count (rc_data c) = u32 (total_bytes s (chain s src))
    ∧ res_count (rc_data c) = u32 (total_bytes s (chain s src))
    ∧ args_nriov c = u32 (Z.of_nat (length (chain s src)))
    ∧ wd_file (rc_data c) = wb_file (deref s first)
    ∧ rc_cred c = wb_cred (deref s first)
    ∧ args_offset c = rq_start s first
    ∧ wd_pages (rc_data c) = pages.
Proof.
  intros Hne Hp Hasc Hall Hfirst Hfuel.
  destruct (write_rpcsetup_spec fuel src pages s Hne Hp Hasc Hall Hfuel first Hfirst)
    as (s' & Hrun & H1 & H2 & H3).
  eexists _, s'. split; [exact Hrun|]. by split_and!.
Qed.

Lemma coalesce_loop_other src dst maxpages h :
  h ≠ dst →
  ∀ fuel prev pages s r,
    coalesce_loop fuel src dst maxpages prev pages s = Some r →
    chain s h = [] → chain (snd r) h = [].
Proof.
  intros Hne fuel. induction fuel as [|fuel IH]; intros prev pages s r Hr Hh; [done|].
  cbn [coalesce_loop] in Hr. destruct (chain s src) as [|req rest]; [by simplify_eq|].
  destruct (coalesce_break s prev req); [by simplify_eq|].
  assert (H1 : chain (nfs_list_add_request req dst (nfs_list_remove_request req s)) h = []).
  { rewrite chain_move_src by done. by rewrite Hh. }
  destruct (negb _); [by simplify_eq|]. destruct (maxpages <=? _); [by simplify_eq|].
  by eapply IH.
Qed.

Lemma joined_next s a b :
  pages_in_line → in_range s a → joined s a b →
  rq_start s b = rq_start s a + wb_bytes (deref s a).
Proof.
  intros Hline (Hi0 & Hi1 & Ho & Hb & Hob) [Hend Hbr].
  apply coalesce_break_false in Hbr as (_ & Hidx & Hoff).
  unfold to_page_end in Hend. rewrite u32_small in Hend by lia.
  rewrite u32_small in Hidx by lia.
  unfold rq_start, page_index in *. rewrite !Hline, Hidx, Hoff. lia.
Qed.

Lemma contiguous_batch s :
  pages_in_line →
  ∀ l a, adjacent (joined s) (a :: l) → Forall (in_range s) (a :: l) →
    ∀ i req, (a :: l) !! i = Some req →
      rq_start s req = rq_start s a + total_bytes s (take i (a :: l)).
Proof.
  intros Hline l. induction l as [|b l IH]; intros a Hadj Hall i req Hi.
  - destruct i as [|i]; [|done]. injection Hi as ->. simpl. lia.
  - destruct i as [|i]; [injection Hi as ->; simpl; lia|].
    destruct Hadj as [Hab Hadj]. apply Forall_cons in Hall as [Ha Hall].
    cbn [lookup list_lookup] in Hi. rewrite (IH b Hadj Hall i req Hi).
    rewrite (joined_next s a b Hline Ha Hab).
    cbn [take total_bytes foldr]. fold (total_bytes s (take i (b :: l))). lia.
Qed.

(** X20: the requests that one turn of the loop of [nfs_flush_list]
    coalesces and sets up as a WRITE call are one run of bytes of the
    file: each buffer of the call begins in the file where the buffers
    before it end, so the call writes the bytes from [args.offset] on,
    [args.count] of them. *)
Theorem flush_batch_contiguous fuel src dst pages maxpages s :
  pages_in_line →
  src ≠ dst → dst ≠ pages → chain s dst = [] → chain s pages = [] →
  0 ≤ maxpages < 2 ^ 32 → ascending s (chain s src) →
  Forall (λ req, hashed s req = true ∧ in_range s req) (chain s src) →
  chain s src ≠ [] → (length (chain s src) < fuel)%nat →
  ∃ batch rest s1 c s2,
    coalesce_requests fuel src dst maxpages s = Some (Z.of_nat (length batch), s1)
    ∧ nfs_write_rpcsetup fuel dst pages s1 = Some (c, s2)
    ∧ chain s src = batch ++ rest ∧ chain s2 pages = batch
    ∧ args_iov c = map (iov_of s) batch
    ∧ args_count (rc_data c) = u32 (total_bytes s batch)
    ∧ ∀ i req, batch !! i = Some req →
        rq_start s req = args_offset c + total_bytes s (take i batch).
Proof.
  intros Hline Hne Hdp Hdst Hpages Hmax Hasc Hall Hnonempty Hfuel.
  rewrite Forall_forall in Hall.
  destruct (coalesce_spec fuel s src dst maxpages Hne Hdst Hmax Hasc)
    as (batch & rest & s1 & Hrun & Hsplit & Hd1 & Hr1 & Hs1 & _ & Hbatch & Hadj & _);
    [intros req Hreq; by apply Hall|done|].
  destruct batch as [|a batch]; [by destruct Hnonempty; apply Hbatch|].
  assert (Hp1 : chain s1 pages = []).
  { assert (Hpd : pages ≠ dst) by done.
    exact (coalesce_loop_other src dst maxpages pages Hpd fuel None 0 s _ Hrun Hpages). }
  assert (Hin : ∀ req, req ∈ a :: batch → req ∈ chain s src).
  { intros req Hreq. rewrite Hsplit. apply elem_of_app. by left. }
  destruct (write_rpcsetup_spec fuel dst pages s1 Hdp Hp1) with (first := a)
    as (s2 & Hsetup & _ & Hp2 & Hs2).
  - rewrite Hd1. apply (ascending_same s); [done|].
    rewrite Hsplit in Hasc. by eapply StronglySorted_app_1_l.
  - rewrite Hd1. apply Forall_forall. intros req Hreq.
    rewrite (same_hashed _ _ Hs1). by apply Hall, Hin.
  - rewrite Hd1. rewrite Hsplit, length_app in Hfuel. lia.
  - by rewrite Hd1.
  - eexists (a :: batch), rest, s1, _, s2. split_and!; try done.
    + by rewrite Hp2.
    + cbn [args_iov]. rewrite Hd1. apply map_ext. intros req. unfold iov_of.
      by rewrite (same_wb_page _ _ Hs1), (same_wb_offset _ _ Hs1), (same_wb_bytes _ _ Hs1).
    + cbn [args_count rc_data]. rewrite Hd1. f_equal. unfold total_bytes.
      apply foldr_ext; [|done..]. intros req acc. by rewrite (same_wb_bytes _ _ Hs1).
    + intros i req Hi. cbn [args_offset].
      assert (rq_start s1 a = rq_start s a) as ->.
      { unfold rq_start. by rewrite (same_wb_page _ _ Hs1), (same_wb_offset _ _ Hs1). }
      apply contiguous_batch; try done.
      apply Forall_forall. intros q Hq. by apply Hall, Hin.
Qed.

Lemma commit_rpcsetup_loop_spec src pages s0 :
  src ≠ pages →
  ∀ L fuel U start end_ s,
    chain s src = L → chain s pages = U → ascending s0 (U ++ L) →
    same_requests s0 s →
    Forall (λ req, hashed s0 req = true ∧ in_file s0 req) L →
    (length L < fuel)%nat →
    ∃ start' end' s',
      commit_rpcsetup_loop fuel src pages start end_ s = Some (start', end', s')
      ∧ chain s' src = [] ∧ chain s' pages = U ++ L ∧ same_requests s0 s'
      ∧ start' ≤ start ∧ end_ ≤ end'
      ∧ (∀ req, req ∈ L → start' ≤ rq_start s0 req ∧ rq_end s0 req ≤ end')
      ∧ (start' = start ∨ ∃ req, req ∈ L ∧ start' = rq_start s0 req)
      ∧ (end' = end_ ∨ ∃ req, req ∈ L ∧ end' = rq_end s0 req).
Proof.
  intros Hne L. induction L as [|req L IH];
    intros fuel U start end_ s Hh Hp Hasc Hs Hall Hfuel;
    (destruct fuel as [|fuel]; [simpl in Hfuel; lia|]); cbn [commit_rpcsetup_loop];
    rewrite Hh.
  - exists start, end_, s. rewrite app_nil_r. split_and!; try done; try lia; [|by left..].
    intros req Hreq. by apply elem_of_nil in Hreq.
  - cbv zeta.
    apply Forall_cons in Hall as [[Hhash (Hr0 & Hr1 & Hr2)] Hall].
    destruct (move_step src pages s0 s req L U Hne Hh Hp Hasc Hs Hhash)
      as (H1 & H2 & H3).
    set (s1 := nfs_list_add_request req pages (nfs_list_remove_request req s)) in *.
    rewrite (same_wb_page _ _ H3), (same_wb_offset _ _ H3), (same_wb_bytes _ _ H3).
    fold (rq_start s0 req). unfold rq_end in Hr2.
    rewrite (u32_small (rq_start s0 req)) by lia.
    rewrite (u32_small (rq_start s0 req + _)) by lia. fold (rq_end s0 req) in *.
    set (start1 := if rq_start s0 req <? start then rq_start s0 req else start).
    set (end1 := if end_ <? rq_end s0 req then rq_end s0 req else end_).
    assert (Hs1 : start1 = Z.min (rq_start s0 req) start).
    { unfold start1. destruct (Z.ltb_spec (rq_start s0 req) start); lia. }
    assert (He1 : end1 = Z.max (rq_end s0 req) end_).
    { unfold end1. destruct (Z.ltb_spec end_ (rq_end s0 req)); lia. }
    destruct (IH fuel (U ++ [req]) start1 end1 s1)
      as (start' & end' & s' & Hrun & Hh' & Hp' & Hs' & Hle & Hge & Hcov & Hlo & Hhi);
      try done.
    + by rewrite <- app_assoc.
    + simpl in Hfuel. lia.
    + exists start', end', s'. split_and!; try done; try lia.
      * by rewrite Hp', <- app_assoc.
      * intros q [->|Hq]%elem_of_cons; [lia|by apply Hcov].
      * destruct Hlo as [->|(q & Hq & ->)].
        -- destruct (Z.ltb_spec (rq_start s0 req) start); [|left; lia].
           right. exists req. split; [apply list_elem_of_here|lia].
        -- right. exists q. split; [by apply list_elem_of_further|done].
      * destruct Hhi as [->|(q & Hq & ->)].
        -- destruct (Z.ltb_spec end_ (rq_end s0 req)); [|left; lia].
           right. exists req. split; [apply list_elem_of_here|lia].
        -- right. exists q. split; [by apply list_elem_of_further|done].
Qed.

(** X21: [nfs_commit_rpcsetup] moves every request of a sorted list to the
    [pages] list of the call; the range of the COMMIT begins where the
    first byte of a request of the list lies, no request begins before
    it, and it reaches to the last byte of the requests, [e], unless [e]
    lies at or behind the end of the file or the range would be longer
    than [2^31 - 1] bytes: then the count is [0], which commits the file
    from the offset on. *)
Theorem commit_rpcsetup_covers fuel src pages i_size s first :
  src ≠ pages → chain s pages = [] → ascending s (chain s src) →
  Forall (λ req, hashed s req = true ∧ in_file s req) (chain s src) →
  head (chain s src) = Some first →
  (length (chain s src) < fuel)%nat →
  ∃ c s' e,
    nfs_commit_rpcsetup fuel src pages i_size s = Some (c, s')
    ∧ chain s' src = [] ∧ chain s' pages = chain s src ∧ same_requests s s'
    ∧ wd_file (rc_data c) = wb_file (deref s first)
    ∧ (∀ req, req ∈ chain s src → args_offset c ≤ rq_start s req ∧ rq_end s req ≤ e)
    ∧ (∃ req, req ∈ chain s src ∧ args_offset c = rq_start s req)
    ∧ (∃ req, req ∈ chain s src ∧ e = rq_end s req)
    ∧ args_count (rc_data c)
      = (if (i_size <=? e) || (2 ^ 31 - 1 <? e - args_offset c) then 0
         else e - args_offset c)
    ∧ res_count (rc_data c) = args_count (rc_data c).
Proof.
  intros Hne Hp Hasc Hall Hfirst Hfuel.
  destruct (commit_rpcsetup_loop_spec src pages s Hne (chain s src) fuel []
              (u32 (Z.lnot 0)) 0 s)
    as (start' & end' & s' & Hrun & Hh' & Hp' & Hs' & Hle & Hge & Hcov & Hlo & Hhi);
    try done.
  unfold nfs_commit_rpcsetup. rewrite Hrun.
  destruct (chain s src) as [|a L] eqn:Hsrc; [done|]. injection Hfirst as ->.
  apply Forall_cons in Hall as [[_ (Ha0 & Ha1 & Ha2)] Hall'].
  destruct (Hcov first (list_elem_of_here _ _)) as [Hc1 Hc2].
  unfold rq_end in Ha2, Hc2.
  change (u32 (Z.lnot 0)) with (2 ^ 32 - 1) in *.
  change (Z.shiftr (2 ^ 32 - 1) 1) with (2 ^ 31 - 1).
  assert (Hlo' : ∃ req, req ∈ first :: L ∧ start' = rq_start s req).
  { destruct Hlo as [->|?]; [|done]. exists first. split; [apply list_elem_of_here|lia]. }
  assert (Hhi' : ∃ req, req ∈ first :: L ∧ end' = rq_end s req).
  { destruct Hhi as [->|?]; [|done]. exists first. split; [apply list_elem_of_here|].
    unfold rq_end. lia. }
  assert (Hend : end' < 2 ^ 32).
  { destruct Hhi' as (q & Hq & ->). rewrite Forall_forall in Hall'.
    apply elem_of_cons in Hq as [->|Hq]; [unfold rq_end; lia|].
    by destruct (Hall' q Hq) as [_ (_ & _ & ?)]. }
  assert (Hstart : 0 ≤ start').
  { destruct Hlo' as (q & Hq & ->). rewrite Forall_forall in Hall'.
    apply elem_of_cons in Hq as [->|Hq]; [done|].
    by destruct (Hall' q Hq) as [_ (? & _ & _)]. }
  rewrite (u32_small (end' - start')) by lia.
  eexists _, s', end'. split; [reflexivity|]. cbn [rc_data args_count res_count args_offset wd_file].
  split_and!; try done.
  destruct ((i_size <=? end') || (2 ^ 31 - 1 <? end' - start')); [done|].
  apply u32_small. lia.
Qed.

(** ** Giving a whole list back *)

Lemma insert_alter_eq (m : gmap ptr nfs_page) q v f : <[q := v]> (alter f q m) = <[q := v]> m.
Proof.
  apply map_eq. intros x. destruct (decide (x = q)) as [->|Hne].
  - by rewrite !lookup_insert_eq.
  - by rewrite !lookup_insert_ne, lookup_alter_ne.
Qed.

(** The state after a locked, hashed request has been taken off its list,
    put on the list [H] by [mark], and unlocked. *)
Lemma requeue_exact (mark : ptr → state → state) (H : lhead) q t r :
  (∀ u, mem (mark q u) = mem (nfs_list_add_request q H u)
        ∧ lists (mark q u) = lists (nfs_list_add_request q H u)
        ∧ writeback (mark q u) = writeback u) →
  mem t !! q = Some r → q ∈ writeback t →
  NFS_WBACK_BUSY r ≠ 0 → 2 ≤ wb_count r < 2 ^ 32 →
  let t' := nfs_unlock_request q (mark q (nfs_list_remove_request q t)) in
  mem t' = <[q := set_wb_list_head (Some H) (unlocked r)]> (mem t)
  ∧ chain t' H
    = reverse (list_add_prev t q (reverse (filter (λ x, x ≠ q) (chain t H))))
  ∧ (∀ h, h ≠ H → chain t' h = filter (λ x, x ≠ q) (chain t h))
  ∧ writeback t' = writeback t
  ∧ counts t' = counts (mark q (nfs_list_remove_request q t)).
Proof.
  intros Hmark Hr Hw Hb Hc. cbv zeta. unfold counts.
  set (s1 := nfs_list_remove_request q t).
  pose proof (same_requests_remove q t) as Hs1. fold s1 in Hs1.
  destruct (lookup_list_remove q t r Hr) as (r1 & Hr1 & E1). fold s1 in Hr1.
  assert (Hm1 : mem s1 = mem t ∨ mem s1 = alter (set_wb_list_head None) q (mem t)).
  { unfold s1, nfs_list_remove_request. destruct (negb _); [by left|by right]. }
  assert (Hon : on_list s1 q = false) by apply on_list_remove.
  assert (Hh : hashed s1 q = true).
  { rewrite (same_hashed _ _ Hs1). unfold hashed. by apply bool_decide_eq_true. }
  destruct (Hmark s1) as (Hm2 & Hl2 & Hw2). set (s2 := mark q s1) in *.
  assert (Hma : mem (nfs_list_add_request q H s1)
                = alter (set_wb_list_head (Some H)) q (mem s1)).
  { unfold nfs_list_add_request. by rewrite Hon, Hh. }
  assert (Hr2 : mem s2 !! q = Some (set_wb_list_head (Some H) r)).
  { rewrite Hm2, lookup_list_add, Hr1 by done. simpl. f_equal.
    rewrite <- (set_head_head (Some H) None r1), E1. apply set_head_head. }
  rewrite (unlock_known q s2 _ Hr2); [|by destruct r|by destruct r].
  cbn [mem lists writeback npages ndirty ncommit f_error nfs_nr_requests set_woken set_mem].
  split_and!; try done.
  - rewrite Hm2, Hma, insert_alter_eq.
    assert (unlocked (set_wb_list_head (Some H) r) = set_wb_list_head (Some H) (unlocked r))
      as Hv by (by destruct r).
    fold (unlocked (set_wb_list_head (Some H) r)). rewrite Hv.
    destruct Hm1 as [-> | ->]; [done|apply insert_alter_eq].
  - unfold chain at 1. cbn [lists set_woken set_mem]. rewrite Hl2.
    change (chain (nfs_list_add_request q H s1) H = reverse (list_add_prev t q (reverse (filter (λ x, x ≠ q) (chain t H))))).
    rewrite chain_add, Hon, Hh. cbn [negb orb]. rewrite decide_True by done.
    unfold s1 at 2. rewrite chain_remove. by rewrite (same_list_add_prev _ _ Hs1).
  - intros h Hne. unfold chain at 1. cbn [lists set_woken set_mem]. rewrite Hl2.
    change (chain (nfs_list_add_request q H s1) h = filter (λ x, x ≠ q) (chain t h)).
    rewrite chain_add, Hon, Hh. cbn [negb orb]. rewrite decide_False by done.
    apply chain_remove.
  - rewrite Hw2. apply Hs1.
Qed.

(** A request goes into a list in ascending page order that does not
    hold its page. *)
Lemma ascending_insert s q (l : list ptr) :
  ascending s l → (∀ x, x ∈ l → page_index s x ≠ page_index s q) →
  ascending s (reverse (list_add_prev s q (reverse l)))
  ∧ reverse (list_add_prev s q (reverse l)) ≡ₚ q :: l.
Proof.
  intros Hasc Hd.
  destruct (list_add_prev_split s q (reverse l)) as (r1 & r2 & E1 & E2 & H1 & H2).
  assert (El : l = reverse r2 ++ reverse r1).
  { by rewrite <- reverse_app, <- E1, reverse_involutive. }
  rewrite E2, reverse_app, reverse_cons, <- app_assoc. cbn [app].
  split; [|rewrite El; symmetry; apply Permutation_middle].
  unfold ascending in *. rewrite El in Hasc, Hd.
  apply StronglySorted_app in Hasc as (Hcross & Ha2 & Ha1).
  apply StronglySorted_app. split_and!; [|done|].
  - intros a b Ha [->|Hb]%elem_of_cons; [|by apply Hcross].
    destruct r2 as [|p r2]; [by apply elem_of_nil in Ha|].
    specialize (H2 p eq_refl). rewrite reverse_cons in Ha, Ha2.
    apply elem_of_app in Ha as [Ha|Ha%list_elem_of_singleton]; [|by subst].
    apply StronglySorted_app in Ha2 as (Hc2 & _ & _).
    specialize (Hc2 a p Ha). rewrite list_elem_of_singleton in Hc2.
    specialize (Hc2 eq_refl). simpl in Hc2. lia.
  - constructor; [done|]. apply Forall_forall. intros x Hx.
    assert (Hx1 : x ∈ r1) by (by apply elem_of_reverse).
    rewrite Forall_forall in H1. specialize (H1 x Hx1).
    assert (page_index s x ≠ page_index s q).
    { apply Hd. apply elem_of_app. by right. }
    simpl. lia.
Qed.

Lemma ascending_ext s s' l :
  (∀ x, page_index s' x = page_index s x) → ascending s l → ascending s' l.
Proof.
  intros E. unfold ascending. induction 1 as [|x l H IH HF]; constructor; [done|].
  eapply Forall_impl; [exact HF|]. intros y Hy. simpl in Hy. by rewrite !E.
Qed.

Lemma filter_notin_cons (q : ptr) (rest l : list ptr) :
  filter (λ x, x ∉ rest) (filter (λ x, x ≠ q) l) = filter (λ x, x ∉ q :: rest) l.
Proof.
  induction l as [|a l IH]; [done|]. destruct (decide (a = q)) as [->|Hne].
  - rewrite (filter_cons_False (λ x, x ≠ q)) by (intros ?; done).
    rewrite (filter_cons_False (λ x, x ∉ q :: rest)); [done|].
    intros Hn. apply Hn, list_elem_of_here.
  - rewrite (filter_cons_True (λ x, x ≠ q)) by done.
    destruct (decide (a ∈ rest)) as [Hin|Hnin].
    + rewrite (filter_cons_False (λ x, x ∉ rest)) by (intros Hn; by apply Hn).
      rewrite (filter_cons_False (λ x, x ∉ q :: rest)); [done|].
      intros Hn. apply Hn. by apply list_elem_of_further.
    + rewrite (filter_cons_True (λ x, x ∉ rest)) by done.
      rewrite (filter_cons_True (λ x, x ∉ q :: rest)); [by rewrite IH|].
      by intros [?|?]%elem_of_cons.
Qed.

Lemma filter_all (P : ptr → Prop) `{!∀ x, Decision (P x)} (l : list ptr) :
  (∀ x, x ∈ l → P x) → filter P l = l.
Proof.
  induction l as [|a l IH]; intros Hall; [done|].
  rewrite filter_cons_True by apply Hall, list_elem_of_here.
  rewrite IH; [done|]. intros x Hx. by apply Hall, list_elem_of_further.
Qed.

(** The loop that gives a whole list of locked requests to the sorted
    list [H]; [step] is what a turn does to the counters. *)
Lemma drain_requeue_all (mark : ptr → state → state) (H h : lhead)
    (body : ptr → state → state)
    (step : Z * Z * Z * gmap Z Z * Z → Z * Z * Z * gmap Z Z * Z) :
  (∀ q u, body q u = nfs_unlock_request q (mark q (nfs_list_remove_request q u))) →
  (∀ q u, mem (mark q u) = mem (nfs_list_add_request q H u)
          ∧ lists (mark q u) = lists (nfs_list_add_request q H u)
          ∧ writeback (mark q u) = writeback u) →
  (∀ q u, in_flight u q → counts (body q u) = step (counts u)) →
  h ≠ H →
  ∀ fuel t,
    Forall (in_flight t) (chain t h) →
    ascending t (chain t H) →
    NoDup (page_index t <$> (chain t h ++ chain t H)) →
    (length (chain t h) < fuel)%nat →
    ∃ t', drain fuel body h t = Some t'
      ∧ chain t' h = []
      ∧ ascending t (chain t' H)
      ∧ chain t' H ≡ₚ chain t h ++ chain t H
      ∧ (∀ q, mem t' !! q
              = if decide (q ∈ chain t h)
                then Some (set_wb_list_head (Some H) (unlocked (deref t q)))
                else mem t !! q)
      ∧ (∀ h', h' ≠ H → h' ≠ h →
           chain t' h' = filter (λ x, x ∉ chain t h) (chain t h'))
      ∧ writeback t' = writeback t
      ∧ counts t' = Nat.iter (length (chain t h)) step (counts t).
Proof.
  intros Hbody Hmark Hup HhH fuel. induction fuel as [|fuel IH];
    intros t Hall Hasc Hnd Hfuel; [lia|].
  cbn [drain]. destruct (chain t h) as [|q rest] eqn:Hch.
  - exists t. split_and!; try done.
    intros h' _ _. symmetry. apply filter_all. intros x _ Hx.
    by apply elem_of_nil in Hx.
  - apply Forall_cons in Hall as [Hq Hall].
    pose proof Hq as (Hqw & Hqb & Hqc).
    destruct (count_live t q) as [r Hr]; [lia|].
    rewrite (deref_known _ _ _ Hr) in Hqb, Hqc.
    destruct (requeue_exact mark H q t r (Hmark q) Hr Hqw Hqb Hqc)
      as (Em & EH & Eo & Ew & _).
    rewrite <- Hbody in Em, EH, Eo, Ew.
    pose proof (Hup q t Hq) as Hup1. set (t1 := body q t) in *.
    (* the request is nowhere else, and its page is no one else's *)
    cbn [app fmap list_fmap] in Hnd. apply NoDup_cons in Hnd as [Hqi Hnd].
    assert (Hqn : ∀ x, x ∈ rest ++ chain t H → x ≠ q).
    { intros x Hx ->. apply Hqi. by apply list_elem_of_fmap_2. }
    assert (Hqr : q ∉ rest).
    { intros Hin. eapply Hqn; [|done]. apply elem_of_app. by left. }
    assert (HqH : q ∉ chain t H).
    { intros Hin. eapply Hqn; [|done]. apply elem_of_app. by right. }
    assert (Hidx : ∀ x, page_index t1 x = page_index t x).
    { intros x. unfold page_index, deref. rewrite Em.
      destruct (decide (x = q)) as [->|Hne].
      - rewrite lookup_insert_eq, Hr. by destruct r.
      - by rewrite lookup_insert_ne. }
    assert (Hd1 : ∀ x, x ≠ q → deref t1 x = deref t x).
    { intros x Hne. unfold deref. by rewrite Em, lookup_insert_ne. }
    assert (Hh1 : chain t1 h = rest).
    { rewrite Eo, Hch by done. by apply filter_head. }
    rewrite filter_ne_id in EH by done.
    destruct (ascending_insert t q (chain t H) Hasc) as [Hasc1 Hperm1].
    { intros x Hx Heq. apply Hqi. rewrite <- Heq. apply list_elem_of_fmap_2.
      apply elem_of_app. by right. }
    rewrite <- EH in Hasc1, Hperm1.
    destruct (IH t1) as (t' & Hrun & Hnil & Hasc' & Hperm' & Hmem' & Hoth' & Hw' & Hup').
    + rewrite Hh1. apply Forall_forall. intros x Hx. rewrite Forall_forall in Hall.
      destruct (Hall x Hx) as (Hxw & Hxb & Hxc).
      assert (x ≠ q) by (intros ->; done).
      unfold in_flight. rewrite Hd1, Ew by done. done.
    + by apply (ascending_ext t).
    + rewrite Hh1.
      rewrite (list_fmap_ext (page_index t1) (page_index t) _ (λ _ x _, Hidx x)).
      rewrite Hperm1.
      eapply NoDup_Permutation_proper; [|exact (NoDup_cons_2 _ _ Hqi Hnd)].
      rewrite fmap_app, fmap_cons, fmap_app. by rewrite <- Permutation_middle.
    + rewrite Hh1. simpl in Hfuel. lia.
    + exists t'. split_and!; try done.
      * by apply (ascending_ext t1).
      * rewrite Hperm', Hh1, Hperm1. cbn [app]. by rewrite <- Permutation_middle.
      * intros x. rewrite Hmem', Hh1. destruct (decide (x ∈ rest)) as [Hin|Hnin].
        -- rewrite decide_True by (by apply list_elem_of_further).
           rewrite Hd1; [done|]. by intros ->.
        -- rewrite Em. destruct (decide (x = q)) as [->|Hne].
           ++ rewrite decide_True by apply list_elem_of_here.
              by rewrite lookup_insert_eq, (deref_known _ _ _ Hr).
           ++ rewrite lookup_insert_ne by done. rewrite decide_False; [done|].
              by intros [?|?]%elem_of_cons.
      * intros h' HnH Hnh. rewrite Hoth', Hh1, Eo by done. apply filter_notin_cons.
      * by rewrite Hw'.
      * rewrite Hup', Hh1, Hup1. by rewrite <- Nat.iter_succ_r.
Qed.

(** *** What the turns do to the counters *)

Lemma counts_list_remove q s : counts (nfs_list_remove_request q s) = counts s.
Proof. unfold counts, nfs_list_remove_request. by destruct (negb _). Qed.

Lemma counts_list_add q h s : counts (nfs_list_add_request q h s) = counts s.
Proof.
  unfold counts, nfs_list_add_request. destruct (on_list s q); [done|].
  by destruct (negb _).
Qed.

Lemma counts_redirty q u :
  in_flight u q → counts (redirty_req q u) = one_more_dirty (counts u).
Proof.
  intros (Hw & Hb & Hc). destruct (count_live u q) as [r Hr]; [lia|].
  rewrite (deref_known _ _ _ Hr) in Hb, Hc.
  destruct (requeue_exact nfs_mark_request_dirty I_DIRTY q u r
              (mark_dirty_as_add q) Hr Hw Hb Hc) as (_ & _ & _ & _ & E).
  unfold redirty_req. rewrite E. unfold nfs_mark_request_dirty.
  rewrite on_list_remove. cbn [negb]. cbv zeta.
  pose proof (counts_list_add q I_DIRTY (nfs_list_remove_request q u)) as E1.
  rewrite counts_list_remove in E1. unfold counts in *. cbn [npages ndirty ncommit f_error nfs_nr_requests set_ndirty].
  by injection E1 as -> -> -> -> ->.
Qed.

Lemma counts_recommit q u :
  in_flight u q → counts (recommit_req q u) = one_more_commit (counts u).
Proof.
  intros (Hw & Hb & Hc). destruct (count_live u q) as [r Hr]; [lia|].
  rewrite (deref_known _ _ _ Hr) in Hb, Hc.
  destruct (requeue_exact nfs_mark_request_commit I_COMMIT q u r
              (mark_commit_as_add q) Hr Hw Hb Hc) as (_ & _ & _ & _ & E).
  unfold recommit_req. rewrite E. unfold nfs_mark_request_commit.
  rewrite on_list_remove. cbn [negb]. cbv zeta.
  pose proof (counts_list_add q I_COMMIT (nfs_list_remove_request q u)) as E1.
  rewrite counts_list_remove in E1. unfold counts in *. cbn [npages ndirty ncommit f_error nfs_nr_requests set_ncommit].
  by injection E1 as -> -> -> -> ->.
Qed.

(** *** What the coalescer leaves alone *)

Lemma coalesce_loop_frame src dst maxpages :
  ∀ fuel prev pages s r,
    coalesce_loop fuel src dst maxpages prev pages s = Some r →
    (∀ x, x ∉ chain s src → mem (snd r) !! x = mem s !! x)
    ∧ (∀ h, h ≠ dst → (∀ x, x ∈ chain s h → x ∉ chain s src) →
         chain (snd r) h = chain s h)
    ∧ counts (snd r) = counts s.
Proof.
  intros fuel. induction fuel as [|fuel IH]; intros prev pages s r Hr; [done|].
  cbn [coalesce_loop] in Hr. destruct (chain s src) as [|req rest] eqn:Hsrc;
    [by simplify_eq|].
  destruct (coalesce_break s prev req); [by simplify_eq|].
  set (s1 := nfs_list_add_request req dst (nfs_list_remove_request req s)) in *.
  assert (Hm1 : ∀ x, x ∉ req :: rest → mem s1 !! x = mem s !! x).
  { intros x Hx. assert (x ≠ req) by (intros ->; apply Hx, list_elem_of_here).
    unfold s1. by rewrite others_list_add, others_list_remove. }
  assert (Hc1 : ∀ h, h ≠ dst → (∀ x, x ∈ chain s h → x ∉ req :: rest) →
                chain s1 h = chain s h).
  { intros h Hh Hd. unfold s1. rewrite chain_move_src by done.
    apply filter_ne_id. intros Hin. apply (Hd _ Hin), list_elem_of_here. }
  assert (Hn1 : counts s1 = counts s).
  { unfold s1. by rewrite counts_list_add, counts_list_remove. }
  assert (Hstop : r = (u32 (pages + 1), s1) →
            (∀ x, x ∉ req :: rest → mem (snd r) !! x = mem s !! x)
            ∧ (∀ h, h ≠ dst → (∀ x, x ∈ chain s h → x ∉ req :: rest) →
                 chain (snd r) h = chain s h)
            ∧ counts (snd r) = counts s).
  { intros ->. by split_and!. }
  destruct (negb _); [apply Hstop; by simplify_eq|].
  destruct (maxpages <=? _); [apply Hstop; by simplify_eq|].
  destruct (IH _ _ _ _ Hr) as (Hm & Hc & Hn).
  assert (Hsub : ∀ x, x ∈ chain s1 src → x ∈ req :: rest).
  { intros x Hx. destruct (decide (src = dst)) as [->|Hne].
    - unfold s1 in Hx. apply elem_of_chain_add in Hx as [Hx|(-> & _)];
        [|apply list_elem_of_here].
      rewrite chain_remove, list_elem_of_filter, Hsrc in Hx. tauto.
    - unfold s1 in Hx. rewrite chain_move_src, list_elem_of_filter, Hsrc in Hx by done.
      tauto. }
  split_and!.
  - intros x Hx. rewrite Hm; [by apply Hm1|]. intros Hin. by apply Hx, Hsub.
  - intros h Hh Hd. rewrite Hc; [by apply Hc1|done|].
    intros x Hx Hin. rewrite Hc1 in Hx by done. by apply (Hd x Hx), Hsub.
  - by rewrite Hn.
Qed.

Lemma requeued_same H X Y :
  set_wb_list_head None X = set_wb_list_head None Y →
  set_wb_list_head (Some H) (unlocked X) = set_wb_list_head (Some H) (unlocked Y).
Proof.
  intros E. destruct X, Y. unfold set_wb_list_head, unlocked, set_wb_count, set_wb_flags in *.
  simpl in *. injection E. intros. by subst.
Qed.

Lemma same_in_flight s s' q : same_requests s s' → in_flight s q → in_flight s' q.
Proof.
  intros Hs (Hw & Hb & Hc). destruct Hs as [W D]. specialize (D q).
  unfold in_flight, NFS_WBACK_BUSY in *. rewrite W.
  assert (wb_flags (deref s' q) = wb_flags (deref s q)) as ->
    by exact (f_equal wb_flags D).
  assert (wb_count (deref s' q) = wb_count (deref s q)) as ->
    by exact (f_equal wb_count D).
  done.
Qed.

Lemma NoDup_fmap_app_l {B} (f : ptr → B) (l1 l2 l3 : list ptr) :
  NoDup (f <$> ((l1 ++ l2) ++ l3)) → NoDup (f <$> (l1 ++ l3)).
Proof.
  rewrite !fmap_app, <- app_assoc. intros (H1 & H2 & H3)%NoDup_app.
  apply NoDup_app in H3 as (_ & _ & H3). apply NoDup_app. split_and!; [done| |done].
  intros x Hx Hx3. apply (H2 x Hx). apply elem_of_app. by right.
Qed.

Lemma page_index_requeued (t t' : state) (l : list ptr) H :
  (∀ q, mem t' !! q
        = if decide (q ∈ l)
          then Some (set_wb_list_head (Some H) (unlocked (deref t q)))
          else mem t !! q) →
  ∀ x, page_index t' x = page_index t x.
Proof.
  intros Hm x. unfold page_index. unfold deref at 1. rewrite Hm.
  destruct (decide (x ∈ l)); [|done]. simpl. by destruct (deref t x).
Qed.

(** [nfs_flush_list] when the first call gets no memory. *)
Lemma flush_list_no_memory_spec fuel allocs rpc_execute head one_request wsize stable t :
  0 < ENOMEM → allocs 0%nat = None →
  head ≠ one_request → head ≠ I_DIRTY → one_request ≠ I_DIRTY →
  chain t head ≠ [] → chain t one_request = [] →
  Forall (in_flight t) (chain t head) →
  ascending t (chain t head) → ascending t (chain t I_DIRTY) →
  NoDup (page_index t <$> (chain t head ++ chain t I_DIRTY)) →
  (length (chain t head) < fuel)%nat →
  ∃ t', nfs_flush_list fuel allocs rpc_execute head one_request wsize stable t
        = Some (- ENOMEM, t')
    ∧ chain t' head = [] ∧ chain t' one_request = []
    ∧ ascending t (chain t' I_DIRTY)
    ∧ chain t' I_DIRTY ≡ₚ chain t head ++ chain t I_DIRTY
    ∧ (∀ q, mem t' !! q
            = if decide (q ∈ chain t head)
              then Some (set_wb_list_head (Some I_DIRTY) (unlocked (deref t q)))
              else mem t !! q)
    ∧ (∀ h', h' ≠ I_DIRTY → h' ≠ head → h' ≠ one_request →
         (∀ x, x ∈ chain t h' → x ∉ chain t head) → chain t' h' = chain t h')
    ∧ writeback t' = writeback t
    ∧ counts t' = Nat.iter (length (chain t head)) one_more_dirty (counts t).
Proof.
  intros HE Halloc Hho HhD HoD Hne Hone Hall Hasc HascD Hnd Hfuel.
  rewrite Forall_forall in Hall.
  assert (HndL : NoDup (chain t head ++ chain t I_DIRTY)) by (by eapply NoDup_fmap_1).
  apply NoDup_app in HndL as (HndT & HTD & HndD).
  (* the first batch *)
  destruct (coalesce_spec fuel t head one_request
              (u32 (Z.shiftr wsize PAGE_CACHE_SHIFT)) Hho Hone (u32_range _) Hasc)
    as (B & R & s2 & Hco & Hsplit & Hd2 & Hr2 & Hs2 & _ & HB & _); [|done|].
  { intros q Hq. destruct (Hall q Hq) as (Hw & _). unfold hashed.
    by apply bool_decide_eq_true. }
  unfold coalesce_requests in Hco.
  destruct (coalesce_loop_frame _ _ _ _ _ _ _ _ Hco) as (Hm2 & Hc2 & Hn2).
  cbn [snd] in Hm2, Hc2, Hn2.
  assert (HD2 : chain s2 I_DIRTY = chain t I_DIRTY).
  { apply Hc2; [done|]. intros x Hx Hin. by apply (HTD x Hin). }
  rewrite Hsplit in HndT. apply NoDup_app in HndT as (HndB & HBR & HndR).
  assert (HinB : ∀ q, q ∈ B → q ∈ chain t head).
  { intros q Hq. rewrite Hsplit. apply elem_of_app. by left. }
  assert (HinR : ∀ q, q ∈ R → q ∈ chain t head).
  { intros q Hq. rewrite Hsplit. apply elem_of_app. by right. }
  assert (Hidx2 : ∀ x, page_index s2 x = page_index t x)
    by (intros x; apply (same_page_index _ _ Hs2)).
  (* the first batch goes back *)
  destruct (drain_requeue_all nfs_mark_request_dirty I_DIRTY one_request redirty_req
              one_more_dirty) with (fuel := fuel) (t := s2)
    as (s3 & Hrun3 & Hnil3 & Hasc3 & Hperm3 & Hmem3 & Hoth3 & Hw3 & Hn3); try done.
  { intros q u. apply mark_dirty_as_add. }
  { intros q u. apply counts_redirty. }
  { rewrite Hd2. apply Forall_forall. intros q Hq.
    apply (same_in_flight t); [done|]. by apply Hall, HinB. }
  { rewrite HD2. by apply (ascending_same t). }
  { rewrite Hd2, HD2.
    rewrite (list_fmap_ext (page_index s2) (page_index t) _ (λ _ x _, Hidx2 x)).
    rewrite Hsplit in Hnd. by eapply NoDup_fmap_app_l. }
  { rewrite Hd2. rewrite Hsplit, length_app in Hfuel. lia. }
  rewrite Hd2 in Hperm3, Hmem3, Hoth3, Hn3. rewrite HD2 in Hperm3.
  assert (Hidx3 : ∀ x, page_index s3 x = page_index t x).
  { intros x. rewrite (page_index_requeued s2 s3 B I_DIRTY Hmem3). apply Hidx2. }
  assert (Hh3 : chain s3 head = R).
  { rewrite Hoth3, Hr2 by done. apply filter_all. intros x Hx Hin. by apply (HBR x Hin). }
  (* the rest of the list goes back *)
  destruct (drain_requeue_all nfs_mark_request_dirty I_DIRTY head redirty_req
              one_more_dirty) with (fuel := fuel) (t := s3)
    as (s4 & Hrun4 & Hnil4 & Hasc4 & Hperm4 & Hmem4 & Hoth4 & Hw4 & Hn4); try done.
  { intros q u. apply mark_dirty_as_add. }
  { intros q u. apply counts_redirty. }
  { rewrite Hh3. apply Forall_forall. intros q Hq.
    assert (HqB : q ∉ B) by (intros Hin; by apply (HBR q Hin)).
    destruct (same_in_flight t s2 q Hs2 (Hall q (HinR q Hq))) as (Hw & Hb & Hc).
    unfold in_flight. rewrite Hw3. unfold deref in *. rewrite Hmem3.
    by rewrite decide_False. }
  { apply (ascending_ext s2); [|done]. intros x. by rewrite Hidx3, Hidx2. }
  { rewrite Hh3.
    rewrite (list_fmap_ext (page_index s3) (page_index t) _ (λ _ x _, Hidx3 x)).
    rewrite Hperm3. rewrite Hsplit in Hnd.
    eapply NoDup_Permutation_proper; [|exact Hnd].
    apply fmap_Permutation. rewrite <- app_assoc. apply Permutation_app_swap_app. }
  { rewrite Hh3. rewrite Hsplit, length_app in Hfuel. lia. }
  rewrite Hh3 in Hperm4, Hmem4, Hoth4, Hn4.
  (* the calls of the function *)
  exists s4. split_and!.
  - unfold nfs_flush_list. destruct fuel as [|fuel']; [lia|]. cbn [flush_list_loop].
    destruct (chain t head) as [|a T'] eqn:HT; [done|].
    unfold coalesce_requests. rewrite Hco. unfold nfs_flush_one. rewrite Halloc, Hrun3.
    destruct (Z.ltb_spec (- ENOMEM) 0) as [_|]; [|lia].
    destruct (Z.leb_spec 0 (- ENOMEM)) as [|_]; [lia|]. by rewrite Hrun4.
  - done.
  - rewrite Hoth4, Hnil3 by done. done.
  - apply (ascending_ext s3); [|done]. intros x. by rewrite Hidx3.
  - rewrite Hperm4, Hperm3, Hsplit. rewrite <- !app_assoc.
    apply Permutation_app_swap_app.
  - intros q. rewrite Hmem4. destruct (decide (q ∈ R)) as [HqR|HqR].
    + rewrite decide_True by (by apply HinR). f_equal.
      assert (HqB : q ∉ B) by (intros Hin; by apply (HBR q Hin)).
      assert (deref s3 q = deref s2 q) as ->.
      { unfold deref. rewrite Hmem3. by rewrite decide_False. }
      apply requeued_same. apply Hs2.
    + rewrite Hmem3. destruct (decide (q ∈ B)) as [HqB|HqB].
      * rewrite decide_True by (by apply HinB). f_equal. apply requeued_same, Hs2.
      * rewrite decide_False; [apply Hm2|]; rewrite Hsplit, elem_of_app; tauto.
  - intros h' H1 H2 H3 Hdis. rewrite Hoth4, Hoth3 by done. rewrite Hc2 by done.
    rewrite !filter_all; [done| |].
    + intros x Hx Hin. by apply (Hdis x Hx), HinB.
    + intros x Hx Hin. apply list_elem_of_filter in Hx as [_ Hx].
      by apply (Hdis x Hx), HinR.
  - by rewrite Hw4, Hw3, (proj1 Hs2).
  - rewrite Hn4, Hn3, Hn2, Hsplit, length_app, Nat.add_comm. by rewrite Nat.iter_add.
Qed.

(** *** What a scan leaves alone *)

Lemma scan_fold_frame dst file i0 i1 L :
  ∀ acc,
    (∀ h, h ≠ dst → (∀ x, x ∈ chain (snd acc) h → x ∉ L) →
       chain (snd (foldl (scan_step dst file i0 i1) acc L)) h = chain (snd acc) h)
    ∧ counts (snd (foldl (scan_step dst file i0 i1) acc L)) = counts (snd acc).
Proof.
  induction L as [|req L IH]; intros [pages s]; [done|]. cbn [foldl snd].
  destruct (scan_selects file i0 i1 s req) eqn:Esel.
  - rewrite scan_step_take by done.
    destruct (IH (s32 (pages + 1),
                  nfs_list_add_request req dst
                    (nfs_list_remove_request req (upd req locked s)))) as [Hc Hn].
    cbn [snd] in Hc, Hn. split.
    + intros h Hh Hd.
      assert (Hch : chain (nfs_list_add_request req dst
                             (nfs_list_remove_request req (upd req locked s))) h
                    = chain s h).
      { rewrite chain_move_src by done.
        change (chain (upd req locked s) h) with (chain s h).
        apply filter_ne_id. intros Hin. apply (Hd _ Hin), list_elem_of_here. }
      rewrite Hc; [done|done|].
      intros x Hx Hin. rewrite Hch in Hx. apply (Hd x Hx). by apply list_elem_of_further.
    + by rewrite Hn, counts_list_add, counts_list_remove.
  - rewrite scan_step_skip by done. destruct (IH (pages, s)) as [Hc Hn].
    cbn [snd] in Hc, Hn. split; [|done].
    intros h Hh Hd. apply Hc; [done|]. intros x Hx Hin. apply (Hd x Hx).
    by apply list_elem_of_further.
Qed.

Lemma iter_one_more_dirty (k : nat) np nd nc (fe : gmap Z Z) nr :
  Nat.iter k one_more_dirty (np, u32 nd, nc, fe, nr)
  = (np, u32 (nd + Z.of_nat k), nc, fe, nr).
Proof.
  induction k as [|k IH]; [by rewrite Z.add_0_r|].
  cbn [Nat.iter nat_rect]. change (nat_rect _ _ _ k) with
    (Nat.iter k one_more_dirty (np, u32 nd, nc, fe, nr)).
  rewrite IH. cbn [one_more_dirty]. rewrite u32_add_l. do 4 f_equal. f_equal. lia.
Qed.

Lemma iter_one_more_commit (k : nat) np nd nc (fe : gmap Z Z) nr :
  Nat.iter k one_more_commit (np, nd, u32 nc, fe, nr)
  = (np, nd, u32 (nc + Z.of_nat k), fe, nr).
Proof.
  induction k as [|k IH]; [by rewrite Z.add_0_r|].
  cbn [Nat.iter nat_rect]. change (nat_rect _ _ _ k) with
    (Nat.iter k one_more_commit (np, nd, u32 nc, fe, nr)).
  rewrite IH. cbn [one_more_commit]. rewrite u32_add_l. do 3 f_equal. f_equal. lia.
Qed.

(** A request that a scan has locked and moved to [dst] is what it was
    once it is unlocked and back on the list it came from. *)
Lemma moved_back dst H r :
  wb_list_head r = Some H → NFS_WBACK_BUSY r = 0 → 0 ≤ wb_count r < 2 ^ 32 - 1 →
  set_wb_list_head (Some H) (unlocked (moved dst r)) = r.
Proof.
  intros Hh Hb Hc. destruct r. unfold moved, locked, unlocked, NFS_WBACK_BUSY in *.
  unfold set_wb_list_head, set_wb_count, set_wb_flags in *. simpl in *.
  rewrite u32_small by lia. rewrite flags_lock_unlock by done. subst.
  f_equal. lia.
Qed.

(** What [nfs_scan_list] hands to the caller that flushes or commits. *)
Lemma scan_requeue_ready H dst file start count s :
  H ≠ dst → chain s dst = [] → single_membership s →
  ascending s (chain s H) → Forall (waiting_on H s) (chain s H) →
  Z.of_nat (length (chain s H)) < 2 ^ 31 →
  ∀ T t, T = taken file (idx_start_of start) (idx_end_of start count) s (chain s H) →
    t = snd (nfs_scan_list H dst file start count s) →
    fst (nfs_scan_list H dst file start count s) = Z.of_nat (length T)
    ∧ chain t dst = T
    ∧ Forall (in_flight t) T
    ∧ ascending t T ∧ ascending t (chain t H)
    ∧ NoDup (page_index t <$> (T ++ chain t H))
    ∧ T ++ chain t H ≡ₚ chain s H
    ∧ (∀ x, page_index t x = page_index s x)
    ∧ (∀ q, mem t !! q
            = if decide (q ∈ T) then Some (moved dst (deref s q)) else mem s !! q)
    ∧ (∀ q, q ∈ T →
         set_wb_list_head (Some H) (unlocked (moved dst (deref s q))) = deref s q
         ∧ mem s !! q = Some (deref s q))
    ∧ (∀ h, h ≠ dst → h ≠ H →
         chain t h = chain s h ∧ ∀ x, x ∈ chain t h → x ∉ T)
    ∧ writeback t = writeback s ∧ counts t = counts s.
Proof.
  intros Hne Hdst Hsm Hasc Hall Hlen T t HT Ht.
  rewrite Forall_forall in Hall.
  assert (Hhash : Forall (λ q, hashed s q = true) (chain s H)).
  { apply Forall_forall. intros q Hq. destruct (Hall q Hq) as (Hw & _).
    unfold hashed. by apply bool_decide_eq_true. }
  destruct (scan_list_spec H dst file start count s Hne Hdst Hasc Hhash Hlen)
    as (H1 & H2 & H3 & H4 & H5 & _).
  destruct (scan_fold_frame dst file (idx_start_of start) (idx_end_of start count)
              (chain s H) (0, s)) as [Hc Hn].
  fold (nfs_scan_list H dst file start count s) in Hc, Hn. cbn [snd] in Hc, Hn.
  rewrite <- Ht in *. rewrite <- HT in *.
  assert (HinT : ∀ q, q ∈ T ↔
            q ∈ chain s H
            ∧ scan_selects file (idx_start_of start) (idx_end_of start count) s q = true).
  { intros q. rewrite HT. unfold taken. rewrite list_elem_of_filter. tauto. }
  assert (Hlive : ∀ q, q ∈ T → mem s !! q = Some (deref s q)).
  { intros q [Hq _]%HinT. destruct (Hall q Hq) as (_ & _ & Hcnt).
    destruct (count_live s q) as [r Hr]; [lia|]. unfold deref. by rewrite Hr. }
  assert (Hmem : ∀ q, mem t !! q
            = if decide (q ∈ T) then Some (moved dst (deref s q)) else mem s !! q).
  { intros q. rewrite H4. destruct (decide (q ∈ T)) as [Hq|Hq].
    - rewrite decide_True by (by apply HinT). by rewrite (Hlive q Hq).
    - rewrite decide_False; [done|]. intros Hin. by apply Hq, HinT. }
  assert (Hidx : ∀ x, page_index t x = page_index s x).
  { intros x. unfold page_index. unfold deref at 1. rewrite Hmem.
    by destruct (decide (x ∈ T)). }
  assert (Hperm : T ++ chain t H ≡ₚ chain s H).
  { rewrite H2, HT. apply taken_left_behind. }
  split_and!; try done.
  - apply Forall_forall. intros q Hq. pose proof Hq as [Hq1 Hq2]%HinT.
    destruct (Hall q Hq1) as (Hw & _ & Hcnt). unfold in_flight.
    rewrite H5. split; [done|].
    assert (deref t q = moved dst (deref s q)) as ->.
    { unfold deref at 1. rewrite Hmem. by rewrite decide_True. }
    unfold moved, locked, NFS_WBACK_BUSY. destruct (deref s q).
    unfold set_wb_list_head, set_wb_count, set_wb_flags. simpl in *.
    rewrite busy_locked, u32_small by lia. unfold PG_BUSY. lia.
  - apply (ascending_ext s); [done|]. rewrite HT. unfold taken.
    by apply ascending_filter.
  - apply (ascending_ext s); [done|]. rewrite H2. unfold left_behind.
    by apply ascending_filter.
  - rewrite (list_fmap_ext (page_index t) (page_index s) _ (λ _ x _, Hidx x)).
    rewrite Hperm. by apply ascending_distinct.
  - intros q Hq. split; [|by apply Hlive]. pose proof Hq as [Hq1 Hq2]%HinT.
    destruct (Hall q Hq1) as (_ & Hh & Hcnt).
    apply moved_back; [done| |lia].
    unfold scan_selects in Hq2. cbv zeta in Hq2.
    apply andb_true_iff in Hq2 as [_ Hq2]. by apply Z.eqb_eq.
  - intros h Hh1 Hh2.
    assert (Hch : chain t h = chain s h).
    { apply Hc; [done|]. intros x Hx Hin. apply Hh2. by apply (Hsm x h H). }
    split; [done|]. intros x Hx [Hin _]%HinT. rewrite Hch in Hx.
    apply Hh2. by apply (Hsm x h H).
Qed.

(** Requests that a scan has taken and that are put back, unlocked, on
    the list they came from are what they were, and where they were. *)
Lemma requeue_restores H dst s t t' T :
  chain s dst = [] → ascending s (chain s H) →
  T ++ chain t H ≡ₚ chain s H →
  (∀ x, page_index t x = page_index s x) →
  (∀ q, mem t !! q
        = if decide (q ∈ T) then Some (moved dst (deref s q)) else mem s !! q) →
  (∀ q, q ∈ T →
     set_wb_list_head (Some H) (unlocked (moved dst (deref s q))) = deref s q
     ∧ mem s !! q = Some (deref s q)) →
  chain t' dst = [] → ascending t (chain t' H) → chain t' H ≡ₚ T ++ chain t H →
  (∀ q, mem t' !! q
        = if decide (q ∈ T)
          then Some (set_wb_list_head (Some H) (unlocked (deref t q)))
          else mem t !! q) →
  (∀ h, h ≠ dst → h ≠ H → chain t' h = chain s h) →
  mem t' = mem s ∧ ∀ h, chain t' h = chain s h.
Proof.
  intros Hdst Hasc Hperm Hidx Hmem Hback Hdst' Hasc' Hperm' Hmem' Hoth. split.
  - apply map_eq. intros q. rewrite Hmem'. destruct (decide (q ∈ T)) as [Hq|Hq].
    + assert (deref t q = moved dst (deref s q)) as ->.
      { unfold deref at 1. rewrite Hmem. by rewrite decide_True. }
      destruct (Hback q Hq) as [-> ->]. done.
    + rewrite Hmem. by rewrite decide_False.
  - intros h. destruct (decide (h = dst)) as [->|H1]; [by rewrite Hdst', Hdst|].
    destruct (decide (h = H)) as [->|H2]; [|by apply Hoth].
    apply (ascending_unique s); [|done|by rewrite Hperm', Hperm].
    apply (ascending_ext t); [|done]. intros x. by rewrite Hidx.
Qed.

(** A scan that selects nothing changes nothing. *)
Lemma scan_fold_nothing dst file i0 i1 L :
  ∀ pages s, taken file i0 i1 s L = [] →
    foldl (scan_step dst file i0 i1) (pages, s) L = (pages, s).
Proof.
  unfold taken. induction L as [|req L IH]; intros pages s HT; [done|]. cbn [foldl].
  destruct (scan_selects file i0 i1 s req) eqn:Esel.
  - by rewrite filter_cons_True in HT by done.
  - rewrite filter_cons_False in HT by (cbn beta; congruence).
    rewrite scan_step_skip by done. by apply IH.
Qed.

Lemma set_ndirty_id s : set_ndirty (ndirty s) s = s.
Proof. by destruct s. Qed.

Lemma set_ncommit_id s : set_ncommit (ncommit s) s = s.
Proof. by destruct s. Qed.

(** X22: when [nfs_writedata_alloc] fails at the first call,
    [nfs_flush_list] sends nothing and returns [-ENOMEM]; the list it was
    given is empty then, and each of its requests is unlocked, back on
    the dirty list at its place in page order, and counted in [ndirty]. *)
Theorem flush_list_no_memory fuel allocs rpc_execute head one_request wsize stable t :
  0 < ENOMEM → allocs 0%nat = None →
  head ≠ one_request → head ≠ I_DIRTY → one_request ≠ I_DIRTY →
  chain t head ≠ [] → chain t one_request = [] →
  Forall (in_flight t) (chain t head) →
  ascending t (chain t head) → ascending t (chain t I_DIRTY) →
  NoDup (page_index t <$> (chain t head ++ chain t I_DIRTY)) →
  (length (chain t head) < fuel)%nat →
  ∃ t', nfs_flush_list fuel allocs rpc_execute head one_request wsize stable t
        = Some (- ENOMEM, t')
    ∧ chain t' head = [] ∧ chain t' one_request = []
    ∧ ascending t (chain t' I_DIRTY)
    ∧ chain t' I_DIRTY ≡ₚ chain t head ++ chain t I_DIRTY
    ∧ (∀ q, mem t' !! q
            = if decide (q ∈ chain t head)
              then Some (set_wb_list_head (Some I_DIRTY) (unlocked (deref t q)))
              else mem t !! q)
    ∧ writeback t' = writeback t
    ∧ counts t' = Nat.iter (length (chain t head)) one_more_dirty (counts t).
Proof.
  intros HE Halloc Hho HhD HoD Hne Hone Hall Hasc HascD Hnd Hfuel.
  destruct (flush_list_no_memory_spec fuel allocs rpc_execute head one_request wsize
              stable t HE Halloc Hho HhD HoD Hne Hone Hall Hasc HascD Hnd Hfuel)
    as (t' & H1 & H2 & H3 & H4 & H5 & H6 & _ & H7 & H8).
  exists t'. by split_and!.
Qed.

(** X23: when [nfs_writedata_alloc] fails at the first call,
    [nfs_flush_file] returns [-ENOMEM] and leaves the inode as it found
    it: every request is what it was, unlocked and with the references it
    had, every list is what it was, the dirty list in its order, and the
    counters are what they were. *)
Theorem flush_file_no_memory fuel allocs rpc_execute head one_request wsize stable
    file start count s :
  0 < ENOMEM → allocs 0%nat = None →
  head ≠ one_request → head ≠ I_DIRTY → one_request ≠ I_DIRTY →
  chain s head = [] → chain s one_request = [] →
  single_membership s → ascending s (chain s I_DIRTY) →
  Forall (waiting_on I_DIRTY s) (chain s I_DIRTY) →
  Z.of_nat (length (chain s I_DIRTY)) < 2 ^ 31 →
  0 ≤ ndirty s < 2 ^ 32 →
  taken file (idx_start_of start) (idx_end_of start count) s (chain s I_DIRTY) ≠ [] →
  (length (chain s I_DIRTY) < fuel)%nat →
  ∃ s', nfs_flush_file fuel allocs rpc_execute head one_request wsize stable
          file start count s = Some (- ENOMEM, s')
    ∧ restored s s'.
Proof.
  intros HE Halloc Hho HhD HoD Hhead Hone Hsm Hasc Hall Hlen Hnd HT Hfuel.
  set (T := taken file (idx_start_of start) (idx_end_of start count) s (chain s I_DIRTY))
    in *.
  assert (HDh : I_DIRTY ≠ head) by done.
  destruct (scan_requeue_ready I_DIRTY head file start count s HDh Hhead Hsm Hasc Hall
              Hlen T _ eq_refl eq_refl)
    as (S1 & S2 & S3 & S4 & S5 & S6 & S7 & S8 & S9 & S10 & S11 & S12 & S13).
  unfold nfs_flush_file, nfs_scan_dirty.
  destruct (nfs_scan_list I_DIRTY head file start count s) as [pages t].
  cbn [fst snd] in *. subst pages.
  set (t1 := set_ndirty (u32 (ndirty t - Z.of_nat (length T))) t).
  assert (Hone1 : chain t one_request = []).
  { destruct (S11 one_request) as [-> _]; done. }
  assert (HlenT : (length T ≤ length (chain s I_DIRTY))%nat).
  { rewrite <- S7, length_app. lia. }
  assert (HT1 : chain t1 head ≠ []) by (change (chain t1 head) with (chain t head);
                                         by rewrite S2).
  assert (Hfuel1 : (length (chain t1 head) < fuel)%nat).
  { change (chain t1 head) with (chain t head). rewrite S2. lia. }
  assert (Hall1 : Forall (in_flight t1) (chain t1 head)).
  { change (chain t1 head) with (chain t head). by rewrite S2. }
  assert (Hasc1 : ascending t1 (chain t1 head)).
  { change (chain t1 head) with (chain t head). by rewrite S2. }
  assert (Hnd1 : NoDup (page_index t1 <$> (chain t1 head ++ chain t1 I_DIRTY))).
  { change (chain t1 head) with (chain t head). by rewrite S2. }
  destruct (flush_list_no_memory_spec fuel allocs rpc_execute head one_request wsize
              stable t1 HE Halloc Hho HhD HoD HT1 Hone1 Hall1 Hasc1 S5 Hnd1 Hfuel1)
    as (t' & F1 & F2 & F3 & F4 & F5 & F6 & F7 & F8 & F9).
  change (chain t1 head) with (chain t head) in *. rewrite S2 in *.
  exists t'. split.
  - destruct (Z.eqb_spec (Z.of_nat (length T)) 0) as [E|_].
    + destruct T; [done|simpl in E; lia].
    + rewrite F1. by destruct (Z.ltb_spec (- ENOMEM) 0) as [_|]; [|lia].
  - destruct (requeue_restores I_DIRTY head s t t' T) as [R1 R2]; try done.
    { intros h H1 H2. destruct (decide (h = one_request)) as [->|H3];
        [by rewrite F3, Hone|].
      destruct (S11 h H1 H2) as [E Hd]. rewrite <- E. by apply F7. }
    unfold restored. split_and!; [done|done|by rewrite F8|].
    rewrite F9. unfold counts in *. cbn [npages ndirty ncommit f_error nfs_nr_requests t1
                                           set_ndirty].
    injection S13 as -> -> -> -> ->. rewrite iter_one_more_dirty.
    do 3 f_equal. f_equal. rewrite <- (u32_small (ndirty s)) at 2 by done. f_equal. lia.
Qed.

(** X24: [nfs_flush_file] that finds no request to flush returns [0]
    and leaves the state as it is; it allocates nothing and sends
    nothing. *)
Theorem flush_file_nothing_to_do fuel allocs rpc_execute head one_request wsize stable
    file start count s :
  taken file (idx_start_of start) (idx_end_of start count) s (chain s I_DIRTY) = [] →
  0 ≤ ndirty s < 2 ^ 32 →
  nfs_flush_file fuel allocs rpc_execute head one_request wsize stable
    file start count s = Some (0, s).
Proof.
  intros HT Hnd. unfold nfs_flush_file, nfs_scan_dirty, nfs_scan_list.
  rewrite scan_fold_nothing by done. cbn [Z.eqb].
  rewrite Z.sub_0_r, u32_small by done. by rewrite set_ndirty_id.
Qed.

(** X25: when [nfs_writedata_alloc] fails, [nfs_commit_file] returns
    [-ENOMEM] and leaves the inode as it found it: every request is what
    it was, unlocked and with the references it had, every list is what
    it was, the commit list in its order, and the counters are what they
    were. *)
Theorem commit_file_no_memory fuel rpc_execute head i_size file start count s :
  0 < ENOMEM → head ≠ I_COMMIT → chain s head = [] →
  single_membership s → ascending s (chain s I_COMMIT) →
  Forall (waiting_on I_COMMIT s) (chain s I_COMMIT) →
  Z.of_nat (length (chain s I_COMMIT)) < 2 ^ 31 →
  0 ≤ ncommit s < 2 ^ 32 →
  taken file (idx_start_of start) (idx_end_of start count) s (chain s I_COMMIT) ≠ [] →
  (length (chain s I_COMMIT) < fuel)%nat →
  ∃ s', nfs_commit_file fuel None rpc_execute head i_size file start count s
        = Some (- ENOMEM, s')
    ∧ restored s s'.
Proof.
  intros HE HhC Hhead Hsm Hasc Hall Hlen Hnc HT Hfuel.
  set (T := taken file (idx_start_of start) (idx_end_of start count) s (chain s I_COMMIT))
    in *.
  assert (HCh : I_COMMIT ≠ head) by done.
  destruct (scan_requeue_ready I_COMMIT head file start count s HCh Hhead Hsm Hasc Hall
              Hlen T _ eq_refl eq_refl)
    as (S1 & S2 & S3 & S4 & S5 & S6 & S7 & S8 & S9 & S10 & S11 & S12 & S13).
  unfold nfs_commit_file, nfs_scan_commit.
  destruct (nfs_scan_list I_COMMIT head file start count s) as [pages t].
  cbn [fst snd] in *. subst pages.
  set (t1 := set_ncommit (u32 (ncommit t - Z.of_nat (length T))) t).
  assert (HlenT : (length T ≤ length (chain s I_COMMIT))%nat).
  { rewrite <- S7, length_app. lia. }
  assert (Hfuel1 : (length (chain t1 head) < fuel)%nat).
  { change (chain t1 head) with (chain t head). rewrite S2. lia. }
  assert (Hall1 : Forall (in_flight t1) (chain t1 head)).
  { change (chain t1 head) with (chain t head). by rewrite S2. }
  assert (Hnd1 : NoDup (page_index t1 <$> (chain t1 head ++ chain t1 I_COMMIT))).
  { change (chain t1 head) with (chain t head). by rewrite S2. }
  destruct (drain_requeue_all nfs_mark_request_commit I_COMMIT head recommit_req
              one_more_commit (λ q u, eq_refl) mark_commit_as_add counts_recommit HhC
              fuel t1 Hall1 S5 Hnd1 Hfuel1)
    as (t' & F1 & F2 & F4 & F5 & F6 & F7 & F8 & F9).
  change (chain t1 head) with (chain t head) in *. rewrite S2 in *.
  exists t'. split.
  - destruct (Z.eqb_spec (Z.of_nat (length T)) 0) as [E|_].
    + destruct T; [done|simpl in E; lia].
    + unfold nfs_commit_list. rewrite F1.
      by destruct (Z.ltb_spec (- ENOMEM) 0) as [_|]; [|lia].
  - destruct (requeue_restores I_COMMIT head s t t' T) as [R1 R2]; try done.
    { intros h H1 H2. destruct (S11 h H1 H2) as [E Hd]. rewrite <- E.
      rewrite F7 by done. apply filter_all. intros x Hx. by apply Hd. }
    unfold restored. split_and!; [done|done|by rewrite F8|].
    rewrite F9. unfold counts in *. cbn [npages ndirty ncommit f_error nfs_nr_requests t1
                                           set_ncommit].
    injection S13 as -> -> -> -> ->. rewrite iter_one_more_commit.
    do 2 f_equal. f_equal. rewrite <- (u32_small (ncommit s)) at 2 by done. f_equal. lia.
Qed.

(** *** Sending a list of requests *)

Lemma write_rpcsetup_loop_frame src pages :
  ∀ fuel iov count nriov s r,
    write_rpcsetup_loop fuel src pages iov count nriov s = Some r →
    ∀ h, h ≠ pages → (∀ x, x ∈ chain s h → x ∉ chain s src) →
      chain (snd r) h = chain s h.
Proof.
  intros fuel. induction fuel as [|fuel IH]; intros iov count nriov s r Hr; [done|].
  cbn [write_rpcsetup_loop] in Hr. destruct (chain s src) as [|req rest] eqn:Hsrc;
    [by simplify_eq|].
  cbv zeta in Hr.
  set (s1 := nfs_list_add_request req pages (nfs_list_remove_request req s)) in *.
  intros h Hh Hd.
  assert (Hc1 : chain s1 h = chain s h).
  { unfold s1. rewrite chain_move_src by done.
    apply filter_ne_id. intros Hin. apply (Hd _ Hin), list_elem_of_here. }
  assert (Hsub : ∀ x, x ∈ chain s1 src → x ∈ req :: rest).
  { intros x Hx. destruct (decide (src = pages)) as [->|Hne].
    - unfold s1 in Hx. apply elem_of_chain_add in Hx as [Hx|(-> & _)];
        [|apply list_elem_of_here].
      rewrite chain_remove, list_elem_of_filter, Hsrc in Hx. tauto.
    - unfold s1 in Hx. rewrite chain_move_src, list_elem_of_filter, Hsrc in Hx by done.
      tauto. }
  rewrite (IH _ _ _ _ _ Hr h Hh); [done|].
  intros x Hx Hin. rewrite Hc1 in Hx. by apply (Hd x Hx), Hsub.
Qed.

Lemma write_rpcsetup_frame fuel src pages s c s' :
  nfs_write_rpcsetup fuel src pages s = Some (c, s') →
  ∀ h, h ≠ pages → (∀ x, x ∈ chain s h → x ∉ chain s src) → chain s' h = chain s h.
Proof.
  unfold nfs_write_rpcsetup. intros Hr.
  destruct (write_rpcsetup_loop fuel src pages [] 0 0 s) as [[[[iov cnt] nr] s1]|] eqn:E;
    [|done].
  pose proof (write_rpcsetup_loop_frame _ _ _ _ _ _ _ _ E) as Hf. cbn [snd] in Hf.
  destruct (chain s1 pages); [done|]. by simplify_eq.
Qed.

Lemma same_requests_queued rpc_execute c u :
  queues_call rpc_execute → same_requests u (rpc_execute c u).
Proof.
  intros Hq. destruct (Hq c u) as (Hm & _ & Hw). split; [done|].
  intros q. unfold deref. by rewrite Hm.
Qed.

Lemma chain_queued rpc_execute c u h :
  queues_call rpc_execute → chain (rpc_execute c u) h = chain u h.
Proof. intros Hq. destruct (Hq c u) as (_ & Hl & _). unfold chain. by rewrite Hl. Qed.

(** The first loop of [nfs_flush_list] when every call gets its data. *)
Lemma flush_list_loop_sends allocs pages_of rpc_execute head one_request wpages stable :
  head ≠ one_request → 0 ≤ wpages < 2 ^ 32 → queues_call rpc_execute →
  (∀ n, allocs n = Some (pages_of n)
        ∧ pages_of n ≠ head ∧ pages_of n ≠ one_request
        ∧ ∀ m, pages_of m = pages_of n → m = n) →
  ∀ fuel n pages t,
    chain t one_request = [] → ascending t (chain t head) →
    (∀ q, q ∈ chain t head → hashed t q = true) →
    (∀ m, (n ≤ m)%nat → chain t (pages_of m) = []) →
    0 ≤ pages < 2 ^ 32 →
    (length (chain t head) < fuel)%nat →
    ∃ k t',
      flush_list_loop fuel allocs n rpc_execute head one_request wpages stable pages t
      = Some (0, u32 (pages + Z.of_nat (length (chain t head))), t')
      ∧ chain t' head = [] ∧ chain t' one_request = []
      ∧ same_requests t t'
      ∧ sent pages_of n k t' = chain t head
      ∧ (∀ m, (n ≤ m < n + k)%nat →
           chain t' (pages_of m) ≠ []
           ∧ Z.of_nat (length (chain t' (pages_of m))) ≤ Z.max 1 wpages)
      ∧ (∀ h, h ≠ head → h ≠ one_request →
           (∀ m, (n ≤ m < n + k)%nat → h ≠ pages_of m) →
           (∀ x, x ∈ chain t h → x ∉ chain t head) → chain t' h = chain t h).
Proof.
  intros Hho Hw Hq HP fuel. induction fuel as [|fuel IH];
    intros n pages t Hone Hasc Hhash Hfree Hpg Hfuel; [lia|].
  destruct (coalesce_spec (S fuel) t head one_request wpages Hho Hone Hw Hasc Hhash)
    as (B & R & s1 & Hco & Hsplit & Hd1 & Hr1 & Hs1 & Hmax & HB & _); [lia|].
  pose proof Hco as Hco'. unfold coalesce_requests in Hco'.
  destruct (coalesce_loop_frame _ _ _ _ _ _ _ _ Hco') as (_ & Hc1 & _).
  cbn [snd] in Hc1. cbn [flush_list_loop].
  destruct (chain t head) as [|a L] eqn:Hh.
  { exists 0%nat, t. cbn [length Z.of_nat]. rewrite Z.add_0_r, u32_small by done.
    split_and!; try done. intros m Hm. lia. }
  destruct B as [|b B']; [by specialize (HB eq_refl)|].
  assert (Hnd : NoDup ((b :: B') ++ R)).
  { rewrite <- Hsplit. eapply NoDup_fmap_1. by apply (ascending_distinct t). }
  apply NoDup_app in Hnd as (_ & HBR & _).
  destruct (HP n) as (Ha & Hp1 & Hp2 & Hinj).
  assert (Hp2' : one_request ≠ pages_of n) by done.
  assert (Hnil1 : chain s1 (pages_of n) = []).
  { rewrite Hc1; [by apply Hfree|done|]. intros x Hx. rewrite Hfree in Hx by done.
    by apply elem_of_nil in Hx. }
  destruct (write_rpcsetup_spec (S fuel) one_request (pages_of n) s1) with (first := b)
    as (s2 & Hrun & Hsrc2 & Hpg2 & Hs2); try done.
  { rewrite Hd1. apply (ascending_same t); [done|]. rewrite Hsplit in Hasc.
    by apply StronglySorted_app_1_l in Hasc. }
  { rewrite Hd1. apply Forall_forall. intros q Hq1. rewrite (same_hashed _ _ Hs1).
    apply Hhash. rewrite Hsplit. apply elem_of_app. by left. }
  { rewrite Hd1. apply (f_equal length) in Hsplit. rewrite length_app in Hsplit.
    simpl in *. lia. }
  { by rewrite Hd1. }
  pose proof (write_rpcsetup_frame _ _ _ _ _ _ Hrun) as Hc2.
  rewrite Hd1 in Hc2, Hpg2, Hrun.
  rewrite Hco. unfold nfs_flush_one. rewrite Ha, Hrun. cbv zeta.
  match goal with |- context [rpc_execute ?c s2] => set (c' := c) end.
  set (t2 := rpc_execute c' s2).
  change (0 <? 0) with false. cbv iota.
  assert (Hs2' : same_requests t t2).
  { eapply same_requests_trans; [exact Hs1|].
    eapply same_requests_trans; [exact Hs2|]. by apply same_requests_queued. }
  assert (Hhead2 : chain t2 head = R).
  { unfold t2. rewrite chain_queued by done. rewrite Hc2; [done|done|].
    rewrite Hr1. intros x Hx Hin. by apply (HBR x Hin). }
  destruct (IH (S n) (u32 (pages + Z.of_nat (length (b :: B')))) t2)
    as (k & t' & Hrun' & Hh' & Ho' & Hs' & Hsent' & Hbound' & Hfr').
  { unfold t2. by rewrite chain_queued. }
  { rewrite Hhead2. apply (ascending_same t); [done|]. rewrite Hsplit in Hasc.
    by apply StronglySorted_app_1_r in Hasc. }
  { intros q Hq1. rewrite Hhead2 in Hq1. rewrite (same_hashed _ _ Hs2').
    apply Hhash. rewrite Hsplit. apply elem_of_app. by right. }
  { intros m Hm. unfold t2. rewrite chain_queued by done.
    destruct (HP m) as (_ & Hm1 & Hm2 & _).
    assert (pages_of m ≠ pages_of n) by (intros E; apply Hinj in E; lia).
    rewrite Hc2; [|done|].
    - rewrite Hc1; [apply Hfree; lia|done|]. intros x Hx.
      rewrite Hfree in Hx by lia. by apply elem_of_nil in Hx.
    - intros x Hx. rewrite Hc1 in Hx; [|done|].
      + rewrite Hfree in Hx by lia. by apply elem_of_nil in Hx.
      + intros y Hy. rewrite Hfree in Hy by lia. by apply elem_of_nil in Hy. }
  { apply u32_range. }
  { rewrite Hhead2. apply (f_equal length) in Hsplit. rewrite length_app in Hsplit.
    simpl in *. lia. }
  assert (Hpn : chain t' (pages_of n) = b :: B').
  { rewrite Hfr'; try done.
    - unfold t2. by rewrite chain_queued.
    - intros m Hm E. symmetry in E. apply Hinj in E. lia.
    - unfold t2 at 1. rewrite chain_queued, Hpg2, Hhead2 by done.
      intros x Hx Hin. by apply (HBR x Hx). }
  exists (S k), t'. split_and!.
  - rewrite Hrun'. rewrite Hhead2, u32_add_l. do 3 f_equal.
    apply (f_equal length) in Hsplit. rewrite length_app in Hsplit.
    f_equal. lia.
  - done.
  - done.
  - by eapply same_requests_trans.
  - unfold sent in *. cbn [seq fmap list_fmap concat]. rewrite Hpn.
    change (list_fmap _ _ ?f ?l) with (f <$> l). rewrite Hsent', Hhead2. done.
  - intros m Hm. destruct (decide (m = n)) as [->|Hmn].
    + rewrite Hpn. split; [done|]. exact Hmax.
    + apply Hbound'. lia.
  - intros h H1 H2 H3 Hd.
    assert (Hh1 : chain s1 h = chain t h) by (by apply Hc1).
    assert (HdB : ∀ x, x ∈ chain t h → x ∉ b :: B').
    { intros x Hx Hin. apply (Hd x Hx). rewrite Hsplit. apply elem_of_app. by left. }
    assert (HdR : ∀ x, x ∈ chain t h → x ∉ R).
    { intros x Hx Hin. apply (Hd x Hx). rewrite Hsplit. apply elem_of_app. by right. }
    assert (Hh2 : chain t2 h = chain t h).
    { unfold t2. rewrite chain_queued by done.
      rewrite Hc2, Hh1; [done|apply H3; lia|]. by rewrite Hh1. }
    rewrite Hfr'; try done.
    + intros m Hm. apply H3. lia.
    + by rewrite Hh2, Hhead2.
Qed.

(** [nfs_flush_list] when every call gets its data. *)
Lemma flush_list_sends_spec fuel allocs pages_of rpc_execute head one_request wsize
    stable t :
  head ≠ one_request → queues_call rpc_execute →
  fresh_data allocs pages_of head one_request t →
  chain t one_request = [] → ascending t (chain t head) →
  (∀ q, q ∈ chain t head → hashed t q = true) →
  Z.of_nat (length (chain t head)) < 2 ^ 31 →
  (length (chain t head) < fuel)%nat →
  ∃ k t',
    nfs_flush_list fuel allocs rpc_execute head one_request wsize stable t
    = Some (Z.of_nat (length (chain t head)), t')
    ∧ chain t' head = [] ∧ chain t' one_request = []
    ∧ same_requests t t'
    ∧ sent pages_of 0 k t' = chain t head
    ∧ (∀ m, (m < k)%nat →
         chain t' (pages_of m) ≠ []
         ∧ Z.of_nat (length (chain t' (pages_of m)))
           ≤ Z.max 1 (u32 (Z.shiftr wsize PAGE_CACHE_SHIFT)))
    ∧ (∀ h, h ≠ head → h ≠ one_request → (∀ m, h ≠ pages_of m) →
         (∀ x, x ∈ chain t h → x ∉ chain t head) → chain t' h = chain t h).
Proof.
  intros Hho Hq HP Hone Hasc Hhash Hlen Hfuel.
  destruct (flush_list_loop_sends allocs pages_of rpc_execute head one_request
              (u32 (Z.shiftr wsize PAGE_CACHE_SHIFT)) stable Hho (u32_range _) Hq)
    with (fuel := fuel) (n := 0%nat) (pages := 0) (t := t)
    as (k & t' & Hrun & H1 & H2 & H3 & H4 & H5 & H6); try done.
  { intros n. destruct (HP n) as (? & ? & ? & _ & ?). by split_and!. }
  { intros m _. by destruct (HP m) as (_ & _ & _ & ? & _). }
  exists k, t'. split_and!; try done.
  - unfold nfs_flush_list. rewrite Hrun. change (0 <=? 0) with true. cbv iota.
    rewrite Z.add_0_l, u32_small, s32_small by lia. done.
  - intros m Hm. apply H5. lia.
  - intros h Hh1 Hh2 Hh3 Hd. by apply H6.
Qed.

(** X26: with memory for every call and an RPC layer that queues the
    calls, [nfs_flush_list] hands every request of the list to a call
    and returns their number: the [pages] lists of the calls, one after
    the other, are the list it was given, no request is lost, sent twice
    or out of order, and no call is empty or has more than the pages of
    one [wsize], or more than one where that is less than a page. *)
Theorem flush_list_sends_all fuel allocs pages_of rpc_execute head one_request wsize
    stable t :
  head ≠ one_request → queues_call rpc_execute →
  fresh_data allocs pages_of head one_request t →
  chain t one_request = [] → ascending t (chain t head) →
  (∀ q, q ∈ chain t head → hashed t q = true) →
  Z.of_nat (length (chain t head)) < 2 ^ 31 →
  (length (chain t head) < fuel)%nat →
  ∃ k t',
    nfs_flush_list fuel allocs rpc_execute head one_request wsize stable t
    = Some (Z.of_nat (length (chain t head)), t')
    ∧ chain t' head = [] ∧ chain t' one_request = []
    ∧ same_requests t t'
    ∧ sent pages_of 0 k t' = chain t head
    ∧ ∀ m, (m < k)%nat →
        chain t' (pages_of m) ≠ []
        ∧ Z.of_nat (length (chain t' (pages_of m)))
          ≤ Z.max 1 (u32 (Z.shiftr wsize PAGE_CACHE_SHIFT)).
Proof.
  intros Hho Hq HP Hone Hasc Hhash Hlen Hfuel.
  destruct (flush_list_sends_spec fuel allocs pages_of rpc_execute head one_request wsize
              stable t Hho Hq HP Hone Hasc Hhash Hlen Hfuel)
    as (k & t' & H1 & H2 & H3 & H4 & H5 & H6 & _).
  exists k, t'. by split_and!.
Qed.

(** X27: with memory for every call and an RPC layer that queues the
    calls, [nfs_flush_file] returns the number of requests the scan
    selects; these are in flight, in page order on the [pages] lists of
    the calls, and the dirty list keeps the others, in their order. *)
Theorem flush_file_sends_all fuel allocs pages_of rpc_execute head one_request wsize
    stable file start count s :
  head ≠ one_request → head ≠ I_DIRTY → one_request ≠ I_DIRTY →
  (∀ n, pages_of n ≠ I_DIRTY) →
  queues_call rpc_execute → fresh_data allocs pages_of head one_request s →
  chain s head = [] → chain s one_request = [] →
  single_membership s → ascending s (chain s I_DIRTY) →
  Forall (waiting_on I_DIRTY s) (chain s I_DIRTY) →
  Z.of_nat (length (chain s I_DIRTY)) < 2 ^ 31 →
  (length (chain s I_DIRTY) < fuel)%nat →
  ∃ k s',
    nfs_flush_file fuel allocs rpc_execute head one_request wsize stable
      file start count s
    = Some (Z.of_nat (length (taken file (idx_start_of start) (idx_end_of start count) s
                                (chain s I_DIRTY))), s')
    ∧ sent pages_of 0 k s'
      = taken file (idx_start_of start) (idx_end_of start count) s (chain s I_DIRTY)
    ∧ (∀ m, (m < k)%nat →
         chain s' (pages_of m) ≠ []
         ∧ Z.of_nat (length (chain s' (pages_of m)))
           ≤ Z.max 1 (u32 (Z.shiftr wsize PAGE_CACHE_SHIFT)))
    ∧ chain s' I_DIRTY
      = left_behind file (idx_start_of start) (idx_end_of start count) s (chain s I_DIRTY)
    ∧ chain s' head = [] ∧ chain s' one_request = []
    ∧ Forall (in_flight s')
        (taken file (idx_start_of start) (idx_end_of start count) s (chain s I_DIRTY)).
Proof.
  intros Hho HhD HoD HpD Hq HP Hhead Hone Hsm Hasc Hall Hlen Hfuel.
  set (T := taken file (idx_start_of start) (idx_end_of start count) s (chain s I_DIRTY))
    in *.
  assert (HDh : I_DIRTY ≠ head) by done.
  destruct (scan_requeue_ready I_DIRTY head file start count s HDh Hhead Hsm Hasc Hall
              Hlen T _ eq_refl eq_refl)
    as (S1 & S2 & S3 & S4 & S5 & S6 & S7 & S8 & S9 & S10 & S11 & S12 & S13).
  assert (Hhash : Forall (λ q, hashed s q = true) (chain s I_DIRTY)).
  { eapply Forall_impl; [exact Hall|]. intros q (Hw & _). unfold hashed.
    by apply bool_decide_eq_true. }
  destruct (scan_list_spec I_DIRTY head file start count s HDh Hhead Hasc Hhash Hlen)
    as (_ & L2 & _).
  fold T in L2. unfold nfs_flush_file, nfs_scan_dirty.
  destruct (nfs_scan_list I_DIRTY head file start count s) as [pages t].
  cbn [fst snd] in *. subst pages.
  set (t1 := set_ndirty (u32 (ndirty t - Z.of_nat (length T))) t).
  assert (Hone1 : chain t1 one_request = []).
  { change (chain t1 one_request) with (chain t one_request).
    destruct (S11 one_request) as [-> _]; done. }
  destruct (Z.eqb_spec (Z.of_nat (length T)) 0) as [E|E].
  { assert (T = []) as HT by (destruct T; [done|simpl in E; lia]).
    exists 0%nat, t1. rewrite HT in *. split_and!; try done.
    intros m Hm. lia. }
  assert (HlenT : (length T ≤ length (chain s I_DIRTY))%nat).
  { rewrite <- S7, length_app. lia. }
  destruct (flush_list_sends_spec fuel allocs pages_of rpc_execute head one_request wsize
              stable t1)
    as (k & s' & F1 & F2 & F3 & F4 & F5 & F6 & F7); try done.
  { intros n. destruct (HP n) as (A1 & A2 & A3 & A4 & A5). split_and!; try done.
    change (chain t1 (pages_of n)) with (chain t (pages_of n)).
    destruct (S11 (pages_of n)) as [-> _]; done. }
  { change (chain t1 head) with (chain t head). by rewrite S2. }
  { change (chain t1 head) with (chain t head). rewrite S2. intros q Hq1.
    rewrite Forall_forall in S3. destruct (S3 q Hq1) as (Hw & _).
    unfold hashed. by apply bool_decide_eq_true. }
  { change (chain t1 head) with (chain t head). rewrite S2. lia. }
  { change (chain t1 head) with (chain t head). rewrite S2. lia. }
  change (chain t1 head) with (chain t head) in *. rewrite S2 in *.
  exists k, s'. split_and!; try done.
  - rewrite F1. destruct (Z.ltb_spec (Z.of_nat (length T)) 0); [lia|done].
  - rewrite F7; try done. intros x Hx Hin.
    apply NoDup_fmap_1 in S6. apply NoDup_app in S6 as (_ & S6 & _).
    by apply (S6 x Hin).
  - eapply Forall_impl; [exact S3|]. intros q Hq1. by apply (same_in_flight t1).
Qed.

Lemma commit_rpcsetup_loop_frame src pages :
  ∀ fuel start end_ s r,
    commit_rpcsetup_loop fuel src pages start end_ s = Some r →
    ∀ h, h ≠ pages → (∀ x, x ∈ chain s h → x ∉ chain s src) →
      chain (snd r) h = chain s h.
Proof.
  intros fuel. induction fuel as [|fuel IH]; intros start end_ s r Hr; [done|].
  cbn [commit_rpcsetup_loop] in Hr. destruct (chain s src) as [|req rest] eqn:Hsrc;
    [by simplify_eq|].
  cbv zeta in Hr.
  set (s1 := nfs_list_add_request req pages (nfs_list_remove_request req s)) in *.
  intros h Hh Hd.
  assert (Hc1 : chain s1 h = chain s h).
  { unfold s1. rewrite chain_move_src by done.
    apply filter_ne_id. intros Hin. apply (Hd _ Hin), list_elem_of_here. }
  assert (Hsub : ∀ x, x ∈ chain s1 src → x ∈ req :: rest).
  { intros x Hx. destruct (decide (src = pages)) as [->|Hne].
    - unfold s1 in Hx. apply elem_of_chain_add in Hx as [Hx|(-> & _)];
        [|apply list_elem_of_here].
      rewrite chain_remove, list_elem_of_filter, Hsrc in Hx. tauto.
    - unfold s1 in Hx. rewrite chain_move_src, list_elem_of_filter, Hsrc in Hx by done.
      tauto. }
  rewrite (IH _ _ _ _ Hr h Hh); [done|].
  intros x Hx Hin. rewrite Hc1 in Hx. by apply (Hd x Hx), Hsub.
Qed.

Lemma in_file_moved dst s t q :
  deref t q = moved dst (deref s q) → in_file s q → in_file t q.
Proof.
  unfold in_file, rq_end, rq_start. intros ->. by destruct (deref s q).
Qed.

(** X28: with memory for the call and an RPC layer that queues it,
    [nfs_commit_file] returns the number of requests the scan selects;
    these are in flight, in page order on the [pages] list of the one
    call, and the commit list keeps the others, in their order. *)
Theorem commit_file_sends_all fuel pages rpc_execute head i_size file start count s :
  head ≠ I_COMMIT → pages ≠ head → pages ≠ I_COMMIT →
  queues_call rpc_execute →
  chain s head = [] → chain s pages = [] →
  single_membership s → ascending s (chain s I_COMMIT) →
  Forall (waiting_on I_COMMIT s) (chain s I_COMMIT) →
  Forall (in_file s) (chain s I_COMMIT) →
  Z.of_nat (length (chain s I_COMMIT)) < 2 ^ 31 →
  (length (chain s I_COMMIT) < fuel)%nat →
  ∃ s',
    nfs_commit_file fuel (Some pages) rpc_execute head i_size file start count s
    = Some (Z.of_nat (length (taken file (idx_start_of start) (idx_end_of start count) s
                                (chain s I_COMMIT))), s')
    ∧ chain s' pages
      = taken file (idx_start_of start) (idx_end_of start count) s (chain s I_COMMIT)
    ∧ chain s' I_COMMIT
      = left_behind file (idx_start_of start) (idx_end_of start count) s
          (chain s I_COMMIT)
    ∧ chain s' head = []
    ∧ Forall (in_flight s')
        (taken file (idx_start_of start) (idx_end_of start count) s (chain s I_COMMIT)).
Proof.
  intros HhC Hph HpC Hq Hhead Hpages Hsm Hasc Hall Hfile Hlen Hfuel.
  set (T := taken file (idx_start_of start) (idx_end_of start count) s (chain s I_COMMIT))
    in *.
  assert (HCh : I_COMMIT ≠ head) by done.
  destruct (scan_requeue_ready I_COMMIT head file start count s HCh Hhead Hsm Hasc Hall
              Hlen T _ eq_refl eq_refl)
    as (S1 & S2 & S3 & S4 & S5 & S6 & S7 & S8 & S9 & S10 & S11 & S12 & S13).
  assert (Hhash : Forall (λ q, hashed s q = true) (chain s I_COMMIT)).
  { eapply Forall_impl; [exact Hall|]. intros q (Hw & _). unfold hashed.
    by apply bool_decide_eq_true. }
  destruct (scan_list_spec I_COMMIT head file start count s HCh Hhead Hasc Hhash Hlen)
    as (_ & L2 & _).
  fold T in L2. unfold nfs_commit_file, nfs_scan_commit.
  destruct (nfs_scan_list I_COMMIT head file start count s) as [n t].
  cbn [fst snd] in *. subst n.
  set (t1 := set_ncommit (u32 (ncommit t - Z.of_nat (length T))) t).
  assert (Hp1 : chain t1 pages = []).
  { change (chain t1 pages) with (chain t pages). destruct (S11 pages) as [-> _]; done. }
  destruct (Z.eqb_spec (Z.of_nat (length T)) 0) as [E|E].
  { assert (T = []) as HT by (destruct T; [done|simpl in E; lia]).
    exists t1. rewrite HT in *. by split_and!. }
  assert (HlenT : (length T ≤ length (chain s I_COMMIT))%nat).
  { rewrite <- S7, length_app. lia. }
  assert (Hhp : head ≠ pages) by done.
  destruct (commit_rpcsetup_loop_spec head pages t1 Hhp T fuel [] (u32 (Z.lnot 0)) 0 t1)
    as (start' & end' & s2 & Hrun & Hh2 & Hp2 & Hs2 & _); try done.
  { apply Forall_forall. intros q Hq1. rewrite Forall_forall in S3.
    destruct (S3 q Hq1) as (Hw & _). split.
    - unfold hashed. by apply bool_decide_eq_true.
    - apply (in_file_moved head s).
      + unfold deref at 1. change (mem t1) with (mem t). rewrite S9.
        by rewrite decide_True.
      + rewrite Forall_forall in Hfile. apply Hfile.
        rewrite <- S7. apply elem_of_app. by left. }
  { lia. }
  pose proof (commit_rpcsetup_loop_frame _ _ _ _ _ _ _ Hrun I_COMMIT) as Hfr.
  cbn [snd app] in Hfr, Hp2.
  unfold nfs_commit_list, nfs_commit_rpcsetup.
  change (chain t1 head) with (chain t head). rewrite S2.
  destruct T as [|a T'] eqn:HT; [done|]. rewrite <- HT in *.
  change (commit_rpcsetup_loop fuel head pages (u32 (Z.lnot 0)) 0 t)
    with (commit_rpcsetup_loop fuel head pages (u32 (Z.lnot 0)) 0 t1).
  rewrite Hrun. cbv zeta.
  match goal with |- context [rpc_execute ?c s2] => set (c' := c) end.
  exists (rpc_execute c' s2). change (0 <? 0) with false. cbv iota.
  rewrite !chain_queued by done. split_and!; try done.
  - rewrite Hfr; [done|done|].
    change (chain t1 I_COMMIT) with (chain t I_COMMIT).
    change (chain t1 head) with (chain t head). rewrite S2.
    intros x Hx Hin. apply NoDup_fmap_1 in S6. apply NoDup_app in S6 as (_ & S6 & _).
    by apply (S6 x Hin).
  - eapply Forall_impl; [exact S3|]. intros q Hq1.
    apply (same_in_flight s2); [by apply same_requests_queued|].
    by apply (same_in_flight t1).
Qed.
End Write.

(** ** The properties at work

    The theorems above at the example states, with a page of 4096 bytes,
    the admission limits 192 and 256, [NFS_UNSTABLE] = 0 and NFSv3
    compiled in; and the places where the code does something else than
    the design document says. *)

(** A decidable side condition, by evaluation. *)
Ltac by_evaluation :=
  unfold ascending; apply (bool_decide_unpack _); vm_compute; exact I.

Lemma ex_idle_single : single_membership ex_idle.
Proof.
  intros req h1 h2 H. unfold chain in H. simpl in H.
  rewrite lookup_total_empty in H. by apply elem_of_nil in H.
Qed.


(** C1 at [ex_two_pages]: both requests go into one batch. *)
Lemma coalesce_requests_batches_witness :
  ∃ batch rest s',
    coalesce_requests 4096 3 5%positive 6%positive 8 ex_two_pages
    = Some (Z.of_nat (length batch), s')
    ∧ chain ex_two_pages 5%positive = batch ++ rest
    ∧ chain s' 6%positive = batch ∧ chain s' 5%positive = rest
    ∧ (∀ i a b, batch !! i = Some a → batch !! S i = Some b →
         page_index ex_two_pages b = page_index ex_two_pages a + 1)
    ∧ Z.of_nat (length batch) ≤ Z.max 1 8
    ∧ (chain ex_two_pages 5%positive ≠ [] → batch ≠ [])
    ∧ (∀ a b, last batch = Some a → head rest = Some b →
         Z.of_nat (length batch) < 8 →
         page_index ex_two_pages b ≠ page_index ex_two_pages a + 1
         ∨ wb_offset (deref ex_two_pages b) ≠ 0
         ∨ ¬ to_page_end 4096 ex_two_pages a).
Proof.
  apply (coalesce_requests_batches 4096 3 ex_two_pages 5%positive 6%positive 8 7).
  - done.
  - reflexivity.
  - lia.
  - by_evaluation.
  - by_evaluation.
  - vm_compute. lia.
Defined.

(** C1 fails as stated: with [maxpages] 0 the batch holds one request,
    which is more than [maxpages]; and a request that stops short of the
    end of its page closes the batch although the next request is for
    the following page of the same file and [maxpages] is 8, so the batch
    is not a maximal run of contiguous pages. *)
Lemma coalesce_requests_batches_counterexample :
  batch_of 6%positive (coalesce_requests 4096 3 5%positive 6%positive 0 ex_two_pages)
  = Some [10%positive]
  ∧ batch_of 6%positive (coalesce_requests 4096 3 5%positive 6%positive 8 ex_short_first)
    = Some [10%positive]
  ∧ chain ex_short_first 5%positive = [10%positive; 11%positive]
  ∧ page_index ex_short_first 11%positive = page_index ex_short_first 10%positive + 1
  ∧ wb_file (deref ex_short_first 11%positive)
    = wb_file (deref ex_short_first 10%positive).
Proof. by vm_compute. Qed.

(** C2 at [ex_two_pages]: the WRITE call for the two pages fails with -5. *)
Lemma writeback_done_failure_witness :
  ∃ s', nfs_writeback_done 500 0 5 true 3 0 ex_data (-5) ex_two_pages = Some s'
    ∧ chain s' (wd_pages ex_data) = []
    ∧ ∀ req, req ∈ chain ex_two_pages (wd_pages ex_data) →
        f_error s' !! (wb_file (deref ex_two_pages req)) = Some (-5)
        ∧ (req ∉ writeback s')
        ∧ (∀ h, req ∉ chain s' h)
        ∧ NFS_WBACK_BUSY (deref s' req) = 0.
Proof.
  apply (writeback_done_failure 500 0 5 true 3 0 ex_data (-5) ex_two_pages).
  - lia.
  - vm_compute. lia.
Defined.

(** C2 fails as stated: after the failed call the dirty list is empty
    and so is the index of the inode: the requests of the batch were
    removed, not made dirty again. *)
Lemma writeback_done_failure_counterexample :
  (λ s', (chain s' I_DIRTY, writeback s'))
    <$> nfs_writeback_done 500 0 5 true 3 0 ex_data (-5) ex_two_pages
  = Some ([], [])
  ∧ writeback ex_two_pages = [11%positive; 10%positive].
Proof. by vm_compute. Qed.

(** C3 at [ex_two_pages]: the COMMIT call succeeds; the server's
    verifier is that of request 10 and not that of request 11. *)
Lemma commit_done_verifier_witness :
  ∃ s', nfs_commit_done 3 ex_data 0 ex_two_pages = Some s'
    ∧ chain s' (wd_pages ex_data) = []
    ∧ ∀ req, req ∈ chain ex_two_pages (wd_pages ex_data) →
        NFS_WBACK_BUSY (deref s' req) = 0
        ∧ (verifier (wb_verf (deref ex_two_pages req)) = verifier (wd_verf ex_data) →
             (req ∉ writeback s') ∧ (∀ h, req ∉ chain s' h)
             ∧ wb_count (deref s' req) < wb_count (deref ex_two_pages req))
        ∧ (verifier (wb_verf (deref ex_two_pages req)) ≠ verifier (wd_verf ex_data) →
             req ∈ chain s' I_DIRTY ∧ req ∈ writeback s'
             ∧ nfs_dirty_request s' req = true).
Proof.
  apply (commit_done_verifier 3 ex_data 0 ex_two_pages).
  - lia.
  - done.
  - by_evaluation.
  - vm_compute. lia.
Defined.



(** C5 at [ex_offset_second]: request 11, for the page after that of
    request 10, begins at byte 100 of its page; it closes the batch
    before it is taken: the batch is request 10 alone, and request 11
    stays on the source list. *)
Lemma coalesce_requests_offsets_witness :
  (∃ batch rest s',
     coalesce_requests 4096 3 5%positive 6%positive 8 ex_offset_second
     = Some (Z.of_nat (length batch), s')
     ∧ chain ex_offset_second 5%positive = batch ++ rest
     ∧ chain s' 6%positive = batch ∧ chain s' 5%positive = rest
     ∧ (∀ i b, batch !! S i = Some b → wb_offset (deref ex_offset_second b) = 0)
     ∧ (∀ i a, batch !! i = Some a → (S i < length batch)%nat →
          to_page_end 4096 ex_offset_second a)
     ∧ (∀ a b, last batch = Some a → head rest = Some b →
          wb_file (deref ex_offset_second b) = wb_file (deref ex_offset_second a) →
          page_index ex_offset_second b = u32 (page_index ex_offset_second a + 1) →
          to_page_end 4096 ex_offset_second a → Z.of_nat (length batch) < 8 →
          wb_offset (deref ex_offset_second b) ≠ 0))
  ∧ batch_of 6%positive (coalesce_requests 4096 3 5%positive 6%positive 8 ex_offset_second)
    = Some [10%positive]
  ∧ batch_of 5%positive (coalesce_requests 4096 3 5%positive 6%positive 8 ex_offset_second)
    = Some [11%positive]
  ∧ wb_offset (deref ex_offset_second 11%positive) = 100
  ∧ page_index ex_offset_second 11%positive
    = u32 (page_index ex_offset_second 10%positive + 1)
  ∧ to_page_end 4096 ex_offset_second 10%positive.
Proof.
  split; [|by vm_compute].
  apply (coalesce_requests_offsets 4096 3 ex_offset_second 5%positive 6%positive 8).
  - done.
  - reflexivity.
  - lia.
  - by_evaluation.
  - by_evaluation.
  - vm_compute. lia.
Defined.

(** C5 fails as stated: request 10 begins at byte 100 of its page and is
    taken first; the batch goes on with request 11, so the request with
    the non-zero offset is not the last one of its batch. *)
Lemma coalesce_requests_offsets_counterexample :
  batch_of 6%positive (coalesce_requests 4096 3 5%positive 6%positive 8 ex_offset_first)
  = Some [10%positive; 11%positive]
  ∧ wb_offset (deref ex_offset_first 10%positive) = 100.
Proof. by vm_compute. Qed.

(** C6 at [ex_two_pages]: a call fails with -28. *)
Lemma failed_completion_overwrites_error_witness :
  (∃ s', nfs_writeback_done 500 0 5 true 3 0 ex_data (-28) ex_two_pages = Some s'
     ∧ f_error s' !! (wb_file (deref ex_two_pages 10%positive)) = Some (-28))
  ∧ (∃ s', nfs_commit_done 3 ex_data (-28) ex_two_pages = Some s'
     ∧ f_error s' !! (wb_file (deref ex_two_pages 10%positive)) = Some (-28)).
Proof.
  apply (failed_completion_overwrites_error 500 0 5 true 3 0 ex_data (-28)
           ex_two_pages 10%positive).
  - lia.
  - by_evaluation.
  - vm_compute. lia.
Defined.

(** C6 fails as stated: the file holds the error -5 of an earlier call;
    after a call that fails with -28 it holds -28. *)
Lemma failed_completion_overwrites_error_counterexample :
  f_error ex_two_pages !! 7 = Some (-5)
  ∧ (λ s', f_error s' !! 7)
      <$> nfs_writeback_done 500 0 5 true 3 0 ex_data (-28) ex_two_pages
    = Some (Some (-28))
  ∧ (λ s', f_error s' !! 7) <$> nfs_commit_done 3 ex_data (-28) ex_two_pages
    = Some (Some (-28)).
Proof. by vm_compute. Qed.

(** C7 at [ex_dirty]: 50 bytes are written at offset 100 of page 1,
    behind the 100 bytes of request 10. *)
Lemma update_request_widens_witness :
  ∃ s',
    nfs_update_request 192 256 12 16 1 ex_env 7 (Page 1001 1) 100 50 ex_dirty
    = (UpdReq 10%positive, s')
    ∧ wb_offset (deref s' 10%positive)
      = Z.min 100 (wb_offset (deref ex_dirty 10%positive))
    ∧ wb_offset (deref s' 10%positive) + wb_bytes (deref s' 10%positive)
      = Z.max (100 + 50)
          (wb_offset (deref ex_dirty 10%positive) + wb_bytes (deref ex_dirty 10%positive))
    ∧ writeback s' = writeback ex_dirty ∧ lists s' = lists ex_dirty
    ∧ dom (mem s') = dom (mem ex_dirty)
    ∧ ∃ s'',
        nfs_update_request 192 256 12 16 1 ex_env 7 (Page 1001 1) 100 50 s'
        = (UpdReq 10%positive, s'')
        ∧ wb_offset (deref s'' 10%positive) = wb_offset (deref s' 10%positive)
        ∧ wb_bytes (deref s'' 10%positive) = wb_bytes (deref s' 10%positive)
        ∧ writeback s'' = writeback ex_dirty ∧ lists s'' = lists ex_dirty
        ∧ dom (mem s'') = dom (mem ex_dirty).
Proof.
  apply (update_request_widens 192 256 12 16 0 ex_env 7 (Page 1001 1) 100 50 ex_dirty
           10%positive).
  - split.
    + by eexists.
    + by_evaluation.
    + by_evaluation.
    + reflexivity.
    + reflexivity.
    + reflexivity.
    + reflexivity.
    + vm_compute. split_and!; first [discriminate|reflexivity].
  - vm_compute. split; [discriminate|reflexivity].
  - lia.
  - lia.
  - lia.
  - vm_compute. discriminate.
  - vm_compute. discriminate.
Defined.

(** C8 at [ex_idle]: a write, a flush and a commit. *)
Lemma single_membership_invariant_witness :
  ∃ s', run_ops 4096 12 500 0 5 true ex_ops ex_idle = Some s'
    ∧ single_membership s'
    ∧ ∀ req, ¬ (req ∈ chain s' I_DIRTY ∧ req ∈ chain s' I_COMMIT).
Proof.
  apply (single_membership_invariant 4096 12 500 0 5 true ex_ops ex_idle).
  - repeat constructor; done.
  - apply ex_idle_single.
Defined.

(** C9 at [ex_idle]: request 10 is not locked. *)
Lemma unlock_not_busy_noop_witness : nfs_unlock_request 10%positive ex_idle = ex_idle.
Proof. apply (unlock_not_busy_noop 10%positive ex_idle). reflexivity. Defined.

(** C10 at [ex_reply]: 4096 bytes go out in chunks of 1024; the second
    chunk fails, and 1024 is returned. *)
Lemma writepage_sync_partial_witness :
  ∃ r, nfs_writepage_sync ex_refresh 5 ex_reply ex_attrs 1024 4096 0 4096 (ex_inode 0) true
       = Some r
    ∧ sync_uptodate r = false
    ∧ (1%nat = 0%nat → sync_ret r = ex_reply 0%nat)
    ∧ (1%nat ≠ 0%nat → sync_ret r = Z.of_nat 1 * Z.min 1024 4096 ∧ 0 < sync_ret r).
Proof.
  refine (proj1 (writepage_sync_partial ex_refresh ex_reply ex_attrs 1024 4096 0 4096
                   (ex_inode 0) true _ _) 5%nat 1%nat _ _ _ _).
  - lia.
  - lia.
  - intros j Hj. assert (j = 0%nat) as -> by lia. vm_compute. discriminate.
  - reflexivity.
  - vm_compute. reflexivity.
  - lia.
Defined.

(** ** The further properties at example states *)

Ltac ordered_by_evaluation :=
  unfold ordered; apply (bool_decide_unpack _); vm_compute; exact I.

(** X1 at [ex_dirty]: request 11, for page 2, goes behind request 10 on
    the dirty list. *)
Lemma list_add_request_sorted_witness :
  ∃ l1 l2,
    chain ex_dirty I_DIRTY = l1 ++ l2
    ∧ chain (nfs_list_add_request 11%positive I_DIRTY ex_dirty) I_DIRTY
      = l1 ++ 11%positive :: l2
    ∧ Forall (λ x, page_index ex_dirty x < page_index ex_dirty 11%positive) l1
    ∧ Forall (λ x, page_index ex_dirty 11%positive ≤ page_index ex_dirty x) l2
    ∧ ordered (nfs_list_add_request 11%positive I_DIRTY ex_dirty)
              (chain (nfs_list_add_request 11%positive I_DIRTY ex_dirty) I_DIRTY)
    ∧ ∀ h', h' ≠ I_DIRTY →
        chain (nfs_list_add_request 11%positive I_DIRTY ex_dirty) h' = chain ex_dirty h'.
Proof.
  apply (list_add_request_sorted 11%positive I_DIRTY ex_dirty).
  - reflexivity.
  - reflexivity.
  - ordered_by_evaluation.
Defined.

(** X2 at [ex_idle]: request 10 is not locked and has one reference. *)
Lemma lock_unlock_restores_witness :
  fst (nfs_lock_request 10%positive ex_idle) = true
  ∧ nfs_unlock_request 10%positive (snd (nfs_lock_request 10%positive ex_idle))
    = set_woken (10%positive :: woken ex_idle) ex_idle.
Proof.
  apply (lock_unlock_restores 10%positive ex_idle).
  - eexists. reflexivity.
  - reflexivity.
  - vm_compute. split; [discriminate|reflexivity].
Defined.

(** X3 at [ex_idle]: request 10 has one reference. *)
Lemma release_last_reference_witness :
  (wb_count (deref ex_idle 10%positive) = 1 →
     mem (nfs_release_request 10%positive ex_idle) = delete 10%positive (mem ex_idle)
     ∧ (∀ h, chain (nfs_release_request 10%positive ex_idle) h
             = filter (λ q, q ≠ 10%positive) (chain ex_idle h))
     ∧ writeback (nfs_release_request 10%positive ex_idle)
       = filter (λ q, q ≠ 10%positive) (writeback ex_idle)
     ∧ nfs_nr_requests (nfs_release_request 10%positive ex_idle)
       = u32 (nfs_nr_requests ex_idle - 1)
     ∧ npages (nfs_release_request 10%positive ex_idle)
       = (if hashed ex_idle 10%positive then u32 (npages ex_idle - 1)
          else npages ex_idle))
  ∧ (wb_count (deref ex_idle 10%positive) ≠ 1 →
     nfs_release_request 10%positive ex_idle
     = upd 10%positive (set_wb_count (wb_count (deref ex_idle 10%positive) - 1)) ex_idle).
Proof.
  apply (release_last_reference 10%positive ex_idle).
  vm_compute. split; [discriminate|reflexivity].
Defined.

(** X4 at [ex_new]: request 12 is hashed and unhashed again. *)
Lemma inode_add_remove_restores_witness :
  nfs_inode_remove_request 12%positive (nfs_inode_add_request 12%positive ex_new) = ex_new.
Proof.
  apply (inode_add_remove_restores 12%positive ex_new).
  - eexists. reflexivity.
  - apply (bool_decide_unpack _). vm_compute. exact I.
  - vm_compute. split; [discriminate|reflexivity].
  - vm_compute. split; [discriminate|reflexivity].
Defined.

(** X5 at [ex_new]: request 12 is found for page 3 once it is hashed. *)
Lemma find_after_add_witness :
  fst (_nfs_find_request (Page 1003 3) (nfs_inode_add_request 12%positive ex_new))
  = Some 12%positive.
Proof.
  apply (find_after_add 12%positive (Page 1003 3) ex_new).
  - apply (bool_decide_unpack _). vm_compute. exact I.
  - reflexivity.
Defined.

(** X7 at [ex_idle]: a write of file 7 to page 1 finds request 10. *)
Lemma flush_incompatible_compatible_witness :
  nfs_flush_incompatible (λ _ s, (0, s)) 7 (Page 1001 1) ex_idle = (0, ex_idle).
Proof.
  apply (flush_incompatible_compatible (λ _ s, (0, s)) 7 (Page 1001 1) ex_idle 10%positive).
  - eexists. reflexivity.
  - apply (bool_decide_unpack _). vm_compute. exact I.
  - reflexivity.
  - apply (bool_decide_unpack _). vm_compute. exact I.
  - reflexivity.
  - reflexivity.
  - vm_compute. split; [discriminate|reflexivity].
Defined.


(** X9: page 2 of a file of 5000 bytes. *)
Lemma writepage_beyond_eof_witness :
  nfs_writepage 4096 12 5 ex_refresh 4096 ex_reply_ok ex_attrs 1024 (Page 1002 2)
    (ex_inode 5000) true
  = Some (SyncResult (- 5) (ex_inode 5000) true []).
Proof.
  apply (writepage_beyond_eof 4096 12 5 ex_refresh 4096 ex_reply_ok ex_attrs 1024
           (Page 1002 2) (ex_inode 5000) true).
  - reflexivity.
  - lia.
  - simpl. lia.
  - simpl. lia.
Defined.


Ltac in_flight_by_evaluation :=
  repeat constructor;
  try (apply (bool_decide_unpack _); vm_compute; exact I);
  try (vm_compute; discriminate); try (vm_compute; reflexivity).

(** X11 at [ex_both_dirty]: a scan of the dirty list for every file and
    page moves both requests to the list at address 5. *)
Lemma scan_list_partition_witness :
  fst (nfs_scan_list 12 I_DIRTY 5%positive 0 0 0 ex_both_dirty)
  = Z.of_nat (length (chain (snd (nfs_scan_list 12 I_DIRTY 5%positive 0 0 0 ex_both_dirty))
                            5%positive))
  ∧ chain (snd (nfs_scan_list 12 I_DIRTY 5%positive 0 0 0 ex_both_dirty)) 5%positive
    = taken 0 (idx_start_of 12 0) (idx_end_of 12 0 0) ex_both_dirty
            (chain ex_both_dirty I_DIRTY)
  ∧ chain (snd (nfs_scan_list 12 I_DIRTY 5%positive 0 0 0 ex_both_dirty)) I_DIRTY
    = left_behind 0 (idx_start_of 12 0) (idx_end_of 12 0 0) ex_both_dirty
                  (chain ex_both_dirty I_DIRTY)
  ∧ (∀ q, mem (snd (nfs_scan_list 12 I_DIRTY 5%positive 0 0 0 ex_both_dirty)) !! q
          = if decide (q ∈ chain ex_both_dirty I_DIRTY
                       ∧ scan_selects 0 (idx_start_of 12 0) (idx_end_of 12 0 0)
                                      ex_both_dirty q = true)
            then moved 5%positive <$> mem ex_both_dirty !! q
            else mem ex_both_dirty !! q)
  ∧ writeback (snd (nfs_scan_list 12 I_DIRTY 5%positive 0 0 0 ex_both_dirty))
    = writeback ex_both_dirty.
Proof.
  apply (scan_list_partition 12 I_DIRTY 5%positive 0 0 0 ex_both_dirty).
  - discriminate.
  - reflexivity.
  - by_evaluation.
  - repeat constructor.
  - vm_compute. reflexivity.
Defined.

(** X12 at [ex_both_dirty]: after the scan no request is counted as
    dirty. *)
Lemma scan_dirty_counted_witness :
  dirty_counted (snd (nfs_scan_dirty 12 5%positive 0 0 0 ex_both_dirty))
  ∧ fst (nfs_scan_dirty 12 5%positive 0 0 0 ex_both_dirty)
    = Z.of_nat (length (chain (snd (nfs_scan_dirty 12 5%positive 0 0 0 ex_both_dirty))
                              5%positive))
  ∧ chain (snd (nfs_scan_dirty 12 5%positive 0 0 0 ex_both_dirty)) 5%positive
    ++ chain (snd (nfs_scan_dirty 12 5%positive 0 0 0 ex_both_dirty)) I_DIRTY
    ≡ₚ chain ex_both_dirty I_DIRTY
  ∧ NoDup (chain (snd (nfs_scan_dirty 12 5%positive 0 0 0 ex_both_dirty)) 5%positive
           ++ chain (snd (nfs_scan_dirty 12 5%positive 0 0 0 ex_both_dirty)) I_DIRTY).
Proof.
  apply (scan_dirty_counted 12 5%positive 0 0 0 ex_both_dirty).
  - discriminate.
  - reflexivity.
  - by_evaluation.
  - repeat constructor.
  - vm_compute. reflexivity.
  - reflexivity.
Defined.

(** X13 at [ex_dirty]: request 11 becomes the second dirty request. *)
Lemma mark_dirty_counted_witness :
  dirty_counted (nfs_mark_request_dirty 11%positive ex_dirty)
  ∧ (on_list ex_dirty 11%positive = false →
     11%positive ∈ chain (nfs_mark_request_dirty 11%positive ex_dirty) I_DIRTY)
  ∧ nfs_mark_request_dirty 11%positive (nfs_mark_request_dirty 11%positive ex_dirty)
    = nfs_mark_request_dirty 11%positive ex_dirty.
Proof.
  apply (mark_dirty_counted 11%positive ex_dirty).
  - reflexivity.
  - reflexivity.
  - vm_compute. reflexivity.
Defined.

(** X14 at [ex_two_pages]: the two locked requests on the list at
    address 5 are given back. *)
Lemma flush_one_no_memory_witness :
  ∃ s', nfs_flush_one 0 12 ex_line 1 2 3 None ex_queue 5%positive false ex_two_pages
        = Some (- 12, s')
    ∧ chain s' 5%positive = []
    ∧ ∀ req, req ∈ chain ex_two_pages 5%positive →
        nfs_dirty_request s' req = true ∧ req ∈ writeback s'
        ∧ NFS_WBACK_BUSY (deref s' req) = 0
        ∧ deref s' req
          = set_wb_list_head (Some I_DIRTY) (unlocked (deref ex_two_pages req)).
Proof.
  apply (flush_one_no_memory 0 12 ex_line 1 2 3 ex_queue 5%positive false ex_two_pages).
  - discriminate.
  - in_flight_by_evaluation.
  - vm_compute. lia.
Defined.

(** X15 at [ex_two_pages]: the same for a COMMIT call. *)
Lemma commit_list_no_memory_witness :
  ∃ s', nfs_commit_list 12 ex_line 3 None ex_queue 5%positive 8192 ex_two_pages
        = Some (- 12, s')
    ∧ chain s' 5%positive = []
    ∧ ∀ req, req ∈ chain ex_two_pages 5%positive →
        req ∈ chain s' I_COMMIT ∧ req ∈ writeback s'
        ∧ NFS_WBACK_BUSY (deref s' req) = 0
        ∧ deref s' req
          = set_wb_list_head (Some I_COMMIT) (unlocked (deref ex_two_pages req)).
Proof.
  apply (commit_list_no_memory 12 ex_line 3 ex_queue 5%positive 8192 ex_two_pages).
  - discriminate.
  - in_flight_by_evaluation.
  - vm_compute. lia.
Defined.

(** X16 at [ex_two_pages] and [ex_data]: the server wrote the 8192 bytes
    to unstable storage. *)
Lemma writeback_done_unstable_witness :
  ∃ s', nfs_writeback_done 500 0 5 true 3 100 ex_data 8192 ex_two_pages = Some s'
    ∧ chain s' (wd_pages ex_data) = []
    ∧ ∀ req, req ∈ chain ex_two_pages (wd_pages ex_data) →
        req ∈ chain s' I_COMMIT ∧ req ∈ writeback s'
        ∧ NFS_WBACK_BUSY (deref s' req) = 0
        ∧ deref s' req
          = set_wb_list_head (Some I_COMMIT)
              (unlocked (set_wb_timeout (u32 (100 + 500))
                           (set_wb_verf (wd_verf ex_data) (deref ex_two_pages req)))).
Proof.
  apply (writeback_done_unstable 500 0 5 true 3 100 ex_data 8192 ex_two_pages).
  - reflexivity.
  - lia.
  - simpl. lia.
  - reflexivity.
  - discriminate.
  - discriminate.
  - in_flight_by_evaluation.
  - vm_compute. lia.
Defined.

(** X17 at [ex_two_pages] and [ex_data_stable]: the server wrote the
    8192 bytes to stable storage, and both requests are freed. *)
Lemma writeback_done_stable_witness :
  ∃ s', nfs_writeback_done 500 0 5 true 3 100 ex_data_stable 8192 ex_two_pages = Some s'
    ∧ chain s' (wd_pages ex_data_stable) = []
    ∧ f_error s' = f_error ex_two_pages
    ∧ ∀ req, req ∈ chain ex_two_pages (wd_pages ex_data_stable) →
        (req ∉ writeback s') ∧ (∀ h, req ∉ chain s' h)
        ∧ mem s' !! req
          = if decide (wb_count (deref ex_two_pages req) = 2) then None
            else Some (retired (deref ex_two_pages req)).
Proof.
  apply (writeback_done_stable 500 0 5 true 3 100 ex_data_stable 8192 ex_two_pages).
  - right. vm_compute. discriminate.
  - lia.
  - simpl. lia.
  - discriminate.
  - discriminate.
  - in_flight_by_evaluation.
  - vm_compute. lia.
Defined.

(** X18 at [ex_two_pages] and [ex_data_short]: the server wrote 4096 of
    the 8192 bytes. *)
Lemma writeback_done_short_write_witness :
  nfs_writeback_done 500 0 5 true 3 100 ex_data_short 4096 ex_two_pages
  = nfs_writeback_done 500 0 5 true 3 100 ex_data_short (- 5) ex_two_pages
  ∧ ∃ s', nfs_writeback_done 500 0 5 true 3 100 ex_data_short 4096 ex_two_pages = Some s'
      ∧ chain s' (wd_pages ex_data_short) = []
      ∧ ∀ req, req ∈ chain ex_two_pages (wd_pages ex_data_short) →
          failed (- 5) ex_two_pages s' req.
Proof.
  apply (writeback_done_short_write 500 0 5 true 3 100 ex_data_short 4096 ex_two_pages).
  - lia.
  - lia.
  - simpl. lia.
  - vm_compute. lia.
Defined.

(** X19 at [ex_two_pages]: a call for the two requests on the list at
    address 5, with its [pages] at address 6. *)
Lemma write_rpcsetup_call_witness :
  ∃ c s', nfs_write_rpcsetup ex_line 3 5%positive 6%positive ex_two_pages = Some (c, s')
    ∧ chain s' 5%positive = [] ∧ chain s' 6%positive = chain ex_two_pages 5%positive
    ∧ same_requests ex_two_pages s'
    ∧ args_iov c = map (iov_of ex_two_pages) (chain ex_two_pages 5%positive)
    ∧ args_count (rc_data c) = u32 (total_bytes ex_two_pages (chain ex_two_pages 5%positive))
    ∧ res_count (rc_data c) = u32 (total_bytes ex_two_pages (chain ex_two_pages 5%positive))
    ∧ args_nriov c = u32 (Z.of_nat (length (chain ex_two_pages 5%positive)))
    ∧ wd_file (rc_data c) = wb_file (deref ex_two_pages 10%positive)
    ∧ rc_cred c = wb_cred (deref ex_two_pages 10%positive)
    ∧ args_offset c = rq_start ex_line ex_two_pages 10%positive
    ∧ wd_pages (rc_data c) = 6%positive.
Proof.
  apply (write_rpcsetup_call ex_line 3 5%positive 6%positive ex_two_pages 10%positive).
  - discriminate.
  - reflexivity.
  - by_evaluation.
  - repeat constructor.
  - reflexivity.
  - vm_compute. lia.
Defined.

(** X20 at [ex_two_pages]: the two requests are coalesced onto the list
    at address 6 and set up as one call for the bytes 4096 to 12287. *)
Lemma flush_batch_contiguous_witness :
  ∃ batch rest s1 c s2,
    coalesce_requests 4096 3 5%positive 6%positive 8 ex_two_pages
    = Some (Z.of_nat (length batch), s1)
    ∧ nfs_write_rpcsetup ex_line 3 6%positive 8%positive s1 = Some (c, s2)
    ∧ chain ex_two_pages 5%positive = batch ++ rest ∧ chain s2 8%positive = batch
    ∧ args_iov c = map (iov_of ex_two_pages) batch
    ∧ args_count (rc_data c) = u32 (total_bytes ex_two_pages batch)
    ∧ ∀ i req, batch !! i = Some req →
        rq_start ex_line ex_two_pages req
        = args_offset c + total_bytes ex_two_pages (take i batch).
Proof.
  apply (flush_batch_contiguous 4096 ex_line 3 5%positive 6%positive 8%positive 8
           ex_two_pages).
  - intros pg. reflexivity.
  - discriminate.
  - discriminate.
  - reflexivity.
  - reflexivity.
  - lia.
  - by_evaluation.
  - repeat constructor; vm_compute; congruence.
  - discriminate.
  - vm_compute. lia.
Defined.

(** X21 at [ex_two_pages]: a COMMIT for the two requests, in a file of
    16384 bytes. *)
Lemma commit_rpcsetup_covers_witness :
  ∃ c s' e,
    nfs_commit_rpcsetup ex_line 3 5%positive 6%positive 16384 ex_two_pages = Some (c, s')
    ∧ chain s' 5%positive = [] ∧ chain s' 6%positive = chain ex_two_pages 5%positive
    ∧ same_requests ex_two_pages s'
    ∧ wd_file (rc_data c) = wb_file (deref ex_two_pages 10%positive)
    ∧ (∀ req, req ∈ chain ex_two_pages 5%positive →
         args_offset c ≤ rq_start ex_line ex_two_pages req
         ∧ rq_end ex_line ex_two_pages req ≤ e)
    ∧ (∃ req, req ∈ chain ex_two_pages 5%positive
              ∧ args_offset c = rq_start ex_line ex_two_pages req)
    ∧ (∃ req, req ∈ chain ex_two_pages 5%positive ∧ e = rq_end ex_line ex_two_pages req)
    ∧ args_count (rc_data c)
      = (if (16384 <=? e) || (2 ^ 31 - 1 <? e - args_offset c) then 0
         else e - args_offset c)
    ∧ res_count (rc_data c) = args_count (rc_data c).
Proof.
  apply (commit_rpcsetup_covers ex_line 3 5%positive 6%positive 16384 ex_two_pages
           10%positive).
  - discriminate.
  - reflexivity.
  - by_evaluation.
  - repeat constructor; vm_compute; congruence.
  - reflexivity.
  - vm_compute. lia.
Defined.

Lemma ex_one_list_single (h : lhead) (l : list ptr) (s : state) :
  lists s = <[h := l]> ∅ → single_membership s.
Proof.
  intros E req h1 h2 H1 H2. unfold chain in *. rewrite E in H1, H2.
  destruct (decide (h1 = h)) as [->|N1].
  - destruct (decide (h2 = h)) as [->|N2]; [done|].
    rewrite lookup_total_insert_ne, lookup_total_empty in H2 by done.
    by apply elem_of_nil in H2.
  - rewrite lookup_total_insert_ne, lookup_total_empty in H1 by done.
    by apply elem_of_nil in H1.
Qed.

Ltac waiting_by_evaluation :=
  repeat first
    [ apply Forall_nil_2
    | apply Forall_cons; split;
      [ unfold waiting_on; split_and!;
        [ apply (bool_decide_unpack _); vm_compute; exact I
        | reflexivity
        | vm_compute; discriminate
        | vm_compute; reflexivity ]
      | ] ].

(** X22 at [ex_two_pages]: without memory both requests go from the list
    at address 5 to the dirty list. *)
Lemma flush_list_no_memory_witness :
  ∃ t', nfs_flush_list 4096 12 0 12 ex_line 1 2 3 ex_no_memory ex_queue 5%positive
          6%positive 8192 false ex_two_pages
        = Some (- 12, t')
    ∧ chain t' 5%positive = [] ∧ chain t' 6%positive = []
    ∧ ascending ex_two_pages (chain t' I_DIRTY)
    ∧ chain t' I_DIRTY ≡ₚ chain ex_two_pages 5%positive ++ chain ex_two_pages I_DIRTY
    ∧ (∀ q, mem t' !! q
            = if decide (q ∈ chain ex_two_pages 5%positive)
              then Some (set_wb_list_head (Some I_DIRTY) (unlocked (deref ex_two_pages q)))
              else mem ex_two_pages !! q)
    ∧ writeback t' = writeback ex_two_pages
    ∧ counts t'
      = Nat.iter (length (chain ex_two_pages 5%positive)) one_more_dirty
          (counts ex_two_pages).
Proof.
  apply (flush_list_no_memory 4096 12 0 12 ex_line 1 2 3 ex_no_memory ex_queue 5%positive
           6%positive 8192 false ex_two_pages).
  - lia.
  - reflexivity.
  - discriminate.
  - discriminate.
  - discriminate.
  - discriminate.
  - reflexivity.
  - in_flight_by_evaluation.
  - by_evaluation.
  - by_evaluation.
  - apply (bool_decide_unpack _). vm_compute. exact I.
  - vm_compute. lia.
Defined.

(** X23 at [ex_both_dirty]: a flush of the whole file without memory. *)
Lemma flush_file_no_memory_witness :
  ∃ s', nfs_flush_file 4096 12 0 12 ex_line 1 2 3 ex_no_memory ex_queue 5%positive
          6%positive 8192 false 0 0 0 ex_both_dirty
        = Some (- 12, s')
    ∧ restored ex_both_dirty s'.
Proof.
  apply (flush_file_no_memory 4096 12 0 12 ex_line 1 2 3 ex_no_memory ex_queue 5%positive
           6%positive 8192 false 0 0 0 ex_both_dirty).
  - lia.
  - reflexivity.
  - discriminate.
  - discriminate.
  - discriminate.
  - reflexivity.
  - reflexivity.
  - by apply (ex_one_list_single I_DIRTY [10; 11]%positive).
  - by_evaluation.
  - waiting_by_evaluation.
  - vm_compute. reflexivity.
  - vm_compute. split; [discriminate|reflexivity].
  - vm_compute. discriminate.
  - vm_compute. lia.
Defined.

(** X24 at [ex_both_dirty]: a flush for file 9, which has no request. *)
Lemma flush_file_nothing_to_do_witness :
  nfs_flush_file 4096 12 0 12 ex_line 1 2 3 ex_no_memory ex_queue 5%positive 6%positive
    8192 false 9 0 0 ex_both_dirty
  = Some (0, ex_both_dirty).
Proof.
  apply (flush_file_nothing_to_do 4096 12 0 12 ex_line 1 2 3 ex_no_memory ex_queue
           5%positive 6%positive 8192 false 9 0 0 ex_both_dirty).
  - vm_compute. reflexivity.
  - vm_compute. split; [discriminate|reflexivity].
Defined.

(** X25 at [ex_both_commit]: a commit of the whole file without memory. *)
Lemma commit_file_no_memory_witness :
  ∃ s', nfs_commit_file 12 12 ex_line 3 None ex_queue 5%positive 8192 0 0 0 ex_both_commit
        = Some (- 12, s')
    ∧ restored ex_both_commit s'.
Proof.
  apply (commit_file_no_memory 12 12 ex_line 3 ex_queue 5%positive 8192 0 0 0
           ex_both_commit).
  - lia.
  - discriminate.
  - reflexivity.
  - by apply (ex_one_list_single I_COMMIT [10; 11]%positive).
  - by_evaluation.
  - waiting_by_evaluation.
  - vm_compute. reflexivity.
  - vm_compute. split; [discriminate|reflexivity].
  - vm_compute. discriminate.
  - vm_compute. lia.
Defined.

Lemma ex_queue_queues : queues_call ex_queue.
Proof. by intros c u. Qed.

Lemma ex_memory_fresh (l : list ptr) (s : state) :
  lists s = <[5%positive := l]> ∅ ∨ lists s = <[I_DIRTY := l]> ∅ →
  fresh_data ex_memory ex_pages_of 5%positive 6%positive s.
Proof.
  intros E n. unfold ex_pages_of, I_DIRTY in *. split_and!; [done|lia|lia| |intros m; lia].
  unfold chain. destruct E as [-> | ->];
    rewrite lookup_total_insert_ne, lookup_total_empty by lia; done.
Qed.

(** X26 at [ex_two_pages]: with calls of 8192 bytes both requests go out
    in order. *)
Lemma flush_list_sends_all_witness :
  ∃ k t',
    nfs_flush_list 4096 12 0 12 ex_line 1 2 3 ex_memory ex_queue 5%positive 6%positive
      8192 false ex_two_pages
    = Some (Z.of_nat (length (chain ex_two_pages 5%positive)), t')
    ∧ chain t' 5%positive = [] ∧ chain t' 6%positive = []
    ∧ same_requests ex_two_pages t'
    ∧ sent ex_pages_of 0 k t' = chain ex_two_pages 5%positive
    ∧ ∀ m, (m < k)%nat →
        chain t' (ex_pages_of m) ≠ []
        ∧ Z.of_nat (length (chain t' (ex_pages_of m))) ≤ Z.max 1 (u32 (Z.shiftr 8192 12)).
Proof.
  apply (flush_list_sends_all 4096 12 0 12 ex_line 1 2 3 ex_memory ex_pages_of ex_queue
           5%positive 6%positive 8192 false ex_two_pages).
  - discriminate.
  - exact ex_queue_queues.
  - apply (ex_memory_fresh [10; 11]%positive). by left.
  - reflexivity.
  - by_evaluation.
  - apply Forall_forall. repeat constructor.
  - vm_compute. reflexivity.
  - vm_compute. lia.
Defined.

(** X27 at [ex_both_dirty]: a flush of the whole file. *)
Lemma flush_file_sends_all_witness :
  ∃ k s',
    nfs_flush_file 4096 12 0 12 ex_line 1 2 3 ex_memory ex_queue 5%positive 6%positive
      8192 false 0 0 0 ex_both_dirty
    = Some (Z.of_nat (length (taken 0 (idx_start_of 12 0) (idx_end_of 12 0 0) ex_both_dirty
                                (chain ex_both_dirty I_DIRTY))), s')
    ∧ sent ex_pages_of 0 k s'
      = taken 0 (idx_start_of 12 0) (idx_end_of 12 0 0) ex_both_dirty
          (chain ex_both_dirty I_DIRTY)
    ∧ (∀ m, (m < k)%nat →
         chain s' (ex_pages_of m) ≠ []
         ∧ Z.of_nat (length (chain s' (ex_pages_of m))) ≤ Z.max 1 (u32 (Z.shiftr 8192 12)))
    ∧ chain s' I_DIRTY
      = left_behind 0 (idx_start_of 12 0) (idx_end_of 12 0 0) ex_both_dirty
          (chain ex_both_dirty I_DIRTY)
    ∧ chain s' 5%positive = [] ∧ chain s' 6%positive = []
    ∧ Forall (in_flight s')
        (taken 0 (idx_start_of 12 0) (idx_end_of 12 0 0) ex_both_dirty
           (chain ex_both_dirty I_DIRTY)).
Proof.
  apply (flush_file_sends_all 4096 12 0 12 ex_line 1 2 3 ex_memory ex_pages_of ex_queue
           5%positive 6%positive 8192 false 0 0 0 ex_both_dirty).
  - discriminate.
  - discriminate.
  - discriminate.
  - intros n. unfold ex_pages_of, I_DIRTY. lia.
  - exact ex_queue_queues.
  - apply (ex_memory_fresh [10; 11]%positive). by right.
  - reflexivity.
  - reflexivity.
  - by apply (ex_one_list_single I_DIRTY [10; 11]%positive).
  - by_evaluation.
  - waiting_by_evaluation.
  - vm_compute. reflexivity.
  - vm_compute. lia.
Defined.

(** X28 at [ex_both_commit]: a commit of the whole file, with the data of
    the call at address 8. *)
Lemma commit_file_sends_all_witness :
  ∃ s',
    nfs_commit_file 12 12 ex_line 3 (Some 8%positive) ex_queue 5%positive 8192 0 0 0
      ex_both_commit
    = Some (Z.of_nat (length (taken 0 (idx_start_of 12 0) (idx_end_of 12 0 0)
                                ex_both_commit (chain ex_both_commit I_COMMIT))), s')
    ∧ chain s' 8%positive
      = taken 0 (idx_start_of 12 0) (idx_end_of 12 0 0) ex_both_commit
          (chain ex_both_commit I_COMMIT)
    ∧ chain s' I_COMMIT
      = left_behind 0 (idx_start_of 12 0) (idx_end_of 12 0 0) ex_both_commit
          (chain ex_both_commit I_COMMIT)
    ∧ chain s' 5%positive = []
    ∧ Forall (in_flight s')
        (taken 0 (idx_start_of 12 0) (idx_end_of 12 0 0) ex_both_commit
           (chain ex_both_commit I_COMMIT)).
Proof.
  apply (commit_file_sends_all 12 12 ex_line 3 8%positive ex_queue 5%positive 8192 0 0 0
           ex_both_commit).
  - discriminate.
  - discriminate.
  - discriminate.
  - exact ex_queue_queues.
  - reflexivity.
  - reflexivity.
  - by apply (ex_one_list_single I_COMMIT [10; 11]%positive).
  - by_evaluation.
  - waiting_by_evaluation.
  - repeat constructor; vm_compute; congruence.
  - vm_compute. reflexivity.
  - vm_compute. lia.
Defined.

(** X29 at [ex_two_pages]: the COMMIT call fails with -5; request 11,
    whose verifier is not the one of the data, goes the way of request
    10. *)
Lemma commit_done_failure_witness :
  ∃ s', nfs_commit_done 3 ex_data (-5) ex_two_pages = Some s'
    ∧ chain s' (wd_pages ex_data) = []
    ∧ ∀ req, req ∈ chain ex_two_pages (wd_pages ex_data) →
        f_error s' !! (wb_file (deref ex_two_pages req)) = Some (-5)
        ∧ (req ∉ writeback s')
        ∧ (∀ h, req ∉ chain s' h)
        ∧ NFS_WBACK_BUSY (deref s' req) = 0.
Proof.
  apply (commit_done_failure 3 ex_data (-5) ex_two_pages).
  - lia.
  - vm_compute. lia.
Defined.
